(** * Adafruit_Thermal: the thermal printer driver, embedded and verified

    A shallow embedding of [src/Adafruit_Thermal.cpp] (the DFRobot GY-EH402
    fork of the Adafruit thermal printer library).  The driver object and the
    board it runs on (clock, handshake pin, serial line) are records; every
    method is a function from state to state, written statement by statement
    after the C++ body it embeds. *)

From Stdlib Require Import ZArith List Bool Ascii Lia.
Import ListNotations.
Local Open Scope Z_scope.

(** ** Machine integers

    [uint8_t], [uint16_t] and [unsigned long] (32 bits on every Arduino target)
    are kept as [Z] with the wrap-around written out at each store. [int] is
    kept as an unbounded [Z]: signed overflow is undefined in C++ and none of
    the properties below is stated on a path that reaches it.  Where a
    [uint16_t] is passed as an [int] (the header of a streamed bitmap) the
    conversion is written out, with the width of [int] as a parameter. *)

Definition u8 (x : Z) : Z := x mod 256.
Definition u16 (x : Z) : Z := x mod 65536.
Definition u32 (x : Z) : Z := x mod 4294967296.

(** The cast [(long) x] of a 32-bit unsigned value. *)
Definition s32 (x : Z) : Z :=
  let r := u32 x in if r <? 2147483648 then r else r - 4294967296.

(** The conversion of [x] to a signed integer [bits] wide: [int] has 16 bits
    on AVR and 32 on the ARM and ESP targets. *)
Definition sint (bits x : Z) : Z :=
  let r := x mod 2 ^ bits in
  if r <? 2 ^ (bits - 1) then r else r - 2 ^ bits.

(** C++ [x / y] on signed operands truncates toward zero. *)
Definition cdiv (x y : Z) : Z := Z.quot x y.

(** [toupper] in the C locale. *)
Definition toupper (c : Z) : Z :=
  if (97 <=? c) && (c <=? 122) then c - 32 else c.

(** The code of a character literal, as in ['d']. *)
Definition chr (c : ascii) : Z := Z.of_nat (nat_of_ascii c).

(** ** Constants of the source *)

Definition BAUDRATE : Z := 9600.

Definition ASCII_TAB : Z := 9.
Definition ASCII_LF : Z := 10.
Definition ASCII_FF : Z := 12.
Definition ASCII_CR : Z := 13.
Definition ASCII_DC2 : Z := 18.
Definition ASCII_ESC : Z := 27.
Definition ASCII_FS : Z := 28.
Definition ASCII_GS : Z := 29.
Definition FIN_CMD : Z := 12.

(** [#define BYTE_TIME (((11L * 1000000L) + (BAUDRATE / 2)) / BAUDRATE)],
    as a function of the bit rate the macro [BAUDRATE] is set to. *)
Definition BYTE_TIME_at (rate : Z) : Z :=
  cdiv (11 * 1000000 + cdiv rate 2) rate.

Definition BYTE_TIME : Z := BYTE_TIME_at BAUDRATE.

Definition FONT_MASK : Z := Z.shiftl 1 0.
Definition INVERSE_MASK : Z := Z.shiftl 1 1.
Definition UPDOWN_MASK : Z := Z.shiftl 1 2.
Definition BOLD_MASK : Z := Z.shiftl 1 3.
Definition DOUBLE_HEIGHT_MASK : Z := Z.shiftl 1 4.
Definition DOUBLE_WIDTH_MASK : Z := Z.shiftl 1 5.
Definition STRIKE_MASK : Z := Z.shiftl 1 6.

(** ** The driver object

    Modelled from the spec: the class declaration ([Adafruit_Thermal.h]) is
    not among the sources, so the member list is the spec's PrinterSession
    with the names the methods use.  The widths are those the methods show:
    [resumeTime], [dotPrintTime] and [dotFeedTime] are [unsigned long]
    ([timeoutSet], [setTimes]); [firmware] is the [uint16_t] of [begin]; the
    formatting registers are single bytes ([uint8_t]), as the byte-sized
    command arguments, masks and defaults (255) of the methods treat them. *)
Record Thermal : Type := mkThermal {
  dtrPin : Z;
  dtrEnabled : bool;
  firmware : Z;
  resumeTime : Z;
  dotPrintTime : Z;
  dotFeedTime : Z;
  printMode : Z;
  prevByte : Z;
  column : Z;
  maxColumn : Z;
  charWidth : Z;
  charHeight : Z;
  lineSpacing : Z;
  barcodeHeight : Z;
  maxChunkHeight : Z;
  fontData : Z;
  autoLineHeight : bool
}.

(** ** The board: what the driver reads and writes outside itself

    - [clock] is the value [micros()] returns;
    - [dtrLine] is the sequence of levels the next reads of the handshake pin
      give ([true] is HIGH, printer busy); once it is used up the pin reads LOW;
    - [wire] is every byte handed to [stream->write], oldest first;
    - [inbox] answers the polls of the receiving side of [stream]: [None] is a
      poll that finds nothing, [Some b] a byte waiting to be read. *)
Record Board : Type := mkBoard {
  clock : Z;
  dtrLine : list bool;
  wire : list Z;
  inbox : list (option Z)
}.

Record State : Type := mkState { dev : Thermal; hw : Board }.

(** Field updates. *)
Definition set_dtrEnabled (v : bool) (t : Thermal) : Thermal :=
  mkThermal (dtrPin t) v (firmware t) (resumeTime t) (dotPrintTime t)
    (dotFeedTime t) (printMode t) (prevByte t) (column t) (maxColumn t)
    (charWidth t) (charHeight t) (lineSpacing t) (barcodeHeight t)
    (maxChunkHeight t) (fontData t) (autoLineHeight t).
Definition set_firmware (v : Z) (t : Thermal) : Thermal :=
  mkThermal (dtrPin t) (dtrEnabled t) v (resumeTime t) (dotPrintTime t)
    (dotFeedTime t) (printMode t) (prevByte t) (column t) (maxColumn t)
    (charWidth t) (charHeight t) (lineSpacing t) (barcodeHeight t)
    (maxChunkHeight t) (fontData t) (autoLineHeight t).
Definition set_resumeTime (v : Z) (t : Thermal) : Thermal :=
  mkThermal (dtrPin t) (dtrEnabled t) (firmware t) v (dotPrintTime t)
    (dotFeedTime t) (printMode t) (prevByte t) (column t) (maxColumn t)
    (charWidth t) (charHeight t) (lineSpacing t) (barcodeHeight t)
    (maxChunkHeight t) (fontData t) (autoLineHeight t).
Definition set_dotPrintTime (v : Z) (t : Thermal) : Thermal :=
  mkThermal (dtrPin t) (dtrEnabled t) (firmware t) (resumeTime t) v
    (dotFeedTime t) (printMode t) (prevByte t) (column t) (maxColumn t)
    (charWidth t) (charHeight t) (lineSpacing t) (barcodeHeight t)
    (maxChunkHeight t) (fontData t) (autoLineHeight t).
Definition set_dotFeedTime (v : Z) (t : Thermal) : Thermal :=
  mkThermal (dtrPin t) (dtrEnabled t) (firmware t) (resumeTime t)
    (dotPrintTime t) v (printMode t) (prevByte t) (column t) (maxColumn t)
    (charWidth t) (charHeight t) (lineSpacing t) (barcodeHeight t)
    (maxChunkHeight t) (fontData t) (autoLineHeight t).
Definition set_printMode (v : Z) (t : Thermal) : Thermal :=
  mkThermal (dtrPin t) (dtrEnabled t) (firmware t) (resumeTime t)
    (dotPrintTime t) (dotFeedTime t) v (prevByte t) (column t) (maxColumn t)
    (charWidth t) (charHeight t) (lineSpacing t) (barcodeHeight t)
    (maxChunkHeight t) (fontData t) (autoLineHeight t).
Definition set_prevByte (v : Z) (t : Thermal) : Thermal :=
  mkThermal (dtrPin t) (dtrEnabled t) (firmware t) (resumeTime t)
    (dotPrintTime t) (dotFeedTime t) (printMode t) v (column t) (maxColumn t)
    (charWidth t) (charHeight t) (lineSpacing t) (barcodeHeight t)
    (maxChunkHeight t) (fontData t) (autoLineHeight t).
Definition set_column (v : Z) (t : Thermal) : Thermal :=
  mkThermal (dtrPin t) (dtrEnabled t) (firmware t) (resumeTime t)
    (dotPrintTime t) (dotFeedTime t) (printMode t) (prevByte t) v (maxColumn t)
    (charWidth t) (charHeight t) (lineSpacing t) (barcodeHeight t)
    (maxChunkHeight t) (fontData t) (autoLineHeight t).
Definition set_maxColumn (v : Z) (t : Thermal) : Thermal :=
  mkThermal (dtrPin t) (dtrEnabled t) (firmware t) (resumeTime t)
    (dotPrintTime t) (dotFeedTime t) (printMode t) (prevByte t) (column t) v
    (charWidth t) (charHeight t) (lineSpacing t) (barcodeHeight t)
    (maxChunkHeight t) (fontData t) (autoLineHeight t).
Definition set_charWidth (v : Z) (t : Thermal) : Thermal :=
  mkThermal (dtrPin t) (dtrEnabled t) (firmware t) (resumeTime t)
    (dotPrintTime t) (dotFeedTime t) (printMode t) (prevByte t) (column t)
    (maxColumn t) v (charHeight t) (lineSpacing t) (barcodeHeight t)
    (maxChunkHeight t) (fontData t) (autoLineHeight t).
Definition set_charHeight (v : Z) (t : Thermal) : Thermal :=
  mkThermal (dtrPin t) (dtrEnabled t) (firmware t) (resumeTime t)
    (dotPrintTime t) (dotFeedTime t) (printMode t) (prevByte t) (column t)
    (maxColumn t) (charWidth t) v (lineSpacing t) (barcodeHeight t)
    (maxChunkHeight t) (fontData t) (autoLineHeight t).
Definition set_lineSpacing (v : Z) (t : Thermal) : Thermal :=
  mkThermal (dtrPin t) (dtrEnabled t) (firmware t) (resumeTime t)
    (dotPrintTime t) (dotFeedTime t) (printMode t) (prevByte t) (column t)
    (maxColumn t) (charWidth t) (charHeight t) v (barcodeHeight t)
    (maxChunkHeight t) (fontData t) (autoLineHeight t).
Definition set_barcodeHeight (v : Z) (t : Thermal) : Thermal :=
  mkThermal (dtrPin t) (dtrEnabled t) (firmware t) (resumeTime t)
    (dotPrintTime t) (dotFeedTime t) (printMode t) (prevByte t) (column t)
    (maxColumn t) (charWidth t) (charHeight t) (lineSpacing t) v
    (maxChunkHeight t) (fontData t) (autoLineHeight t).
Definition set_maxChunkHeight (v : Z) (t : Thermal) : Thermal :=
  mkThermal (dtrPin t) (dtrEnabled t) (firmware t) (resumeTime t)
    (dotPrintTime t) (dotFeedTime t) (printMode t) (prevByte t) (column t)
    (maxColumn t) (charWidth t) (charHeight t) (lineSpacing t)
    (barcodeHeight t) v (fontData t) (autoLineHeight t).
Definition set_fontData (v : Z) (t : Thermal) : Thermal :=
  mkThermal (dtrPin t) (dtrEnabled t) (firmware t) (resumeTime t)
    (dotPrintTime t) (dotFeedTime t) (printMode t) (prevByte t) (column t)
    (maxColumn t) (charWidth t) (charHeight t) (lineSpacing t)
    (barcodeHeight t) (maxChunkHeight t) v (autoLineHeight t).
Definition set_autoLineHeight (v : bool) (t : Thermal) : Thermal :=
  mkThermal (dtrPin t) (dtrEnabled t) (firmware t) (resumeTime t)
    (dotPrintTime t) (dotFeedTime t) (printMode t) (prevByte t) (column t)
    (maxColumn t) (charWidth t) (charHeight t) (lineSpacing t)
    (barcodeHeight t) (maxChunkHeight t) (fontData t) v.

Definition set_clock (v : Z) (h : Board) : Board :=
  mkBoard v (dtrLine h) (wire h) (inbox h).
Definition set_dtrLine (v : list bool) (h : Board) : Board :=
  mkBoard (clock h) v (wire h) (inbox h).
Definition set_wire (v : list Z) (h : Board) : Board :=
  mkBoard (clock h) (dtrLine h) v (inbox h).
Definition set_inbox (v : list (option Z)) (h : Board) : Board :=
  mkBoard (clock h) (dtrLine h) (wire h) v.

(** [on_dev f s] is the member update [f] done on [this]; [on_hw] acts on the
    board. *)
Definition on_dev (f : Thermal -> Thermal) (s : State) : State :=
  mkState (f (dev s)) (hw s).
Definition on_hw (f : Board -> Board) (s : State) : State :=
  mkState (dev s) (f (hw s)).

(** ** Board primitives *)

(** [micros()]. *)
Definition micros (s : State) : Z := clock (hw s).

(** [yield()]: one microsecond goes by. *)
Definition yield (h : Board) : Board := set_clock (u32 (clock h + 1)) h.

(** [delay(ms)]. *)
Definition delay (ms : Z) (s : State) : State :=
  on_hw (fun h => set_clock (u32 (clock h + 1000 * ms)) h) s.

(** [stream->write(b)], [b] a [uint8_t]. *)
Definition stream_write (b : Z) (s : State) : State :=
  on_hw (fun h => set_wire (wire h ++ [u8 b]) h) s.

(** ** Timing throttle *)

(** [timeoutSet]:
    [if (!dtrEnabled) resumeTime = micros() + x;] with [x] an
    [unsigned long]. *)
Definition timeoutSet (x : Z) (s : State) : State :=
  if negb (dtrEnabled (dev s))
  then on_dev (set_resumeTime (u32 (micros s + u32 x))) s
  else s.

(** [while (digitalRead(dtrPin) == HIGH) { yield(); }]
    The script of pin levels is finite and the pin reads LOW once it is used
    up: the model covers the printers that become ready in the end.  On a pin
    that stays HIGH the loop of the source never ends; no script stands for
    that pin, and no property below draws a return under the handshake from
    the script running out. *)
Fixpoint wait_dtr (line : list bool) (h : Board) : Board :=
  match line with
  | [] => h
  | level :: rest =>
      if level then wait_dtr rest (yield (set_dtrLine rest h))
      else set_dtrLine rest h
  end.

(** [while ((long)(micros() - resumeTime) < 0L) { yield(); }]
    The fuel is the number of turns the loop can still need. *)
Fixpoint wait_deadline (fuel : nat) (resume : Z) (h : Board) : Board :=
  match fuel with
  | O => h
  | S fuel' =>
      if s32 (clock h - resume) <? 0
      then wait_deadline fuel' resume (yield h)
      else h
  end.

(** Microseconds still to go before [resume], seen from board [h]. *)
Definition pending (resume : Z) (h : Board) : nat :=
  Z.to_nat (- s32 (clock h - resume)).

(** [timeoutWait]. *)
Definition timeoutWait (s : State) : State :=
  if dtrEnabled (dev s)
  then on_hw (fun h => wait_dtr (dtrLine h) h) s
  else on_hw (fun h =>
         wait_deadline (pending (resumeTime (dev s)) h) (resumeTime (dev s)) h) s.

(** [setTimes]. *)
Definition setTimes (p f : Z) (s : State) : State :=
  on_dev (fun t => set_dotFeedTime (u32 f) (set_dotPrintTime (u32 p) t)) s.

(** ** Command writes: the five overloads of [writeBytes] *)

Definition writeBytes1 (a : Z) (s : State) : State :=
  let s := timeoutWait s in
  let s := stream_write a s in
  timeoutSet BYTE_TIME s.

Definition writeBytes2 (a b : Z) (s : State) : State :=
  let s := timeoutWait s in
  let s := stream_write a s in
  let s := stream_write b s in
  timeoutSet (2 * BYTE_TIME) s.

Definition writeBytes3 (a b c : Z) (s : State) : State :=
  let s := timeoutWait s in
  let s := stream_write a s in
  let s := stream_write b s in
  let s := stream_write c s in
  timeoutSet (3 * BYTE_TIME) s.

Definition writeBytes4 (a b c d : Z) (s : State) : State :=
  let s := timeoutWait s in
  let s := stream_write a s in
  let s := stream_write b s in
  let s := stream_write c s in
  let s := stream_write d s in
  timeoutSet (4 * BYTE_TIME) s.

Definition writeBytes5 (a b c d e : Z) (s : State) : State :=
  let s := timeoutWait s in
  let s := stream_write a s in
  let s := stream_write b s in
  let s := stream_write c s in
  let s := stream_write d s in
  let s := stream_write e s in
  timeoutSet (5 * BYTE_TIME) s.

(** Overload resolution: the call [writeBytes(b1, ..., bN)] goes to the
    overload with N parameters; there is none for N = 0 or N > 5. *)
Definition writeBytes (bs : list Z) (s : State) : option State :=
  match bs with
  | [a] => Some (writeBytes1 a s)
  | [a; b] => Some (writeBytes2 a b s)
  | [a; b; c] => Some (writeBytes3 a b c s)
  | [a; b; c; d] => Some (writeBytes4 a b c d s)
  | [a; b; c; d; e] => Some (writeBytes5 a b c d e s)
  | _ => None
  end.

(** [writeCmdBytes]: the status request, sent without the wait when [d]. *)
Definition writeCmdBytes (a b c : Z) (d : bool) (s : State) : State :=
  let s := if negb d then timeoutWait s else s in
  let s := stream_write a s in
  let s := stream_write b s in
  let s := stream_write c s in
  timeoutSet (3 * BYTE_TIME) s.

(** ** Text writer *)

(** [write(c)], the method under every [print]/[println].  It always returns
    1; the embedding keeps the state. *)
Definition write (c : Z) (s : State) : State :=
  let c := u8 c in
  if negb (c =? 13) then
    let s := timeoutWait s in
    let s := stream_write c s in
    let d := BYTE_TIME in
    let t := dev s in
    if (c =? chr "010") || (column t =? maxColumn t) then
      let d :=
        u32 (d + (if prevByte t =? chr "010"
                  then u32 ((charHeight t + lineSpacing t) * dotFeedTime t)
                  else u32 (u32 (charHeight t * dotPrintTime t)
                            + u32 (lineSpacing t * dotFeedTime t)))) in
      let s := on_dev (set_column 0) s in
      let c := chr "010" in
      let s := timeoutSet d s in
      on_dev (set_prevByte c) s
    else
      let s := on_dev (fun t => set_column (u8 (column t + 1)) t) s in
      let s := timeoutSet d s in
      on_dev (set_prevByte c) s
  else s.

(** [print(str)]: the inherited [Print] class calls [write] on each
    character in turn. *)
Definition print (str : list Z) (s : State) : State :=
  fold_left (fun s c => write c s) str s.

(** [reset]. *)
Definition reset (s : State) : State :=
  let s := writeBytes2 ASCII_ESC (chr "@") s in
  let s := on_dev (set_prevByte (chr "010")) s in
  let s := on_dev (set_column 0) s in
  let s := on_dev (set_maxColumn 32) s in
  let s := on_dev (set_charHeight 24) s in
  let s := on_dev (set_lineSpacing 6) s in
  let s := on_dev (set_barcodeHeight 50) s in
  if 264 <=? firmware (dev s) then
    let s := writeBytes2 ASCII_ESC (chr "D") s in
    let s := writeBytes4 4 8 12 16 s in
    writeBytes4 20 24 28 0 s
  else s.

(** ** Formatting state machine *)

(** The base cell of each font, the [switch] of [adjustCharValues]. *)
Definition font_cell (currentFont : Z) : Z * Z :=
  match currentFont with
  | 1 => (9, 24)
  | 2 => (9, 17)
  | 3 => (8, 16)
  | 4 => (16, 16)
  | _ => (12, 24)
  end.

(** [adjustCharValues]. *)
Definition adjustCharValues (s : State) : State :=
  let currentFont := u8 (Z.land (fontData (dev s)) 7) in
  let s := on_dev (set_charWidth (fst (font_cell currentFont))) s in
  let s := on_dev (set_charHeight (snd (font_cell currentFont))) s in
  let s :=
    if negb (Z.land (printMode (dev s)) DOUBLE_WIDTH_MASK =? 0) then
      let s := on_dev (fun t => set_charWidth (u8 (charWidth t * 2)) t) s in
      on_dev (fun t => set_maxColumn (u8 (cdiv (maxColumn t) 2)) t) s
    else s in
  let s :=
    if negb (Z.land (printMode (dev s)) DOUBLE_HEIGHT_MASK =? 0) then
      on_dev (fun t => set_charHeight (u8 (charHeight t * 2)) t) s
    else s in
  let s := on_dev (fun t => set_maxColumn (u8 (cdiv 384 (charWidth t))) t) s in
  let fontStyle := u8 (Z.shiftl (Z.land (printMode (dev s)) 32) 2) in
  let fontStyle :=
    u8 (Z.lor fontStyle (Z.shiftr (Z.land (printMode (dev s)) 16) 1)) in
  let s := on_dev (set_fontData (u8 (Z.lor fontStyle currentFont))) s in
  let s := writeBytes4 ASCII_ESC (chr "M") currentFont FIN_CMD s in
  let s := writeBytes4 ASCII_GS (chr "!") (Z.shiftr fontStyle 3) FIN_CMD s in
  if autoLineHeight (dev s) then
    writeBytes3 ASCII_ESC (chr "3")
      (charHeight (dev s) + lineSpacing (dev s)) s
  else s.

(** [writePrintMode]. *)
Definition writePrintMode (s : State) : State :=
  writeBytes3 ASCII_ESC (chr "!") (printMode (dev s)) s.

(** [setPrintMode]. *)
Definition setPrintMode (mask : Z) (s : State) : State :=
  let s := on_dev (fun t => set_printMode (u8 (Z.lor (printMode t) (u8 mask))) t) s in
  let s := writePrintMode s in
  adjustCharValues s.

(** [unsetPrintMode]: [printMode &= ~mask]. *)
Definition unsetPrintMode (mask : Z) (s : State) : State :=
  let s := on_dev (fun t =>
             set_printMode (u8 (Z.land (printMode t) (Z.lnot (u8 mask)))) t) s in
  let s := writePrintMode s in
  adjustCharValues s.

(** [normal]. *)
Definition normal (s : State) : State :=
  let s := on_dev (set_printMode 0) s in
  writePrintMode s.

Definition autoLineHeightOn (s : State) : State :=
  adjustCharValues (on_dev (set_autoLineHeight true) s).

Definition autoLineHeightOff (s : State) : State :=
  adjustCharValues (on_dev (set_autoLineHeight false) s).

Definition doubleHeightOn : State -> State := setPrintMode DOUBLE_HEIGHT_MASK.
Definition doubleHeightOff : State -> State := unsetPrintMode DOUBLE_HEIGHT_MASK.
Definition doubleWidthOn : State -> State := setPrintMode DOUBLE_WIDTH_MASK.
Definition doubleWidthOff : State -> State := unsetPrintMode DOUBLE_WIDTH_MASK.
Definition strikeOn : State -> State := setPrintMode STRIKE_MASK.
Definition strikeOff : State -> State := unsetPrintMode STRIKE_MASK.
Definition boldOn : State -> State := setPrintMode BOLD_MASK.
Definition boldOff : State -> State := unsetPrintMode BOLD_MASK.

(** [setFont]. *)
Definition setFont (font : Z) (s : State) : State :=
  let font := u8 font in
  let font :=
    if 65 <=? font then
      let font := u8 (toupper font) in
      let font := if 69 <? font then 65 else font in
      let font := if font <? 65 then 65 else font in
      u8 (font - 65)
    else
      (if 4 <? font then 0 else font) in
  let s := on_dev (fun t =>
             set_fontData (u8 (Z.lor (Z.land (fontData t) 248) font)) t) s in
  adjustCharValues s.

(** [while (x--) write('\n');] with [x] a [uint8_t]. *)
Fixpoint feed_manually (x : nat) (s : State) : State :=
  match x with
  | O => s
  | S x' => feed_manually x' (write (chr "010") s)
  end.

(** [feed]. *)
Definition feed (x : Z) (s : State) : State :=
  let x := u8 x in
  if 264 <=? firmware (dev s) then
    let s := writeBytes3 ASCII_ESC (chr "d") x s in
    let s := timeoutSet (dotFeedTime (dev s) * charHeight (dev s)) s in
    let s := on_dev (set_prevByte (chr "010")) s in
    on_dev (set_column 0) s
  else feed_manually (Z.to_nat x) s.

(** [feedRows]. *)
Definition feedRows (rows : Z) (s : State) : State :=
  let rows := u8 rows in
  let s := writeBytes3 ASCII_ESC (chr "J") rows s in
  let s := timeoutSet (rows * dotFeedTime (dev s)) s in
  let s := on_dev (set_prevByte (chr "010")) s in
  on_dev (set_column 0) s.

(** [tab]. *)
Definition tab (s : State) : State :=
  let s := writeBytes1 ASCII_TAB s in
  on_dev (fun t => set_column (u8 (Z.land (column t + 4) 252)) t) s.

(** ** Configuration commands *)

(** [setBarcodeHeight]. *)
Definition setBarcodeHeight (val : Z) (s : State) : State :=
  let val := u8 val in
  let val := if val <? 1 then 1 else val in
  let s := on_dev (set_barcodeHeight val) s in
  writeBytes3 ASCII_GS (chr "h") val s.

(** [underlineOn]. *)
Definition underlineOn (weight : Z) (s : State) : State :=
  let weight := u8 weight in
  let weight := if 2 <? weight then 2 else weight in
  writeBytes3 ASCII_ESC (chr "-") weight s.

Definition underlineOff (s : State) : State :=
  writeBytes3 ASCII_ESC (chr "-") 0 s.

(** [setLineHeight], [val] an [int]. *)
Definition setLineHeight (val : Z) (s : State) : State :=
  let s := autoLineHeightOff s in
  let val := if val <? 20 then 20 else val in
  let s := on_dev (set_lineSpacing (u8 (val - 20))) s in
  writeBytes3 ASCII_ESC (chr "3") val s.

(** [setMaxChunkHeight], [val] an [int]. *)
Definition setMaxChunkHeight (val : Z) (s : State) : State :=
  on_dev (set_maxChunkHeight (u8 val)) s.

(** [setCharset]. *)
Definition setCharset (val : Z) (s : State) : State :=
  let val := u8 val in
  let val := if 15 <? val then 15 else val in
  writeBytes3 ASCII_ESC (chr "R") val s.

(** [setCodePage]. *)
Definition setCodePage (val : Z) (s : State) : State :=
  let val := u8 val in
  let val := if 47 <? val then 47 else val in
  writeBytes3 ASCII_ESC (chr "t") val s.

(** ** Methods that may not return

    A loop whose end depends on the data gets fuel; a method built on one
    returns a [result]. *)
Inductive fault : Type :=
| DivisionByZero   (* the divisor of an integer division is 0: undefined *)
| StillLooping     (* the fuel ran out with the loop condition still true *)
| SourceDry.       (* a blocking read on a source that gives nothing more *)

Inductive result (A : Type) : Type :=
| Ok (a : A)
| Err (f : fault).
Arguments Ok {A} a.
Arguments Err {A} f.

Definition bind {A B : Type} (r : result A) (k : A -> result B) : result B :=
  match r with
  | Ok a => k a
  | Err f => Err f
  end.

Notation "x <- r ;; k" := (bind r (fun x => k))
  (at level 61, r at next level, right associativity).
Notation "' p <- r ;; k" := (bind r (fun x => match x with p => k end))
  (at level 61, p pattern, r at next level, right associativity).

(** ** Barcodes *)

(** A C string is the list of its characters; the terminating NUL follows the
    last one. *)
Fixpoint strlen (text : list Z) : Z :=
  match text with
  | [] => 0
  | c :: rest => if c =? 0 then 0 else 1 + strlen rest
  end.

(** [text[i]]. *)
Definition char_at (text : list Z) (i : Z) : Z := nth (Z.to_nat i) text 0.

(** [for (uint8_t i = 0; i < len; i++) writeBytes(text[i]);] *)
Fixpoint barcode_chars (n : nat) (text : list Z) (i : Z) (s : State) : State :=
  match n with
  | O => s
  | S n' => barcode_chars n' text (u8 (i + 1)) (writeBytes1 (char_at text i) s)
  end.

(** [do { writeBytes(c = text[i++]); } while (c);] with [c], [i] bytes. *)
Fixpoint barcode_copy (fuel : nat) (text : list Z) (i : Z) (s : State)
  : result State :=
  match fuel with
  | O => Err StillLooping
  | S fuel' =>
      let c := u8 (char_at text i) in
      let i := u8 (i + 1) in
      let s := writeBytes1 c s in
      if negb (c =? 0) then barcode_copy fuel' text i s else Ok s
  end.

(** [printBarcode].  The index [i] of the copying loop is one byte, so the
    loop either ends within 256 turns or comes back to where it started. *)
Definition printBarcode (text : list Z) (type : Z) (s : State) : result State :=
  let type := u8 type in
  let s := feed 1 s in
  let type := if 264 <=? firmware (dev s) then u8 (type + 65) else type in
  let s := writeBytes3 ASCII_GS (chr "H") 2 s in
  let s := writeBytes3 ASCII_GS (chr "w") 3 s in
  let s := writeBytes3 ASCII_GS (chr "k") type s in
  s <-
    (if 264 <=? firmware (dev s) then
       let len := strlen text in
       let len := if 255 <? len then 255 else len in
       let s := writeBytes1 len s in
       Ok (barcode_chars (Z.to_nat len) text 0 s)
     else barcode_copy 256 text 0 s);;
  let s := timeoutSet ((barcodeHeight (dev s) + 40) * dotPrintTime (dev s)) s in
  Ok (on_dev (set_prevByte (chr "010")) s).

(** ** Bitmap transfer *)

(** [rowBytes = (w + 7) / 8]. *)
Definition rowBytes_of (w : Z) : Z := cdiv (w + 7) 8.

(** [rowBytesClipped = (rowBytes >= 48) ? 48 : rowBytes]. *)
Definition rowBytesClipped_of (rowBytes : Z) : Z :=
  if 48 <=? rowBytes then 48 else rowBytes.

(** The choice of [chunkHeightLimit]. *)
Definition chunkHeightLimit_of (rowBytesClipped : Z) (t : Thermal) : result Z :=
  if dtrEnabled t then Ok 255
  else if rowBytesClipped =? 0 then Err DivisionByZero
  else
    let chunkHeightLimit := cdiv 256 rowBytesClipped in
    if maxChunkHeight t <? chunkHeightLimit then Ok (maxChunkHeight t)
    else if chunkHeightLimit <? 1 then Ok 1
    else Ok chunkHeightLimit.

(** [chunkHeight = h - rowStart; if (chunkHeight > chunkHeightLimit) ...]. *)
Definition chunkHeight_of (h rowStart chunkHeightLimit : Z) : Z :=
  let chunkHeight := h - rowStart in
  if chunkHeightLimit <? chunkHeight then chunkHeightLimit else chunkHeight.

(** [pgm_read_byte(bitmap + i)] and [*(bitmap + i)] read the same array, in
    flash or in RAM; the array is the function from offsets to bytes. *)
Definition pgm_read_byte (bitmap : Z -> Z) (i : Z) : Z := bitmap i.

(** [for (x = 0; x < rowBytesClipped; x++, i++) { timeoutWait(); write }] *)
Fixpoint bitmap_row (n : nat) (bitmap : Z -> Z) (fromProgMem : bool)
    (i : Z) (s : State) : Z * State :=
  match n with
  | O => (i, s)
  | S n' =>
      let s := timeoutWait s in
      let s := stream_write
                 (if fromProgMem then pgm_read_byte bitmap i else bitmap i) s in
      bitmap_row n' bitmap fromProgMem (i + 1) s
  end.

(** [for (y = 0; y < chunkHeight; y++) { row; i += rowBytes - rowBytesClipped; }] *)
Fixpoint bitmap_rows (rows : nat) (rowBytes rowBytesClipped : Z)
    (bitmap : Z -> Z) (fromProgMem : bool) (i : Z) (s : State) : Z * State :=
  match rows with
  | O => (i, s)
  | S rows' =>
      let '(i, s) :=
        bitmap_row (Z.to_nat rowBytesClipped) bitmap fromProgMem i s in
      let i := i + (rowBytes - rowBytesClipped) in
      bitmap_rows rows' rowBytes rowBytesClipped bitmap fromProgMem i s
  end.

(** One turn of the chunk loop: header, rows, busy estimate. *)
Definition bitmap_chunk (h rowStart chunkHeightLimit rowBytes rowBytesClipped : Z)
    (bitmap : Z -> Z) (fromProgMem : bool) (i : Z) (s : State) : Z * State :=
  let chunkHeight := chunkHeight_of h rowStart chunkHeightLimit in
  let s := writeBytes4 ASCII_DC2 (chr "*") chunkHeight rowBytesClipped s in
  let '(i, s) :=
    bitmap_rows (Z.to_nat chunkHeight) rowBytes rowBytesClipped
      bitmap fromProgMem i s in
  (i, timeoutSet (chunkHeight * dotPrintTime (dev s)) s).

(** [for (i = rowStart = 0; rowStart < h; rowStart += chunkHeightLimit)]. *)
Fixpoint bitmap_chunks (fuel : nat)
    (h rowStart chunkHeightLimit rowBytes rowBytesClipped : Z)
    (bitmap : Z -> Z) (fromProgMem : bool) (i : Z) (s : State) : result State :=
  if rowStart <? h then
    match fuel with
    | O => Err StillLooping
    | S fuel' =>
        let '(i, s) :=
          bitmap_chunk h rowStart chunkHeightLimit rowBytes rowBytesClipped
            bitmap fromProgMem i s in
        bitmap_chunks fuel' h (rowStart + chunkHeightLimit) chunkHeightLimit
          rowBytes rowBytesClipped bitmap fromProgMem i s
    end
  else Ok s.

(** [printBitmap(w, h, bitmap, fromProgMem)]. *)
Definition printBitmap (fuel : nat) (w h : Z) (bitmap : Z -> Z)
    (fromProgMem : bool) (s : State) : result State :=
  let rowBytes := rowBytes_of w in
  let rowBytesClipped := rowBytesClipped_of rowBytes in
  chunkHeightLimit <- chunkHeightLimit_of rowBytesClipped (dev s);;
  s <- bitmap_chunks fuel h 0 chunkHeightLimit rowBytes rowBytesClipped
            bitmap fromProgMem 0 s;;
  Ok (on_dev (set_prevByte (chr "010")) s).

(** *** From a stream

    The source is the list of what its successive [read()] calls return: a
    byte, or a negative value while nothing has arrived yet. *)

(** [while ((c = fromStream->read()) < 0);] *)
Fixpoint read_blocking (src : list Z) : result (Z * list Z) :=
  match src with
  | [] => Err SourceDry
  | c :: rest => if c <? 0 then read_blocking rest else Ok (c, rest)
  end.

(** [for (x = 0; x < rowBytesClipped; x++) { read; timeoutWait(); write }] *)
Fixpoint stream_row (n : nat) (src : list Z) (s : State)
  : result (list Z * State) :=
  match n with
  | O => Ok (src, s)
  | S n' =>
      '(c, src) <- read_blocking src;;
      let s := timeoutWait s in
      let s := stream_write c s in
      stream_row n' src s
  end.

(** [for (i = rowBytes - rowBytesClipped; i > 0; i--) { read }] *)
Fixpoint stream_skip (n : nat) (src : list Z) : result (list Z) :=
  match n with
  | O => Ok src
  | S n' =>
      '(_, src) <- read_blocking src;;
      stream_skip n' src
  end.

Fixpoint stream_rows (rows : nat) (rowBytes rowBytesClipped : Z)
    (src : list Z) (s : State) : result (list Z * State) :=
  match rows with
  | O => Ok (src, s)
  | S rows' =>
      '(src, s) <- stream_row (Z.to_nat rowBytesClipped) src s;;
      src <- stream_skip (Z.to_nat (rowBytes - rowBytesClipped)) src;;
      stream_rows rows' rowBytes rowBytesClipped src s
  end.

Definition stream_chunk (h rowStart chunkHeightLimit rowBytes rowBytesClipped : Z)
    (src : list Z) (s : State) : result (list Z * State) :=
  let chunkHeight := chunkHeight_of h rowStart chunkHeightLimit in
  let s := writeBytes4 ASCII_DC2 (chr "*") chunkHeight rowBytesClipped s in
  '(src, s) <-
    stream_rows (Z.to_nat chunkHeight) rowBytes rowBytesClipped src s;;
  Ok (src, timeoutSet (chunkHeight * dotPrintTime (dev s)) s).

Fixpoint stream_chunks (fuel : nat)
    (h rowStart chunkHeightLimit rowBytes rowBytesClipped : Z)
    (src : list Z) (s : State) : result (list Z * State) :=
  if rowStart <? h then
    match fuel with
    | O => Err StillLooping
    | S fuel' =>
        '(src, s) <-
          stream_chunk h rowStart chunkHeightLimit rowBytes rowBytesClipped
            src s;;
        stream_chunks fuel' h (rowStart + chunkHeightLimit) chunkHeightLimit
          rowBytes rowBytesClipped src s
    end
  else Ok (src, s).

(** [printBitmap(w, h, fromStream)]; what is left of the source is returned
    with the state. *)
Definition printBitmapStream (fuel : nat) (w h : Z) (fromStream : list Z)
    (s : State) : result (list Z * State) :=
  let rowBytes := rowBytes_of w in
  let rowBytesClipped := rowBytesClipped_of rowBytes in
  chunkHeightLimit <- chunkHeightLimit_of rowBytesClipped (dev s);;
  '(src, s) <- stream_chunks fuel h 0 chunkHeightLimit rowBytes
                    rowBytesClipped fromStream s;;
  Ok (src, on_dev (set_prevByte (chr "010")) s).

(** ** Status poller *)

(** [for (uint8_t i = 0; i < 10; i++) { if (available) { read; break; } delay(100); }] *)
Fixpoint poll_status (n : nat) (status : Z) (s : State) : Z * State :=
  match n with
  | O => (status, s)
  | S n' =>
      match inbox (hw s) with
      | Some b :: rest => (u8 b, on_hw (set_inbox rest) s)
      | None :: rest => poll_status n' status (delay 100 (on_hw (set_inbox rest) s))
      | [] => poll_status n' status (delay 100 s)
      end
  end.

(** [getStatus]. *)
Definition getStatus (statusPage : Z) (s : State) : Z * State :=
  let s := writeCmdBytes 16 4 statusPage true s in
  let status := 255 in
  poll_status 10 status s.

(** The test of [hasPaper] on the status byte:
    [!((status & 0b01100000) == 96)]. *)
Definition paper_present (status : Z) : bool :=
  negb (Z.land status 96 =? 96).

(** [hasPaper]. *)
Definition hasPaper (s : State) : bool * State :=
  let '(r, s) := getStatus 4 s in
  let status := u8 r in
  (paper_present status, s).

(** ** The remaining methods *)

Definition set_dtrPin (v : Z) (t : Thermal) : Thermal :=
  mkThermal v (dtrEnabled t) (firmware t) (resumeTime t) (dotPrintTime t)
    (dotFeedTime t) (printMode t) (prevByte t) (column t) (maxColumn t)
    (charWidth t) (charHeight t) (lineSpacing t) (barcodeHeight t)
    (maxChunkHeight t) (fontData t) (autoLineHeight t).

(** The constructor: [dtrPin(dtr)], [dtrEnabled = false]; every other member
    keeps whatever the memory [raw] held. *)
Definition construct (dtr : Z) (raw : Thermal) : Thermal :=
  set_dtrEnabled false (set_dtrPin (u8 dtr) raw).

(** [println(str)] of the inherited [Print] class: the characters, then
    carriage return and line feed. *)
Definition println (str : list Z) (s : State) : State :=
  print (str ++ [ASCII_CR; ASCII_LF]) s.

(** [cancelKanjiMode]. *)
Definition cancelKanjiMode (s : State) : State :=
  writeBytes2 ASCII_FS (chr ".") s.

(** [testPage]. *)
Definition testPage (s : State) : State :=
  let s := writeBytes2 ASCII_DC2 (chr "T") s in
  timeoutSet (dotPrintTime (dev s) * 24 * 26
              + dotFeedTime (dev s) * (6 * 26 + 30)) s.

(** [inverseOn], [inverseOff], [upsideDownOn], [upsideDownOff]. *)
Definition inverseOn (s : State) : State :=
  if 268 <=? firmware (dev s) then writeBytes3 ASCII_GS (chr "B") 1 s
  else setPrintMode INVERSE_MASK s.

Definition inverseOff (s : State) : State :=
  if 268 <=? firmware (dev s) then writeBytes3 ASCII_GS (chr "B") 0 s
  else unsetPrintMode INVERSE_MASK s.

Definition upsideDownOn (s : State) : State :=
  if 268 <=? firmware (dev s) then writeBytes3 ASCII_ESC (chr "{") 1 s
  else setPrintMode UPDOWN_MASK s.

Definition upsideDownOff (s : State) : State :=
  if 268 <=? firmware (dev s) then writeBytes3 ASCII_ESC (chr "{") 0 s
  else unsetPrintMode UPDOWN_MASK s.

Definition userCharacterSetOn (s : State) : State :=
  writeBytes3 ASCII_ESC (chr "%") 1 s.

Definition userCharacterSetOff (s : State) : State :=
  writeBytes3 ASCII_ESC (chr "%") 0 s.

(** [justify]. *)
Definition justify (value : Z) (s : State) : State :=
  let pos := 0 in
  let pos :=
    let v := toupper value in
    if v =? chr "L" then 0
    else if v =? chr "C" then 1
    else if v =? chr "R" then 2
    else pos in
  writeBytes3 ASCII_ESC (chr "a") pos s.

(** [flush]. *)
Definition flush (s : State) : State := writeBytes1 ASCII_FF s.

(** [setSize]. *)
Definition setSize (value : Z) (s : State) : State :=
  let v := toupper value in
  if v =? chr "M" then
    let s := doubleHeightOn s in
    doubleWidthOff s
  else if v =? chr "L" then
    let s := doubleHeightOn s in
    doubleWidthOn s
  else
    let s := doubleWidthOff s in
    doubleHeightOff s.

(** [setHeatConfig]. *)
Definition setHeatConfig (dots time interval : Z) (s : State) : State :=
  let s := writeBytes2 ASCII_ESC (chr "7") s in
  writeBytes3 dots time interval s.

(** [setPrintDensity]: [(density << 5) | breakTime], both bytes. *)
Definition setPrintDensity (density breakTime : Z) (s : State) : State :=
  writeBytes3 ASCII_DC2 (chr "#")
    (Z.lor (Z.shiftl (u8 density) 5) (u8 breakTime)) s.

(** [for (int x = 0; x < arySize; x++) { timeoutWait(); write(charBytes[x]); }] *)
Fixpoint user_bytes (n : nat) (charBytes : Z -> Z) (x : Z) (s : State)
  : State :=
  match n with
  | O => s
  | S n' =>
      let s := timeoutWait s in
      let s := stream_write (charBytes x) s in
      user_bytes n' charBytes (x + 1) s
  end.

(** [userDefinedCharacter]. *)
Definition userDefinedCharacter (y_bytes charCodeFrom charCodeTo arySize : Z)
    (charBytes : Z -> Z) (s : State) : State :=
  let s := writeBytes5 ASCII_ESC (chr "&") y_bytes charCodeFrom charCodeTo s in
  user_bytes (Z.to_nat arySize) charBytes 0 s.

(** [clearUserCharacter]. *)
Definition clearUserCharacter (charVal : Z) (s : State) : State :=
  writeBytes3 ASCII_ESC (chr "?") charVal s.

(** [offline], [online]. *)
Definition offline (s : State) : State := writeBytes3 ASCII_ESC (chr "=") 0 s.
Definition online (s : State) : State := writeBytes3 ASCII_ESC (chr "=") 1 s.

(** [sleepAfter], [seconds] a [uint16_t]. *)
Definition sleepAfter (seconds : Z) (s : State) : State :=
  let seconds := u16 seconds in
  if 264 <=? firmware (dev s) then
    writeBytes4 ASCII_ESC (chr "8") seconds (Z.shiftr seconds 8) s
  else
    writeBytes3 ASCII_ESC (chr "8") seconds s.

(** [sleep]. *)
Definition sleep (s : State) : State := sleepAfter 1 s.

(** [for (uint8_t i = 0; i < 10; i++) { writeBytes(0); timeoutSet(10000L); }] *)
Fixpoint wake_nuls (n : nat) (s : State) : State :=
  match n with
  | O => s
  | S n' =>
      let s := writeBytes1 0 s in
      let s := timeoutSet 10000 s in
      wake_nuls n' s
  end.

(** [wake]. *)
Definition wake (s : State) : State :=
  let s := timeoutSet 0 s in
  let s := writeBytes1 255 s in
  if 264 <=? firmware (dev s) then
    let s := delay 50 s in
    writeBytes4 ASCII_ESC (chr "8") 0 0 s
  else wake_nuls 10 s.

(** [begin].  The call [setHeatConfig()] takes its three arguments from the
    defaults of the class declaration, which is not among the sources: they
    are the parameters [dots], [time], [interval].  [pinMode] acts on nothing
    the methods read. *)
Definition begin (dots time interval : Z) (version : Z) (s : State) : State :=
  let s := on_dev (set_firmware (u16 version)) s in
  let s := timeoutSet 500000 s in
  let s := wake s in
  let s := reset s in
  let s := setHeatConfig dots time interval s in
  let s :=
    if dtrPin (dev s) <? 255 then
      let s := writeBytes3 ASCII_GS (chr "a") (Z.shiftl 1 5) s in
      on_dev (set_dtrEnabled true) s
    else s in
  let s := on_dev (set_dotPrintTime 30000) s in
  let s := on_dev (set_dotFeedTime 2100) s in
  on_dev (set_maxChunkHeight 255) s.

(** [setDefault].  [setCharset()] and [setCodePage()] take their argument
    from the defaults of the class declaration: the parameters [charset] and
    [codePage]. *)
Definition setDefault (charset codePage : Z) (s : State) : State :=
  let s := online s in
  let s := justify (chr "L") s in
  let s := inverseOff s in
  let s := doubleHeightOff s in
  let s := setLineHeight 30 s in
  let s := boldOff s in
  let s := underlineOff s in
  let s := on_dev (set_autoLineHeight true) s in
  let s := setBarcodeHeight 50 s in
  let s := on_dev (set_fontData 0) s in
  let s := setSize (chr "s") s in
  let s := setCharset charset s in
  let s := setCodePage codePage s in
  cancelKanjiMode s.

(** [test]. *)
Definition test (s : State) : State :=
  let s := println
             (map chr ["H"; "e"; "l"; "l"; "o"; " "; "W"; "o"; "r"; "l"; "d"; "!"]%char)
             s in
  feed 2 s.

(** [setCharSpacing], [spacing] an [int]. *)
Definition setCharSpacing (spacing : Z) (s : State) : State :=
  writeBytes3 ASCII_ESC (chr " ") spacing s.

(** [fromStream->read()]: the next answer of the source, -1 when it has
    none. *)
Definition stream_read (src : list Z) : Z * list Z :=
  match src with
  | [] => (-1, [])
  | c :: rest => (c, rest)
  end.

(** [printBitmap(fromStream)]: the four header bytes are read without
    waiting for them.  [width] and [height] are [uint16_t] and are passed to
    the [printBitmap] whose width and height are [int]: [intBits] is the
    width of [int]. *)
Definition printBitmapHeader (intBits : Z) (fuel : nat) (fromStream : list Z)
    (s : State) : result (list Z * State) :=
  let '(r, src) := stream_read fromStream in
  let tmp := u8 r in
  let '(r, src) := stream_read src in
  let width := u16 (Z.shiftl r 8 + tmp) in
  let '(r, src) := stream_read src in
  let tmp := u8 r in
  let '(r, src) := stream_read src in
  let height := u16 (Z.shiftl r 8 + tmp) in
  printBitmapStream fuel (sint intBits width) (sint intBits height) src s.

(** ** A state to run the methods on: the registers as [begin(268)] followed
    by [setDefault] leave them (font A, no print mode, line spacing 10),
    timing throttle, clock at 1 s. *)
Definition booted : State :=
  mkState
    (mkThermal 255 false 268 0 30000 2100 0 10 0 32 12 24 10 50 255 0 true)
    (mkBoard 1000000 [] [] []).

(** The same printer with the handshake line in use (DTR on pin 4). *)
Definition booted_dtr : State :=
  mkState
    (mkThermal 4 true 268 0 30000 2100 0 10 0 32 12 24 10 50 255 0 true)
    (mkBoard 1000000 [true; true; false] [] []).

(** ** Notions the properties are stated with *)

(** A character that is neither a newline nor a carriage return. *)
Definition text_char (c : Z) : bool :=
  negb (u8 c =? chr "010") && negb (u8 c =? 13).

(** [unwrapped str s]: written from [s], every character of [str] is a text
    character and meets the column short of [maxColumn], so that the wrap
    branch of [write] is never taken. *)
Fixpoint unwrapped (str : list Z) (s : State) : bool :=
  match str with
  | [] => true
  | c :: rest =>
      text_char c
      && negb (column (dev s) =? maxColumn (dev s))
      && unwrapped rest (write c s)
  end.

(** The five-font table as the spec gives it: the cell (width, height) of
    fonts A to E, by font id. *)
Definition font_table : list (Z * Z) :=
  [(12, 24); (9, 24); (9, 17); (8, 16); (16, 16)].

Definition table_cell (font : Z) : Z * Z :=
  nth (Z.to_nat font) font_table (0, 0).

(** The font id held in the low three bits of [fontData]. *)
Definition font_id (s : State) : Z := Z.land (fontData (dev s)) 7.

(** The double-width and double-height flags of [printMode]. *)
Definition double_width (s : State) : bool :=
  negb (Z.land (printMode (dev s)) DOUBLE_WIDTH_MASK =? 0).
Definition double_height (s : State) : bool :=
  negb (Z.land (printMode (dev s)) DOUBLE_HEIGHT_MASK =? 0).

(** The nearest value of the range [lo, hi]. *)
Definition clamp (lo hi v : Z) : Z := Z.max lo (Z.min hi v).

(** The font an argument of [setFont] selects: an id 0 to 4 or a letter A
    to E (either case) selects that font, anything else font A. *)
Definition font_of_arg (font : Z) : Z :=
  if (0 <=? font) && (font <=? 4) then font
  else if (65 <=? font) && (font <=? 69) then font - 65
  else if (97 <=? font) && (font <=? 101) then font - 97
  else 0.

(** The bytes of one row as transmitted: [n] bytes of the array from
    offset [i]. *)
Definition row_bytes (bitmap : Z -> Z) (i : Z) (n : nat) : list Z :=
  map (fun k => u8 (bitmap (i + Z.of_nat k))) (seq 0 n).

(** [rows] rows of [rowBytes] bytes starting at offset [i], each cut to its
    first [n] bytes. *)
Definition rows_bytes (bitmap : Z -> Z) (rowBytes : Z) (n : nat)
    (i : Z) (rows : nat) : list Z :=
  concat (map (fun y => row_bytes bitmap (i + Z.of_nat y * rowBytes) n)
            (seq 0 rows)).

(** What a source has delivered or will deliver: its reads without the
    negative ones. *)
Definition arrivals (src : list Z) : list Z :=
  filter (fun c => negb (c <? 0)) src.

(** [rows] rows of [rowBytes] bytes each, cut to their first [n] bytes. *)
Fixpoint clipped (rowBytes n rows : nat) (data : list Z) : list Z :=
  match rows with
  | O => []
  | S rows' =>
      map u8 (firstn n data) ++ clipped rowBytes n rows' (skipn rowBytes data)
  end.

(** ** Notions the further properties are stated with *)

(** A state of the timing throttle, seen as clock and deadline: the clock
    reads [c], the deadline lies [d] microseconds after it ([d] may be
    negative: the deadline has passed). *)
Definition timing (c d : Z) (s : State) : Prop :=
  dtrEnabled (dev s) = false
  /\ micros s = u32 c
  /\ resumeTime (dev s) = u32 (c + d).

(** The metric registers agree with the font and the double flags now
    stored. *)
Definition metrics_current (s : State) : Prop :=
  let cell := font_cell (font_id s) in
  charWidth (dev s) = fst cell * (if double_width s then 2 else 1)
  /\ charHeight (dev s) = snd cell * (if double_height s then 2 else 1)
  /\ maxColumn (dev s) = 384 / charWidth (dev s).

(** * Properties *)

(** ** Machine integers *)

Lemma u8_range (x : Z) : 0 <= u8 x < 256.
Proof. unfold u8. apply Z.mod_pos_bound. lia. Qed.

Lemma u8_small (x : Z) : 0 <= x < 256 -> u8 x = x.
Proof. intros H. unfold u8. apply Z.mod_small. exact H. Qed.

Lemma u32_range (x : Z) : 0 <= u32 x < 4294967296.
Proof. unfold u32. apply Z.mod_pos_bound. lia. Qed.

Lemma u32_small (x : Z) : 0 <= x < 4294967296 -> u32 x = x.
Proof. intros H. unfold u32. apply Z.mod_small. exact H. Qed.

Lemma u32_add_r (x y : Z) : u32 (x + u32 y) = u32 (x + y).
Proof. unfold u32. apply Zplus_mod_idemp_r. Qed.

Lemma u32_add_l (x y : Z) : u32 (u32 x + y) = u32 (x + y).
Proof. unfold u32. apply Zplus_mod_idemp_l. Qed.

Lemma s32_congr (x y : Z) : u32 x = u32 y -> s32 x = s32 y.
Proof. intros H. unfold s32. rewrite H. reflexivity. Qed.

Lemma s32_small (x : Z) : 0 <= x < 2147483648 -> s32 x = x.
Proof.
  intros H. unfold s32. rewrite u32_small by lia.
  destruct (Z.ltb_spec x 2147483648); lia.
Qed.

Lemma s32_range (x : Z) : -2147483648 <= s32 x < 2147483648.
Proof.
  unfold s32. pose proof (u32_range x) as R.
  destruct (Z.ltb_spec (u32 x) 2147483648); lia.
Qed.

(** The signed distance from [now] to the instant [d] microseconds later is
    [d], whatever the clock reads and wherever it rolls over. *)
Lemma s32_ahead (now d : Z) :
  0 <= d < 2147483648 -> s32 (u32 (now + d) - now) = d.
Proof.
  intros H. rewrite <- (s32_small d H) at 2. apply s32_congr.
  unfold u32. rewrite Zminus_mod_idemp_l. f_equal. lia.
Qed.

(** One more microsecond brings a deadline still ahead one step nearer. *)
Lemma s32_tick (c r : Z) :
  s32 (c - r) < 0 -> s32 (u32 (c + 1) - r) = s32 (c - r) + 1.
Proof.
  intros H.
  assert (E : u32 (u32 (c + 1) - r) = u32 ((c - r) + 1)).
  { unfold u32. rewrite Zminus_mod_idemp_l. f_equal. lia. }
  rewrite (s32_congr _ _ E). clear E.
  revert H. unfold s32, u32.
  pose proof (Z.mod_pos_bound (c - r) 4294967296 ltac:(lia)) as R.
  rewrite <- (Zplus_mod_idemp_l (c - r) 1).
  set (m := (c - r) mod 4294967296) in *.
  destruct (Z.ltb_spec m 2147483648) as [L | L]; [lia |].
  intros _.
  destruct (Z.eq_dec m 4294967295) as [-> | N].
  - reflexivity.
  - rewrite (Z.mod_small (m + 1)) by lia.
    destruct (Z.ltb_spec (m + 1) 2147483648); lia.
Qed.

(** C++ division and the floor agree on the operands of the source. *)
Lemma cdiv_floor (x y : Z) : 0 <= x -> 0 < y -> cdiv x y = x / y.
Proof. intros Hx Hy. unfold cdiv. apply Z.quot_div_nonneg; assumption. Qed.

Lemma BYTE_TIME_value : BYTE_TIME = 1146.
Proof. reflexivity. Qed.

(** ** The throttle *)

Lemma record_eta (t : Thermal) : set_resumeTime (resumeTime t) t = t.
Proof. destruct t. reflexivity. Qed.

Lemma state_eta (s : State) : mkState (dev s) (hw s) = s.
Proof. destruct s. reflexivity. Qed.

(** The handshake wait touches the pin script and the clock only. *)
Lemma wait_dtr_wire (line : list bool) (h : Board) :
  wire (wait_dtr line h) = wire h /\ inbox (wait_dtr line h) = inbox h.
Proof.
  revert h. induction line as [| level rest IH]; intros h; simpl.
  - split; reflexivity.
  - destruct level.
    + destruct (IH (yield (set_dtrLine rest h))) as [W I].
      rewrite W, I. split; reflexivity.
    + split; reflexivity.
Qed.

(** The deadline wait touches the clock only. *)
Lemma wait_deadline_wire (fuel : nat) (r : Z) (h : Board) :
  wire (wait_deadline fuel r h) = wire h
  /\ inbox (wait_deadline fuel r h) = inbox h
  /\ dtrLine (wait_deadline fuel r h) = dtrLine h.
Proof.
  revert h. induction fuel as [| fuel IH]; intros h; simpl.
  - repeat split.
  - destruct (s32 (clock h - r) <? 0).
    + destruct (IH (yield h)) as (W & I & D). rewrite W, I, D. repeat split.
    + repeat split.
Qed.

(** The deadline loop leaves with its condition false: the fuel [pending]
    gives is enough, and the clock then stands at the deadline. *)
Lemma wait_deadline_exit (fuel : nat) (r : Z) (h : Board) :
  fuel = pending r h ->
  0 <= s32 (clock (wait_deadline fuel r h) - r)
  /\ clock (wait_deadline fuel r h)
     = if s32 (clock h - r) <? 0 then u32 (clock h + Z.of_nat fuel) else clock h.
Proof.
  revert h. induction fuel as [| fuel IH]; intros h Hf.
  - simpl. unfold pending in Hf.
    destruct (Z.ltb_spec (s32 (clock h - r)) 0) as [L | L]; [lia |].
    split; [exact L | reflexivity].
  - cbn [wait_deadline]. unfold pending in Hf.
    destruct (Z.ltb_spec (s32 (clock h - r)) 0) as [L | L]; [| lia].
    assert (T : s32 (clock (yield h) - r) = s32 (clock h - r) + 1).
    { simpl. apply s32_tick. exact L. }
    assert (Hf' : fuel = pending r (yield h)).
    { unfold pending. rewrite T. lia. }
    destruct (IH (yield h) Hf') as [E C]. split; [exact E |].
    rewrite C. rewrite T.
    destruct (Z.ltb_spec (s32 (clock h - r) + 1) 0) as [L' | L'].
    + simpl. rewrite u32_add_l. f_equal. lia.
    + assert (fuel = 0%nat) by lia. subst fuel. simpl. f_equal. lia.
Qed.

(** [timeoutWait] changes nothing in the driver object. *)
Lemma timeoutWait_dev (s : State) : dev (timeoutWait s) = dev s.
Proof. unfold timeoutWait. destruct (dtrEnabled (dev s)); reflexivity. Qed.

Lemma timeoutWait_wire (s : State) : wire (hw (timeoutWait s)) = wire (hw s).
Proof.
  unfold timeoutWait. destruct (dtrEnabled (dev s)); simpl.
  - apply wait_dtr_wire.
  - apply wait_deadline_wire.
Qed.

(** In timing mode [timeoutWait] returns once the deadline is no longer
    ahead of the clock. *)
Lemma timeoutWait_ready (s : State) :
  dtrEnabled (dev s) = false ->
  0 <= s32 (micros (timeoutWait s) - resumeTime (dev s)).
Proof.
  intros H. unfold timeoutWait, micros. rewrite H. simpl.
  apply wait_deadline_exit. reflexivity.
Qed.

Lemma timeoutSet_hw (x : Z) (s : State) : hw (timeoutSet x s) = hw s.
Proof. unfold timeoutSet. destruct (dtrEnabled (dev s)); reflexivity. Qed.

Lemma timeoutSet_dev (x : Z) (s : State) :
  dev (timeoutSet x s)
  = if dtrEnabled (dev s) then dev s
    else set_resumeTime (u32 (micros s + x)) (dev s).
Proof.
  unfold timeoutSet. destruct (dtrEnabled (dev s)); simpl.
  - reflexivity.
  - rewrite u32_add_r. reflexivity.
Qed.

Lemma stream_write_dev (b : Z) (s : State) : dev (stream_write b s) = dev s.
Proof. reflexivity. Qed.

Lemma stream_write_wire (b : Z) (s : State) :
  wire (hw (stream_write b s)) = wire (hw s) ++ [u8 b].
Proof. reflexivity. Qed.

Lemma stream_write_micros (b : Z) (s : State) :
  micros (stream_write b s) = micros s.
Proof. reflexivity. Qed.

(** What [timeoutSet] leaves behind in timing mode, read off the state it
    returns: the deadline is the clock plus the estimate, modulo 2^32. *)
Lemma timeoutSet_deadline (x : Z) (s : State) :
  dtrEnabled (dev s) = false ->
  dtrEnabled (dev (timeoutSet x s)) = false
  /\ resumeTime (dev (timeoutSet x s)) = u32 (micros (timeoutSet x s) + x).
Proof.
  intros H. unfold micros. rewrite timeoutSet_hw, timeoutSet_dev, H.
  split; [exact H | reflexivity].
Qed.

Lemma timeoutWait_mode (s : State) :
  dtrEnabled (dev (timeoutWait s)) = dtrEnabled (dev s).
Proof. rewrite timeoutWait_dev. reflexivity. Qed.

(** C8 (timeoutSet, timeoutWait): with the handshake enabled [timeoutSet] is
    the identity for every duration; with it disabled the deadline becomes
    now + duration (in the 32-bit arithmetic of the clock) whatever it was
    before; and the wait reads the deadline only with the handshake disabled:
    enabled, it commutes with any change of the deadline, disabled, it
    returns with the deadline no longer ahead. *)
Theorem timeoutSet_handshake_frame :
  forall (x : Z) (s : State),
    (dtrEnabled (dev s) = true -> timeoutSet x s = s)
    /\ (dtrEnabled (dev s) = false ->
        timeoutSet x s = on_dev (set_resumeTime (u32 (micros s + x))) s
        /\ forall r : Z,
             timeoutSet x (on_dev (set_resumeTime r) s) = timeoutSet x s)
    /\ (dtrEnabled (dev s) = true ->
        forall r : Z,
          timeoutWait (on_dev (set_resumeTime r) s)
          = on_dev (set_resumeTime r) (timeoutWait s))
    /\ (dtrEnabled (dev s) = false ->
        0 <= s32 (micros (timeoutWait s) - resumeTime (dev s))).
Proof.
  intros x s. repeat split.
  - intros H. unfold timeoutSet. rewrite H. reflexivity.
  - unfold timeoutSet. rewrite H. simpl. rewrite u32_add_r. reflexivity.
  - intros r. unfold timeoutSet. simpl. rewrite H. reflexivity.
  - intros H r. unfold timeoutWait. simpl. rewrite H. reflexivity.
  - intros H. apply timeoutWait_ready. exact H.
Qed.

Lemma timeoutSet_handshake_frame_witness :
  timeoutSet 5000 booted_dtr = booted_dtr
  /\ resumeTime (dev (timeoutSet 5000 booted)) = 1005000
  /\ clock (hw (timeoutWait (timeoutSet 5000 booted))) = 1005000.
Proof.
  split; [| split].
  - apply (proj1 (timeoutSet_handshake_frame 5000 booted_dtr)). reflexivity.
  - rewrite (proj1 (proj1 (proj2 (timeoutSet_handshake_frame 5000 booted))
                      eq_refl)).
    reflexivity.
  - vm_compute. reflexivity.
Defined.

(** C1, as the code has it (BYTE_TIME, writeBytes): the time of one byte
    is (11,000,000 + rate/2) / rate microseconds rounded down, 1146 at the
    9600 baud of the source; and in timing mode every single call of
    [writeBytes] with N bytes (N = 1..5, one overload each) returns with the
    deadline at now + N * BYTE_TIME: equal to it modulo 2^32, exactly
    N * BYTE_TIME ahead of now in the signed comparison the wait uses, and
    at least now + N * BYTE_TIME as plain numbers while the clock is not
    about to roll over.  The bound is one of the call, not of the command:
    a command sent in several calls, or with data written straight to the
    stream, records less. *)
Theorem writeBytes_deadline :
  forall (bs : list Z) (s : State),
    dtrEnabled (dev s) = false ->
    (1 <= length bs <= 5)%nat ->
    exists s' : State,
      writeBytes bs s = Some s'
      /\ (forall rate : Z,
            0 < rate -> BYTE_TIME_at rate = (11000000 + rate / 2) / rate)
      /\ BYTE_TIME = (11000000 + BAUDRATE / 2) / BAUDRATE
      /\ let N := Z.of_nat (length bs) in
         let now := micros s' in
         resumeTime (dev s') = u32 (now + N * BYTE_TIME)
         /\ s32 (resumeTime (dev s') - now) = N * BYTE_TIME
         /\ (now + N * BYTE_TIME < 4294967296 ->
             0 <= now -> now + N * BYTE_TIME <= resumeTime (dev s')).
Proof.
  intros bs s H L.
  assert (R : forall rate : Z,
             0 < rate -> BYTE_TIME_at rate = (11000000 + rate / 2) / rate).
  { intros rate Hr. unfold BYTE_TIME_at.
    assert (0 <= rate / 2) by (apply Z.div_pos; lia).
    rewrite (cdiv_floor rate 2) by lia.
    rewrite cdiv_floor by lia. reflexivity. }
  assert (K : forall (k : Z) (s1 : State),
             dtrEnabled (dev s1) = false -> 1 <= k <= 5 ->
             let s' := timeoutSet (k * BYTE_TIME) s1 in
             resumeTime (dev s') = u32 (micros s' + k * BYTE_TIME)
             /\ s32 (resumeTime (dev s') - micros s') = k * BYTE_TIME
             /\ (micros s' + k * BYTE_TIME < 4294967296 ->
                 0 <= micros s' ->
                 micros s' + k * BYTE_TIME <= resumeTime (dev s'))).
  { intros k s1 H1 Hk s'.
    destruct (timeoutSet_deadline (k * BYTE_TIME) s1 H1) as [_ E].
    fold s' in E. rewrite E. rewrite BYTE_TIME_value in *.
    split; [reflexivity | split].
    - apply s32_ahead. lia.
    - intros B P. rewrite u32_small by lia. lia. }
  assert (M : dtrEnabled (dev (timeoutWait s)) = false)
    by (rewrite timeoutWait_mode; exact H).
  destruct bs as [| a [| b [| c [| d [| e [| f rest]]]]]];
    simpl in L; try lia;
    eexists; (split; [reflexivity |]); (split; [exact R |]);
    (split; [reflexivity |]); cbv zeta.
  - apply (K 1); [exact M | lia].
  - apply (K 2); [exact M | lia].
  - apply (K 3); [exact M | lia].
  - apply (K 4); [exact M | lia].
  - apply (K 5); [exact M | lia].
Qed.

Lemma writeBytes_deadline_witness :
  exists s' : State,
    writeBytes [ASCII_ESC; chr "@"] booted = Some s'
    /\ resumeTime (dev s') = 1002292
    /\ s32 (resumeTime (dev s') - micros s') = 2 * 1146.
Proof.
  destruct (writeBytes_deadline [ASCII_ESC; chr "@"] booted eq_refl
              ltac:(simpl; lia))
    as (s' & E & _ & _ & D & A & _).
  exists s'. split; [exact E |]. split; [| exact A].
  rewrite D. injection E as <-. reflexivity.
Defined.

(** C1, as the claim has it, fails for the commands that are not one call
    of [writeBytes].  The heat configuration is a command of 5 bytes sent in
    two calls, and the deadline on return is 3 byte times ahead, not 5.  A
    user-defined character with 37 data bytes is a command of 42 bytes whose
    data is written straight to the stream: on return the deadline is not
    ahead of the clock at all. *)
Lemma command_deadline_short :
  let heat := setHeatConfig 11 120 40 booted in
  let glyph := userDefinedCharacter 3 32 32 37 (fun i => i) booted in
  dtrEnabled (dev booted) = false
  /\ (length (wire (hw heat)) = 5%nat
      /\ s32 (resumeTime (dev heat) - micros heat) = 3 * BYTE_TIME
      /\ resumeTime (dev heat) < micros heat + 5 * BYTE_TIME)
  /\ (length (wire (hw glyph)) = 42%nat
      /\ s32 (resumeTime (dev glyph) - micros glyph) = 0
      /\ resumeTime (dev glyph) < micros glyph + 42 * BYTE_TIME).
Proof.
  vm_compute. repeat split; reflexivity.
Qed.

(** ** The text writer *)

(** The throttle never touches a formatting register. *)
Lemma timeoutSet_keeps (x : Z) (s : State) :
  exists r : Z, dev (timeoutSet x s) = set_resumeTime r (dev s).
Proof.
  rewrite timeoutSet_dev. destruct (dtrEnabled (dev s)).
  - exists (resumeTime (dev s)). symmetry. apply record_eta.
  - eexists. reflexivity.
Qed.

Lemma write_maxColumn (c : Z) (s : State) :
  maxColumn (dev (write c s)) = maxColumn (dev s).
Proof.
  unfold write.
  destruct (negb (u8 c =? 13)); [| reflexivity].
  cbv zeta.
  match goal with |- context [if ?b then _ else _] => destruct b end; simpl;
    match goal with |- context [timeoutSet ?x ?t] =>
      destruct (timeoutSet_keeps x t) as [r ->] end;
    simpl; rewrite timeoutWait_dev; reflexivity.
Qed.

(** The column after one text character: back to 0 from [maxColumn], one
    further otherwise. *)
Lemma write_column_text (c : Z) (s : State) :
  text_char c = true ->
  column (dev (write c s))
  = if column (dev s) =? maxColumn (dev s) then 0 else u8 (column (dev s) + 1).
Proof.
  unfold text_char, write. intros T.
  apply andb_prop in T. destruct T as [T1 T2].
  rewrite T2. cbv zeta.
  apply negb_true_iff in T1. rewrite T1. simpl orb.
  rewrite stream_write_dev, timeoutWait_dev.
  destruct (column (dev s) =? maxColumn (dev s)); simpl;
    match goal with |- context [timeoutSet ?x ?t] =>
      destruct (timeoutSet_keeps x t) as [r ->] end;
    simpl; rewrite ?timeoutWait_dev; reflexivity.
Qed.

Lemma print_cons (c : Z) (str : list Z) (s : State) :
  print (c :: str) s = print str (write c s).
Proof. reflexivity. Qed.

Lemma print_maxColumn (str : list Z) (s : State) :
  maxColumn (dev (print str s)) = maxColumn (dev s).
Proof.
  revert s. induction str as [| c str IH]; intros s.
  - reflexivity.
  - rewrite print_cons, IH. apply write_maxColumn.
Qed.

(** Without a wrap the column counts the characters. *)
Lemma unwrapped_column (str : list Z) :
  forall s : State,
    0 <= column (dev s) <= maxColumn (dev s) -> maxColumn (dev s) < 256 ->
    unwrapped str s = true ->
    column (dev (print str s)) = column (dev s) + Z.of_nat (length str)
    /\ column (dev s) + Z.of_nat (length str) <= maxColumn (dev s).
Proof.
  induction str as [| c str IH]; intros s R M U.
  - simpl. lia.
  - cbn [unwrapped] in U.
    apply andb_prop in U. destruct U as [U U3].
    apply andb_prop in U. destruct U as [U1 U2].
    apply negb_true_iff in U2.
    pose proof (write_column_text c s U1) as W. rewrite U2 in W.
    apply Z.eqb_neq in U2.
    rewrite u8_small in W by lia.
    rewrite print_cons.
    destruct (IH (write c s)) as [E B].
    + rewrite write_maxColumn, W. lia.
    + rewrite write_maxColumn. exact M.
    + exact U3.
    + rewrite write_maxColumn, W in *.
      change (length (c :: str)) with (S (length str)). lia.
Qed.

(** With wraps the column counts modulo [maxColumn + 1]. *)
Lemma text_column (str : list Z) :
  forall s : State,
    0 <= column (dev s) <= maxColumn (dev s) -> maxColumn (dev s) < 256 ->
    forallb text_char str = true ->
    column (dev (print str s))
    = (column (dev s) + Z.of_nat (length str)) mod (maxColumn (dev s) + 1).
Proof.
  induction str as [| c str IH]; intros s R M T.
  - simpl. rewrite Z.add_0_r. symmetry. apply Z.mod_small. lia.
  - cbn [forallb] in T. apply andb_prop in T. destruct T as [T1 T2].
    pose proof (write_column_text c s T1) as W.
    rewrite print_cons, IH; [| | rewrite write_maxColumn; exact M | exact T2].
    + rewrite write_maxColumn, W.
      change (length (c :: str)) with (S (length str)).
      destruct (Z.eqb_spec (column (dev s)) (maxColumn (dev s))) as [E | N].
      * rewrite E.
        replace (maxColumn (dev s) + Z.of_nat (S (length str)))
          with (0 + Z.of_nat (length str) + 1 * (maxColumn (dev s) + 1)) by lia.
        rewrite Z.mod_add by lia. reflexivity.
      * rewrite u8_small by lia. f_equal. lia.
    + rewrite write_maxColumn, W.
      destruct (Z.eqb_spec (column (dev s)) (maxColumn (dev s))) as [E | N].
      * lia.
      * rewrite u8_small by lia. lia.
Qed.

(** The column after any one character stays within [0, maxColumn]. *)
Lemma write_column_bound (c : Z) (s : State) :
  0 <= column (dev s) <= maxColumn (dev s) -> maxColumn (dev s) < 256 ->
  0 <= column (dev (write c s)) <= maxColumn (dev (write c s)).
Proof.
  intros R M. rewrite write_maxColumn.
  destruct (text_char c) eqn:T.
  - rewrite (write_column_text c s T).
    destruct (Z.eqb_spec (column (dev s)) (maxColumn (dev s))) as [E | N].
    + lia.
    + rewrite u8_small by lia. lia.
  - unfold write. unfold text_char in T.
    destruct (Z.eqb_spec (u8 c) 13) as [E13 | N13]; simpl negb.
    + cbv iota. lia.
    + cbv iota zeta. simpl in T. rewrite andb_true_r in T.
      apply negb_false_iff in T. rewrite T. simpl.
      match goal with |- context [timeoutSet ?x ?t] =>
        destruct (timeoutSet_keeps x t) as [r ->] end.
      simpl. lia.
Qed.

Lemma print_column_bound (str : list Z) :
  forall s : State,
    0 <= column (dev s) <= maxColumn (dev s) -> maxColumn (dev s) < 256 ->
    0 <= column (dev (print str s)) <= maxColumn (dev s).
Proof.
  induction str as [| c str IH]; intros s R M.
  - exact R.
  - rewrite print_cons.
    pose proof (write_column_bound c s R M) as B.
    rewrite <- (write_maxColumn c s).
    apply IH; [exact B | rewrite write_maxColumn; exact M].
Qed.

(** C2, as the code has it (write): while text is written the column stays
    in the closed range [0, maxColumn] once it is there, and [maxColumn] is
    not changed.  After text characters none of which wraps, the column has
    advanced by their count, and may stand at [maxColumn] itself when
    [write] returns; after any text characters it is the column of the
    start plus their count, modulo [maxColumn + 1]: from column 0, the
    count and the count modulo [maxColumn + 1]. *)
Theorem column_counts_to_maxColumn :
  forall (str : list Z) (s : State),
    0 <= maxColumn (dev s) < 256 ->
    0 <= column (dev s) <= maxColumn (dev s) ->
    (maxColumn (dev (print str s)) = maxColumn (dev s)
     /\ 0 <= column (dev (print str s)) <= maxColumn (dev (print str s)))
    /\ (unwrapped str s = true ->
        column (dev (print str s)) = column (dev s) + Z.of_nat (length str)
        /\ column (dev s) + Z.of_nat (length str) <= maxColumn (dev s))
    /\ (forallb text_char str = true ->
        column (dev (print str s))
        = (column (dev s) + Z.of_nat (length str))
            mod (maxColumn (dev s) + 1))
    /\ (column (dev s) = 0 ->
        (unwrapped str s = true ->
         column (dev (print str s)) = Z.of_nat (length str)
         /\ Z.of_nat (length str) <= maxColumn (dev s))
        /\ (forallb text_char str = true ->
            column (dev (print str s))
            = Z.of_nat (length str) mod (maxColumn (dev s) + 1))).
Proof.
  intros str s M R.
  split; [| split; [| split]].
  - split; [apply print_maxColumn |].
    rewrite print_maxColumn. apply print_column_bound; [exact R | lia].
  - intros U. apply (unwrapped_column str s R ltac:(lia) U).
  - intros T. apply (text_column str s R ltac:(lia) T).
  - intros C. split.
    + intros U.
      destruct (unwrapped_column str s R ltac:(lia) U) as [E B].
      rewrite C in E, B. simpl in E, B. split; assumption.
    + intros T. rewrite (text_column str s R ltac:(lia) T), C. reflexivity.
Qed.

Lemma column_counts_to_maxColumn_witness :
  column (dev (print (repeat (chr "A") 40) booted)) = 40 mod 33.
Proof.
  apply (proj2 (proj2 (proj2 (proj2 (column_counts_to_maxColumn
                                       (repeat (chr "A") 40) booted
                                       ltac:(simpl; lia)
                                       ltac:(simpl; lia))))
                  eq_refl)).
  reflexivity.
Defined.

(** C2, as the claim has it, fails.  32 letters printed from column 0 of a
    32-column line never take the wrap branch, and [write] returns with the
    column at [maxColumn], not at 32 mod 32 = 0.  Nor is the closed range an
    invariant of the driver: [doubleWidthOn] after 30 letters halves
    [maxColumn] to 16 and leaves the column at 30, from where the next
    letter goes to 31 without a wrap; and [tab] from column 12 of the
    12-column line of double-width font E goes to column 16. *)
Lemma column_reaches_maxColumn :
  let str := repeat (chr "A") 32 in
  let wide := doubleWidthOn (print (repeat (chr "A") 30) booted) in
  let fontE := print (repeat (chr "A") 12) (doubleWidthOn (setFont 4 booted)) in
  (column (dev booted) = 0
   /\ unwrapped str booted = true
   /\ column (dev (print str booted)) = maxColumn (dev (print str booted))
   /\ column (dev (print str booted))
      <> Z.of_nat (length str) mod maxColumn (dev booted))
  /\ (column (dev wide) = 30
      /\ maxColumn (dev wide) = 16
      /\ column (dev (write (chr "A") wide)) = 31)
  /\ (column (dev fontE) = 12
      /\ maxColumn (dev fontE) = 12
      /\ column (dev (tab fontE)) = 16
      /\ maxColumn (dev (tab fontE)) = 12).
Proof.
  vm_compute. repeat split; try reflexivity. discriminate.
Qed.

(** ** Character metrics *)

Lemma writeBytes1_keeps (a : Z) (s : State) :
  exists r : Z, dev (writeBytes1 a s) = set_resumeTime r (dev s).
Proof.
  unfold writeBytes1. cbv zeta.
  match goal with |- context [timeoutSet ?x ?t] =>
    destruct (timeoutSet_keeps x t) as [r ->] end.
  exists r. rewrite !stream_write_dev, timeoutWait_dev. reflexivity.
Qed.

Lemma writeBytes2_keeps (a b : Z) (s : State) :
  exists r : Z, dev (writeBytes2 a b s) = set_resumeTime r (dev s).
Proof.
  unfold writeBytes2. cbv zeta.
  match goal with |- context [timeoutSet ?x ?t] =>
    destruct (timeoutSet_keeps x t) as [r ->] end.
  exists r. rewrite !stream_write_dev, timeoutWait_dev. reflexivity.
Qed.

Lemma writeBytes3_keeps (a b c : Z) (s : State) :
  exists r : Z, dev (writeBytes3 a b c s) = set_resumeTime r (dev s).
Proof.
  unfold writeBytes3. cbv zeta.
  match goal with |- context [timeoutSet ?x ?t] =>
    destruct (timeoutSet_keeps x t) as [r ->] end.
  exists r. rewrite !stream_write_dev, timeoutWait_dev. reflexivity.
Qed.

Lemma writeBytes4_keeps (a b c d : Z) (s : State) :
  exists r : Z, dev (writeBytes4 a b c d s) = set_resumeTime r (dev s).
Proof.
  unfold writeBytes4. cbv zeta.
  match goal with |- context [timeoutSet ?x ?t] =>
    destruct (timeoutSet_keeps x t) as [r ->] end.
  exists r. rewrite !stream_write_dev, timeoutWait_dev. reflexivity.
Qed.

(** Strip the command writes from a goal about the registers. *)
Ltac throttle_away :=
  repeat match goal with
    | |- context [dev (writeBytes4 ?a ?b ?c ?d ?t)] =>
        let r := fresh "r" in
        destruct (writeBytes4_keeps a b c d t) as [r ->]
    | |- context [dev (writeBytes3 ?a ?b ?c ?t)] =>
        let r := fresh "r" in
        destruct (writeBytes3_keeps a b c t) as [r ->]
    | |- context [dev (writeBytes2 ?a ?b ?t)] =>
        let r := fresh "r" in
        destruct (writeBytes2_keeps a b t) as [r ->]
    | |- context [dev (writeBytes1 ?a ?t)] =>
        let r := fresh "r" in
        destruct (writeBytes1_keeps a t) as [r ->]
    end.

(** Reduce the projections of updated records, nothing else. *)
Ltac regs :=
  cbn [dev hw on_dev on_hw
       dtrPin dtrEnabled firmware resumeTime dotPrintTime dotFeedTime printMode
       prevByte column maxColumn charWidth charHeight lineSpacing barcodeHeight
       maxChunkHeight fontData autoLineHeight
       set_dtrEnabled set_firmware set_resumeTime set_dotPrintTime
       set_dotFeedTime set_printMode set_prevByte set_column set_maxColumn
       set_charWidth set_charHeight set_lineSpacing set_barcodeHeight
       set_maxChunkHeight set_fontData set_autoLineHeight].

(** The registers [adjustCharValues] derives, read field by field. *)
Lemma adjustCharValues_fields (s : State) :
  let cell := font_cell (u8 (font_id s)) in
  let s' := adjustCharValues s in
  charWidth (dev s')
  = (if double_width s then u8 (fst cell * 2) else fst cell)
  /\ charHeight (dev s')
     = (if double_height s then u8 (snd cell * 2) else snd cell)
  /\ maxColumn (dev s') = u8 (cdiv 384 (charWidth (dev s')))
  /\ fontData (dev s')
     = u8 (Z.lor
             (u8 (Z.lor (u8 (Z.shiftl (Z.land (printMode (dev s)) 32) 2))
                        (Z.shiftr (Z.land (printMode (dev s)) 16) 1)))
             (u8 (font_id s)))
  /\ printMode (dev s') = printMode (dev s)
  /\ lineSpacing (dev s') = lineSpacing (dev s)
  /\ autoLineHeight (dev s') = autoLineHeight (dev s)
  /\ dtrEnabled (dev s') = dtrEnabled (dev s).
Proof.
  unfold adjustCharValues, double_width, double_height, font_id.
  cbv zeta. regs.
  destruct (negb (Z.land (printMode (dev s)) DOUBLE_WIDTH_MASK =? 0)); regs;
    destruct (negb (Z.land (printMode (dev s)) DOUBLE_HEIGHT_MASK =? 0)); regs;
    match goal with
    | |- context [if autoLineHeight ?t then _ else _] =>
        destruct (autoLineHeight t)
    end;
    throttle_away; regs; repeat split; reflexivity.
Qed.

Lemma font_id_range (s : State) : 0 <= font_id s < 8.
Proof.
  unfold font_id. split.
  - apply Z.land_nonneg. right. lia.
  - change 7 with (Z.ones 3). rewrite Z.land_ones by lia.
    apply Z.mod_pos_bound. lia.
Qed.

Lemma font_bits (fd f : Z) :
  0 <= f < 8 -> Z.land (u8 (Z.lor (Z.land fd 248) f)) 7 = f.
Proof.
  intros H. unfold u8. change 256 with (2 ^ 8).
  rewrite <- Z.land_ones by lia. rewrite <- Z.land_assoc.
  change (Z.land (Z.ones 8) 7) with 7.
  rewrite Z.land_lor_distr_l, <- Z.land_assoc.
  change (Z.land 248 7) with 0. rewrite Z.land_0_r, Z.lor_0_l.
  change 7 with (Z.ones 3). rewrite Z.land_ones by lia.
  apply Z.mod_small. simpl. lia.
Qed.

Lemma land_bit (a n : Z) :
  0 <= n -> Z.land a (2 ^ n) = if Z.testbit a n then 2 ^ n else 0.
Proof.
  intros H. apply Z.bits_inj'. intros k Hk.
  rewrite Z.land_spec, Z.pow2_bits_eqb by lia.
  destruct (Z.eqb_spec n k) as [-> | N].
  - destruct (Z.testbit a k); simpl.
    + rewrite Z.pow2_bits_eqb by lia. rewrite Z.eqb_refl. reflexivity.
    + rewrite Z.bits_0. reflexivity.
  - rewrite andb_false_r.
    destruct (Z.testbit a n).
    + rewrite Z.pow2_bits_eqb by lia. symmetry. apply Z.eqb_neq. exact N.
    + rewrite Z.bits_0. reflexivity.
Qed.

(** The style bits [adjustCharValues] folds into [fontData] leave the font
    id in place. *)
Lemma adjustCharValues_font_id (s : State) :
  font_id (adjustCharValues s) = font_id s.
Proof.
  destruct (adjustCharValues_fields s) as (_ & _ & _ & F & _).
  unfold font_id at 1. rewrite F.
  pose proof (font_id_range s) as R.
  change 32 with (2 ^ 5). change 16 with (2 ^ 4).
  rewrite !land_bit by lia.
  assert (C : font_id s = 0 \/ font_id s = 1 \/ font_id s = 2 \/ font_id s = 3
              \/ font_id s = 4 \/ font_id s = 5 \/ font_id s = 6
              \/ font_id s = 7) by lia.
  destruct (Z.testbit (printMode (dev s)) 5);
    destruct (Z.testbit (printMode (dev s)) 4);
    repeat (destruct C as [C | C]; [rewrite C; reflexivity |]);
    rewrite C; reflexivity.
Qed.

(** C3 (adjustCharValues, setFont): the metrics are a function of the font
    id and the two double flags alone.  For font ids 0 to 4 the cell is the
    one of the five-font table (12x24, 9x24, 9x17, 8x16, 16x16), its width
    doubled by double width and its height by double height, and maxColumn is
    384 / charWidth by integer division; after setFont('C') with neither
    double mode the cell is 9 x 17 and maxColumn is 42. *)
Theorem adjustCharValues_metrics :
  (forall s : State,
     0 <= font_id s <= 4 ->
     let s' := adjustCharValues s in
     charWidth (dev s')
     = fst (table_cell (font_id s)) * (if double_width s then 2 else 1)
     /\ charHeight (dev s')
        = snd (table_cell (font_id s)) * (if double_height s then 2 else 1)
     /\ maxColumn (dev s') = 384 / charWidth (dev s'))
  /\ (forall s1 s2 : State,
        font_id s1 = font_id s2 ->
        double_width s1 = double_width s2 ->
        double_height s1 = double_height s2 ->
        charWidth (dev (adjustCharValues s1))
        = charWidth (dev (adjustCharValues s2))
        /\ charHeight (dev (adjustCharValues s1))
           = charHeight (dev (adjustCharValues s2))
        /\ maxColumn (dev (adjustCharValues s1))
           = maxColumn (dev (adjustCharValues s2)))
  /\ (forall s : State,
        double_width s = false ->
        double_height s = false ->
        let s' := setFont (chr "C") s in
        font_id s' = 2
        /\ charWidth (dev s') = 9
        /\ charHeight (dev s') = 17
        /\ maxColumn (dev s') = 42).
Proof.
  split; [| split].
  - intros s H s'.
    destruct (adjustCharValues_fields s) as (W & Hh & M & _).
    fold s' in W, Hh, M. rewrite M, W, Hh.
    assert (C : font_id s = 0 \/ font_id s = 1 \/ font_id s = 2
                \/ font_id s = 3 \/ font_id s = 4) by lia.
    destruct (double_width s); destruct (double_height s);
      repeat (destruct C as [C | C]; [rewrite C; repeat split; reflexivity |]);
      rewrite C; repeat split; reflexivity.
  - intros s1 s2 F W H.
    destruct (adjustCharValues_fields s1) as (W1 & H1 & M1 & _).
    destruct (adjustCharValues_fields s2) as (W2 & H2 & M2 & _).
    rewrite M1, M2, W1, W2, H1, H2, F, W, H. repeat split.
  - intros s W H s'. unfold s', setFont. cbv zeta.
    change (u8 (chr "C")) with 67. cbn -[adjustCharValues on_dev].
    set (s1 := on_dev _ s).
    assert (F : font_id s1 = 2).
    { unfold s1, font_id. regs. apply font_bits. lia. }
    destruct (adjustCharValues_fields s1) as (W1 & H1 & M1 & _).
    rewrite adjustCharValues_font_id, M1, W1, H1, F.
    change (double_width s1) with (double_width s).
    change (double_height s1) with (double_height s).
    rewrite W, H. repeat split.
Qed.

Lemma adjustCharValues_metrics_witness :
  charWidth (dev (adjustCharValues booted)) = 12
  /\ charHeight (dev (adjustCharValues booted)) = 24
  /\ maxColumn (dev (adjustCharValues booted)) = 32
  /\ maxColumn (dev (setFont (chr "C") booted)) = 42.
Proof.
  destruct (proj1 adjustCharValues_metrics booted ltac:(vm_compute; split; discriminate))
    as (W & H & M).
  destruct (proj2 (proj2 adjustCharValues_metrics) booted eq_refl eq_refl)
    as (_ & _ & _ & M').
  rewrite M', M, W, H. repeat split.
Defined.

(** ** What a command write leaves on the wire and on the clock *)

Lemma timeoutSet_wire (x : Z) (s : State) :
  wire (hw (timeoutSet x s)) = wire (hw s).
Proof. rewrite timeoutSet_hw. reflexivity. Qed.

Lemma timeoutSet_micros (x : Z) (s : State) :
  micros (timeoutSet x s) = micros s.
Proof. unfold micros. rewrite timeoutSet_hw. reflexivity. Qed.

Lemma writeBytes1_wire (a : Z) (s : State) :
  wire (hw (writeBytes1 a s)) = wire (hw s) ++ [u8 a].
Proof.
  unfold writeBytes1. cbv zeta.
  rewrite timeoutSet_wire, !stream_write_wire, timeoutWait_wire.
  reflexivity.
Qed.

Lemma writeBytes3_wire (a b c : Z) (s : State) :
  wire (hw (writeBytes3 a b c s)) = wire (hw s) ++ [u8 a; u8 b; u8 c].
Proof.
  unfold writeBytes3. cbv zeta.
  rewrite timeoutSet_wire, !stream_write_wire, timeoutWait_wire.
  rewrite <- !app_assoc. reflexivity.
Qed.

Lemma writeBytes4_wire (a b c d : Z) (s : State) :
  wire (hw (writeBytes4 a b c d s))
  = wire (hw s) ++ [u8 a; u8 b; u8 c; u8 d].
Proof.
  unfold writeBytes4. cbv zeta.
  rewrite timeoutSet_wire, !stream_write_wire, timeoutWait_wire.
  rewrite <- !app_assoc. reflexivity.
Qed.

Lemma writeBytes3_micros (a b c : Z) (s : State) :
  micros (writeBytes3 a b c s) = micros (timeoutWait s).
Proof.
  unfold writeBytes3. cbv zeta.
  rewrite timeoutSet_micros, !stream_write_micros. reflexivity.
Qed.

Lemma writeBytes3_dev (a b c : Z) (s : State) :
  dev (writeBytes3 a b c s)
  = if dtrEnabled (dev s) then dev s
    else set_resumeTime (u32 (micros (timeoutWait s) + 3 * BYTE_TIME)) (dev s).
Proof.
  unfold writeBytes3. cbv zeta.
  rewrite timeoutSet_dev, !stream_write_dev, !stream_write_micros,
    timeoutWait_dev.
  reflexivity.
Qed.

(** ** Feeding *)

(** C9 (feed): on firmware 264 and later, [feed(x)] returns with the column
    at 0 and [prevByte] at the newline, and with the busy estimate
    charHeight * dotFeedTime recorded through [timeoutSet]: in timing mode the
    deadline is now plus that product (modulo 2^32), under the handshake it
    stays as it was; nothing in the driver object, nor the clock, depends
    on [x]. *)
Theorem feed_estimate :
  forall (x y : Z) (s : State),
    264 <= firmware (dev s) ->
    let s' := feed x s in
    column (dev s') = 0
    /\ prevByte (dev s') = chr "010"
    /\ (dtrEnabled (dev s) = false ->
        resumeTime (dev s')
        = u32 (micros s' + charHeight (dev s) * dotFeedTime (dev s)))
    /\ (dtrEnabled (dev s) = true -> resumeTime (dev s') = resumeTime (dev s))
    /\ dev (feed x s) = dev (feed y s)
    /\ micros (feed x s) = micros (feed y s).
Proof.
  intros x y s F s'.
  assert (E : forall z : Z,
             feed z s
             = on_dev (set_column 0)
                 (on_dev (set_prevByte (chr "010"))
                    (timeoutSet (dotFeedTime (dev s) * charHeight (dev s))
                       (writeBytes3 ASCII_ESC (chr "d") (u8 z) s)))).
  { intros z. unfold feed. cbv zeta.
    destruct (Z.leb_spec 264 (firmware (dev s))) as [_ | L]; [| lia].
    rewrite writeBytes3_dev.
    destruct (dtrEnabled (dev s)); reflexivity. }
  unfold s'. rewrite !E. regs.
  unfold micros. regs. rewrite !timeoutSet_hw, !timeoutSet_dev.
  fold (micros (writeBytes3 ASCII_ESC (chr "d") (u8 x) s)).
  fold (micros (writeBytes3 ASCII_ESC (chr "d") (u8 y) s)).
  rewrite !writeBytes3_micros, !writeBytes3_dev.
  destruct (dtrEnabled (dev s)) eqn:D; regs; rewrite ?D; regs.
  - repeat split; try reflexivity. intros A. discriminate A.
  - repeat split; try reflexivity.
    + intros _. f_equal. f_equal. apply Z.mul_comm.
    + intros A. discriminate A.
Qed.

Lemma feed_estimate_witness :
  column (dev (feed 3 booted)) = 0
  /\ resumeTime (dev (feed 3 booted)) = 1000000 + 24 * 2100
  /\ dev (feed 3 booted) = dev (feed 200 booted).
Proof.
  destruct (feed_estimate 3 200 booted ltac:(simpl; lia))
    as (C & _ & R & _ & D & _).
  split; [exact C |]. split; [| exact D].
  rewrite (R eq_refl). reflexivity.
Defined.

(** ** Line height *)

Lemma autoLineHeightOff_flag (s : State) :
  autoLineHeight (dev (autoLineHeightOff s)) = false.
Proof.
  unfold autoLineHeightOff.
  destruct (adjustCharValues_fields (on_dev (set_autoLineHeight false) s))
    as (_ & _ & _ & _ & _ & _ & A & _).
  rewrite A. reflexivity.
Qed.

Lemma setLineHeight_regs (val : Z) (s : State) :
  lineSpacing (dev (setLineHeight val s))
  = u8 ((if val <? 20 then 20 else val) - 20)
  /\ autoLineHeight (dev (setLineHeight val s)) = false.
Proof.
  unfold setLineHeight. cbv zeta.
  pose proof (autoLineHeightOff_flag s) as A.
  generalize dependent (autoLineHeightOff s). intros s1 A.
  throttle_away. regs. split; [reflexivity | exact A].
Qed.

(** C10, as the code has it (setLineHeight): for every [val] the call turns
    autoLineHeight off, raises [val] to at least 20 and stores the raised
    value minus 20 in the one-byte [lineSpacing], that is modulo 256: the
    stored value is never negative, and is exactly the raised value minus 20
    for every [val] up to 275. *)
Theorem setLineHeight_spacing :
  forall (val : Z) (s : State),
    let s' := setLineHeight val s in
    autoLineHeight (dev s') = false
    /\ lineSpacing (dev s') = (Z.max val 20 - 20) mod 256
    /\ 0 <= lineSpacing (dev s')
    /\ (val <= 275 -> lineSpacing (dev s') = Z.max val 20 - 20).
Proof.
  intros val s s'. unfold s'.
  destruct (setLineHeight_regs val s) as [L A].
  assert (V : (if val <? 20 then 20 else val) = Z.max val 20).
  { destruct (Z.ltb_spec val 20); lia. }
  rewrite V in L. rewrite L, A. unfold u8.
  split; [reflexivity | split; [reflexivity | split]].
  - apply Z.mod_pos_bound. lia.
  - intros B. apply Z.mod_small. lia.
Qed.

Lemma setLineHeight_spacing_witness :
  lineSpacing (dev (setLineHeight 30 booted)) = 10
  /\ lineSpacing (dev (setLineHeight 5 booted)) = 0.
Proof.
  split.
  - apply (proj2 (proj2 (proj2 (setLineHeight_spacing 30 booted)))). lia.
  - apply (proj2 (proj2 (proj2 (setLineHeight_spacing 5 booted)))). lia.
Defined.

(** C10, as the claim has it, fails: [setLineHeight(276)] leaves 0 in
    [lineSpacing], not 276 - 20 = 256. *)
Lemma setLineHeight_wraps :
  lineSpacing (dev (setLineHeight 276 booted)) = 0
  /\ lineSpacing (dev (setLineHeight 276 booted)) <> Z.max 276 20 - 20.
Proof. vm_compute. split; [reflexivity | discriminate]. Qed.

(** ** Paper status *)

Lemma paper_present_bits (status : Z) :
  paper_present status
  = negb (Z.testbit status 5 && Z.testbit status 6).
Proof.
  unfold paper_present.
  change 96 with (Z.lor (2 ^ 5) (2 ^ 6)) at 1.
  rewrite Z.land_lor_distr_r, !land_bit by lia.
  destruct (Z.testbit status 5); destruct (Z.testbit status 6); reflexivity.
Qed.

Lemma hasPaper_status (s : State) :
  fst (hasPaper s) = paper_present (u8 (fst (getStatus 4 s))).
Proof. unfold hasPaper. destruct (getStatus 4 s). reflexivity. Qed.

Lemma poll_status_byte (n : nat) :
  forall (status : Z) (s : State),
    0 <= status < 256 -> 0 <= fst (poll_status n status s) < 256.
Proof.
  induction n as [| n IH]; intros status s R.
  - exact R.
  - cbn [poll_status]. destruct (inbox (hw s)) as [| [b |] rest].
    + apply IH. exact R.
    + apply u8_range.
    + apply IH. exact R.
Qed.

(** C6, as the code has it (hasPaper, getStatus): the status of page 4 is a
    byte, and [hasPaper] returns false exactly when bits 5 and 6 of it are
    both set, that is when [status & 0b01100000] equals [0b01100000],
    whatever the other six bits are; the byte [0b01100000] itself is one such
    value. *)
Theorem hasPaper_both_bits :
  forall s : State,
    let status := fst (getStatus 4 s) in
    0 <= status < 256
    /\ fst (hasPaper s) = negb (Z.testbit status 5 && Z.testbit status 6)
    /\ (fst (hasPaper s) = false <-> Z.land status 96 = 96)
    /\ (status = 96 -> fst (hasPaper s) = false).
Proof.
  intros s status.
  assert (R : 0 <= status < 256).
  { unfold status, getStatus. cbv zeta. apply poll_status_byte. lia. }
  assert (E : fst (hasPaper s) = paper_present status).
  { rewrite hasPaper_status. fold status. rewrite u8_small by exact R.
    reflexivity. }
  split; [exact R |]. split; [| split].
  - rewrite E. apply paper_present_bits.
  - rewrite E. unfold paper_present. rewrite negb_false_iff. apply Z.eqb_eq.
  - intros S. rewrite E, S. reflexivity.
Qed.

Lemma hasPaper_both_bits_witness :
  fst (hasPaper (on_hw (set_inbox [None; Some 96]) booted)) = false.
Proof.
  apply (proj2 (proj2 (proj2
           (hasPaper_both_bits (on_hw (set_inbox [None; Some 96]) booted))))).
  reflexivity.
Defined.

(** C6, as the claim has it, fails: the status byte [0b01100001] is not
    [0b01100000], and [hasPaper] returns false on it. *)
Lemma hasPaper_false_off_pattern :
  let s := on_hw (set_inbox [Some 97]) booted in
  fst (getStatus 4 s) = 97
  /\ 97 <> 96
  /\ fst (hasPaper s) = false.
Proof. vm_compute. repeat split; try reflexivity. discriminate. Qed.

(** A printer that never answers reads as status 255, hence as no paper. *)
Lemma hasPaper_false_on_silence :
  fst (getStatus 4 booted) = 255 /\ fst (hasPaper booted) = false.
Proof. vm_compute. split; reflexivity. Qed.

(** ** Out-of-range parameters *)

Lemma byte_forall (P : Z -> bool) :
  forallb P (map Z.of_nat (seq 0 256)) = true ->
  forall b : Z, 0 <= b < 256 -> P b = true.
Proof.
  intros H b R. rewrite forallb_forall in H. apply H.
  apply in_map_iff. exists (Z.to_nat b). split; [lia |].
  apply in_seq. lia.
Qed.

Lemma font_of_arg_range (b : Z) : 0 <= font_of_arg b < 8.
Proof.
  unfold font_of_arg.
  repeat match goal with
    | |- context [?x <=? ?y] => destruct (Z.leb_spec x y); simpl
    end; lia.
Qed.

Lemma setFont_font_id (f : Z) (s : State) :
  font_id (setFont f s) = font_of_arg (u8 f).
Proof.
  unfold setFont. cbv zeta.
  rewrite adjustCharValues_font_id. unfold font_id. regs.
  assert (E : forall b : Z,
             0 <= b < 256 ->
             (if 65 <=? b
              then
                u8 ((if (if 69 <? u8 (toupper b) then 65
                         else u8 (toupper b)) <? 65
                     then 65
                     else if 69 <? u8 (toupper b) then 65
                          else u8 (toupper b)) - 65)
              else if 4 <? b then 0 else b) = font_of_arg b).
  { intros b R. apply Z.eqb_eq.
    apply (byte_forall
             (fun b =>
                (if 65 <=? b
                 then
                   u8 ((if (if 69 <? u8 (toupper b) then 65
                            else u8 (toupper b)) <? 65
                        then 65
                        else if 69 <? u8 (toupper b) then 65
                             else u8 (toupper b)) - 65)
                 else if 4 <? b then 0 else b) =? font_of_arg b));
      [vm_compute; reflexivity | exact R]. }
  rewrite (E (u8 f) (u8_range f)). apply font_bits. apply font_of_arg_range.
Qed.

Lemma clamp_top (hi v : Z) :
  0 <= v -> 0 <= hi -> (if hi <? v then hi else v) = clamp 0 hi v.
Proof. intros A B. unfold clamp. destruct (Z.ltb_spec hi v); lia. Qed.

Lemma u8_idem (x : Z) : u8 (u8 x) = u8 x.
Proof. apply u8_small. apply u8_range. Qed.

Lemma strlen_bound (text : list Z) :
  0 <= strlen text <= Z.of_nat (length text).
Proof.
  induction text as [| c rest IH]; cbn [strlen].
  - simpl. lia.
  - change (length (c :: rest)) with (S (length rest)).
    destruct (c =? 0); lia.
Qed.

Lemma skipn_nth (l : list Z) :
  forall i : nat,
    (i < length l)%nat -> skipn i l = nth i l 0 :: skipn (S i) l.
Proof.
  induction l as [| c rest IH]; intros i H; simpl in H.
  - lia.
  - destruct i as [| i].
    + reflexivity.
    + change (skipn (S i) (c :: rest)) with (skipn i rest).
      rewrite IH by lia. reflexivity.
Qed.

(** The characters of a barcode go out one command write each, in order. *)
Lemma barcode_chars_wire (n : nat) (text : list Z) :
  forall (i : Z) (s : State),
    0 <= i -> i + Z.of_nat n <= 256 ->
    i + Z.of_nat n <= Z.of_nat (length text) ->
    wire (hw (barcode_chars n text i s))
    = wire (hw s) ++ map u8 (firstn n (skipn (Z.to_nat i) text)).
Proof.
  induction n as [| n IH]; intros i s P B L.
  - simpl. rewrite app_nil_r. reflexivity.
  - cbn [barcode_chars].
    rewrite (skipn_nth text (Z.to_nat i)) by lia.
    cbn [firstn map].
    destruct n as [| n'].
    + cbn [barcode_chars firstn map]. rewrite writeBytes1_wire. reflexivity.
    + rewrite u8_small by lia.
      rewrite IH by lia. rewrite writeBytes1_wire.
      rewrite <- app_assoc. cbn [app]. unfold char_at.
      replace (Z.to_nat (i + 1)) with (S (Z.to_nat i)) by lia.
      reflexivity.
Qed.

Lemma barcode_chars_firmware (n : nat) (text : list Z) :
  forall (i : Z) (s : State),
    exists r : Z, dev (barcode_chars n text i s) = set_resumeTime r (dev s).
Proof.
  induction n as [| n IH]; intros i s.
  - exists (resumeTime (dev s)). symmetry. apply record_eta.
  - cbn [barcode_chars].
    destruct (IH (u8 (i + 1)) (writeBytes1 (char_at text i) s)) as [r ->].
    throttle_away. eexists. reflexivity.
Qed.

Lemma feed_modern (x : Z) (s : State) :
  264 <= firmware (dev s) ->
  wire (hw (feed x s)) = wire (hw s) ++ [ASCII_ESC; chr "d"; u8 x]
  /\ firmware (dev (feed x s)) = firmware (dev s).
Proof.
  intros F. unfold feed. cbv zeta.
  destruct (Z.leb_spec 264 (firmware (dev s))) as [_ | L]; [| lia].
  split.
  - cbn [hw on_dev]. rewrite timeoutSet_wire, writeBytes3_wire.
    rewrite u8_idem. reflexivity.
  - regs.
    match goal with |- context [timeoutSet ?x ?t] =>
      destruct (timeoutSet_keeps x t) as [r ->] end.
    throttle_away. reflexivity.
Qed.

(** On firmware 264 and later a barcode goes out as: feed, the three
    settings, the length byte, the characters. *)
Lemma printBarcode_modern (text : list Z) (type : Z) (s : State) :
  264 <= firmware (dev s) ->
  exists s' : State,
    printBarcode text type s = Ok s'
    /\ wire (hw s')
       = wire (hw s)
         ++ [ASCII_ESC; chr "d"; 1]
         ++ [ASCII_GS; chr "H"; 2; ASCII_GS; chr "w"; 3;
             ASCII_GS; chr "k"; u8 (u8 type + 65)]
         ++ [Z.min (strlen text) 255]
         ++ map u8 (firstn (Z.to_nat (Z.min (strlen text) 255)) text).
Proof.
  intros F. unfold printBarcode. cbv zeta.
  destruct (feed_modern 1 s F) as [W1 F1].
  generalize dependent (feed 1 s). intros s1 W1 F1.
  assert (C1 : (264 <=? firmware (dev s1)) = true) by (apply Z.leb_le; lia).
  rewrite C1.
  assert (C4 : (264 <=? firmware
                  (dev (writeBytes3 ASCII_GS (chr "k") (u8 (u8 type + 65))
                     (writeBytes3 ASCII_GS (chr "w") 3
                        (writeBytes3 ASCII_GS (chr "H") 2 s1))))) = true).
  { throttle_away. regs. exact C1. }
  rewrite C4. cbn [bind].
  eexists. split; [reflexivity |].
  cbn [hw on_dev]. rewrite timeoutSet_wire.
  pose proof (strlen_bound text) as SB.
  assert (M : (if 255 <? strlen text then 255 else strlen text)
              = Z.min (strlen text) 255).
  { destruct (Z.ltb_spec 255 (strlen text)); lia. }
  rewrite M.
  rewrite barcode_chars_wire by lia.
  rewrite writeBytes1_wire, !writeBytes3_wire, W1.
  rewrite !u8_small by (vm_compute; split; [discriminate | reflexivity]).
  rewrite (u8_small (Z.min _ _)) by lia.
  rewrite u8_idem. rewrite <- !app_assoc. reflexivity.
Qed.

(** C7, as the code has it: no configuration method rejects its argument.
    An underline weight, a charset index and a code-page index beyond the
    range are clamped to the nearest valid value (2, 15, 47), and so is the
    length of a barcode text on firmware 264 and later (255, with exactly
    that many characters sent); a font argument beyond the range is not
    clamped to the nearest font but selects font A (id 0). *)
Theorem out_of_range_parameters :
  forall (v : Z) (s : State),
    underlineOn v s
    = writeBytes3 ASCII_ESC (chr "-") (clamp 0 2 (u8 v)) s
    /\ setCharset v s
       = writeBytes3 ASCII_ESC (chr "R") (clamp 0 15 (u8 v)) s
    /\ setCodePage v s
       = writeBytes3 ASCII_ESC (chr "t") (clamp 0 47 (u8 v)) s
    /\ font_id (setFont v s) = font_of_arg (u8 v)
    /\ (4 < u8 v < 65 \/ 69 < u8 v < 97 \/ 101 < u8 v ->
        font_id (setFont v s) = 0)
    /\ forall (text : list Z) (type : Z),
         264 <= firmware (dev s) ->
         exists s' : State,
           printBarcode text type s = Ok s'
           /\ wire (hw s')
              = wire (hw s)
                ++ [ASCII_ESC; chr "d"; 1]
                ++ [ASCII_GS; chr "H"; 2; ASCII_GS; chr "w"; 3;
                    ASCII_GS; chr "k"; u8 (u8 type + 65)]
                ++ [clamp 0 255 (strlen text)]
                ++ map u8 (firstn (Z.to_nat (clamp 0 255 (strlen text))) text).
Proof.
  intros v s. pose proof (u8_range v) as R.
  split; [| split; [| split; [| split; [| split]]]].
  - unfold underlineOn. cbv zeta. rewrite clamp_top by lia. reflexivity.
  - unfold setCharset. cbv zeta. rewrite clamp_top by lia. reflexivity.
  - unfold setCodePage. cbv zeta. rewrite clamp_top by lia. reflexivity.
  - apply setFont_font_id.
  - intros H. rewrite setFont_font_id. unfold font_of_arg.
    repeat match goal with
      | |- context [?x <=? ?y] => destruct (Z.leb_spec x y); simpl
      end; lia.
  - intros text type F.
    destruct (printBarcode_modern text type s F) as (s' & E & W).
    exists s'. split; [exact E |].
    pose proof (strlen_bound text) as SB.
    replace (clamp 0 255 (strlen text)) with (Z.min (strlen text) 255)
      by (unfold clamp; lia).
    exact W.
Qed.

Lemma out_of_range_parameters_witness :
  exists s' : State,
    printBarcode (repeat (chr "7") 300) 4 booted = Ok s'
    /\ nth 12 (wire (hw s')) 0 = 255
    /\ length (wire (hw s')) = (13 + 255)%nat.
Proof.
  destruct (proj2 (proj2 (proj2 (proj2 (proj2
              (out_of_range_parameters 0 booted)))))
              (repeat (chr "7") 300) 4 ltac:(simpl; lia))
    as (s' & E & W).
  exists s'. split; [exact E |]. rewrite W. split; reflexivity.
Defined.

(** C7, as the claim has it, fails on the font: [setFont(5)] selects font 0,
    not the nearest valid id 4, and [setFont('Z')] selects font A, not the
    nearest letter E. *)
Lemma setFont_out_of_range_selects_A :
  font_id (setFont 5 booted) = 0
  /\ font_id (setFont 5 booted) <> clamp 0 4 5
  /\ font_id (setFont (chr "Z") booted) = 0
  /\ font_id (setFont (chr "Z") booted) <> clamp (chr "A") (chr "E") (chr "Z") - chr "A".
Proof. vm_compute. repeat split; try reflexivity; discriminate. Qed.

(** ** Bitmap transfer from memory *)

Lemma row_bytes_step (bitmap : Z -> Z) (i : Z) (n : nat) :
  row_bytes bitmap i (S n) = u8 (bitmap i) :: row_bytes bitmap (i + 1) n.
Proof.
  unfold row_bytes. cbn [seq map]. rewrite Z.add_0_r. f_equal.
  rewrite <- seq_shift, map_map. apply map_ext. intros k.
  do 2 f_equal. lia.
Qed.

Lemma bitmap_row_spec (n : nat) (bitmap : Z -> Z) (fromProgMem : bool) :
  forall (i : Z) (s : State),
    fst (bitmap_row n bitmap fromProgMem i s) = i + Z.of_nat n
    /\ wire (hw (snd (bitmap_row n bitmap fromProgMem i s)))
       = wire (hw s) ++ row_bytes bitmap i n
    /\ dev (snd (bitmap_row n bitmap fromProgMem i s)) = dev s.
Proof.
  induction n as [| n IH]; intros i s.
  - cbn [bitmap_row fst snd]. unfold row_bytes. cbn [seq map].
    rewrite app_nil_r. repeat split. lia.
  - cbn [bitmap_row].
    destruct (IH (i + 1)
                (stream_write
                   (if fromProgMem then pgm_read_byte bitmap i else bitmap i)
                   (timeoutWait s))) as (I & W & D).
    rewrite I, W, D. rewrite stream_write_wire, stream_write_dev.
    rewrite timeoutWait_wire, timeoutWait_dev, row_bytes_step.
    rewrite <- app_assoc.
    replace (if fromProgMem then pgm_read_byte bitmap i else bitmap i)
      with (bitmap i) by (destruct fromProgMem; reflexivity).
    repeat split. lia.
Qed.

Lemma rows_bytes_step (bitmap : Z -> Z) (rowBytes : Z) (n : nat) (i : Z)
    (rows : nat) :
  rows_bytes bitmap rowBytes n i (S rows)
  = row_bytes bitmap i n ++ rows_bytes bitmap rowBytes n (i + rowBytes) rows.
Proof.
  unfold rows_bytes. cbn [seq map concat].
  replace (i + Z.of_nat 0 * rowBytes) with i by lia. f_equal.
  rewrite <- seq_shift, map_map. f_equal. apply map_ext. intros y.
  f_equal. lia.
Qed.

Lemma bitmap_rows_spec (rows : nat) (rowBytes rowBytesClipped : Z)
    (bitmap : Z -> Z) (fromProgMem : bool) :
  0 <= rowBytesClipped ->
  forall (i : Z) (s : State),
    let r := bitmap_rows rows rowBytes rowBytesClipped bitmap fromProgMem i s in
    fst r = i + Z.of_nat rows * rowBytes
    /\ wire (hw (snd r))
       = wire (hw s)
         ++ rows_bytes bitmap rowBytes (Z.to_nat rowBytesClipped) i rows
    /\ dev (snd r) = dev s.
Proof.
  intros C. induction rows as [| rows IH]; intros i s.
  - cbn. rewrite app_nil_r. repeat split. lia.
  - cbv zeta. cbn [bitmap_rows].
    destruct (bitmap_row_spec (Z.to_nat rowBytesClipped) bitmap fromProgMem i s)
      as (I & W & D).
    destruct (bitmap_row (Z.to_nat rowBytesClipped) bitmap fromProgMem i s)
      as [i1 s1].
    cbn [fst snd] in I, W, D.
    destruct (IH (i1 + (rowBytes - rowBytesClipped)) s1) as (I' & W' & D').
    rewrite I', W', D', W, D, rows_bytes_step, <- app_assoc.
    replace (i1 + (rowBytes - rowBytesClipped)) with (i + rowBytes) by lia.
    repeat split. lia.
Qed.

(** One chunk on the wire: the header with the chunk height and the clipped
    row size, then the rows. *)
Lemma bitmap_chunk_spec (h rowStart limit rowBytes rowBytesClipped : Z)
    (bitmap : Z -> Z) (fromProgMem : bool) (i : Z) (s : State) :
  0 <= rowBytesClipped ->
  let chunkHeight := chunkHeight_of h rowStart limit in
  let r := bitmap_chunk h rowStart limit rowBytes rowBytesClipped
             bitmap fromProgMem i s in
  fst r = i + Z.of_nat (Z.to_nat chunkHeight) * rowBytes
  /\ wire (hw (snd r))
     = wire (hw s)
       ++ [ASCII_DC2; chr "*"; u8 chunkHeight; u8 rowBytesClipped]
       ++ rows_bytes bitmap rowBytes (Z.to_nat rowBytesClipped) i
            (Z.to_nat chunkHeight)
  /\ dtrEnabled (dev (snd r)) = dtrEnabled (dev s)
  /\ maxChunkHeight (dev (snd r)) = maxChunkHeight (dev s).
Proof.
  intros C chunkHeight r. unfold r, bitmap_chunk. cbv zeta.
  fold chunkHeight.
  pose proof (writeBytes4_wire ASCII_DC2 (chr "*") chunkHeight rowBytesClipped s)
    as W4.
  destruct (writeBytes4_keeps ASCII_DC2 (chr "*") chunkHeight rowBytesClipped s)
    as [r4 D4].
  generalize dependent
    (writeBytes4 ASCII_DC2 (chr "*") chunkHeight rowBytesClipped s).
  intros s4 W4 D4.
  destruct (bitmap_rows_spec (Z.to_nat chunkHeight) rowBytes rowBytesClipped
              bitmap fromProgMem C i s4) as (I & W & D).
  destruct (bitmap_rows (Z.to_nat chunkHeight) rowBytes rowBytesClipped
              bitmap fromProgMem i s4) as [i1 s1].
  cbn [fst snd] in *.
  rewrite timeoutSet_wire.
  destruct (timeoutSet_keeps (chunkHeight * dotPrintTime (dev s1)) s1)
    as [r1 ->].
  rewrite W, W4, D, D4, <- app_assoc. regs.
  repeat split. exact I.
Qed.

Lemma bitmap_chunks_done (fuel : nat)
    (h rowStart limit rowBytes rowBytesClipped : Z)
    (bitmap : Z -> Z) (fromProgMem : bool) (i : Z) (s : State) :
  h <= rowStart ->
  bitmap_chunks fuel h rowStart limit rowBytes rowBytesClipped
    bitmap fromProgMem i s = Ok s.
Proof.
  intros H. destruct fuel; cbn [bitmap_chunks];
    destruct (Z.ltb_spec rowStart h); try lia; reflexivity.
Qed.

Lemma bitmap_chunks_step (fuel : nat)
    (h rowStart limit rowBytes rowBytesClipped : Z)
    (bitmap : Z -> Z) (fromProgMem : bool) (i : Z) (s : State) :
  rowStart < h ->
  bitmap_chunks (S fuel) h rowStart limit rowBytes rowBytesClipped
    bitmap fromProgMem i s
  = bitmap_chunks fuel h (rowStart + limit) limit rowBytes rowBytesClipped
      bitmap fromProgMem
      (fst (bitmap_chunk h rowStart limit rowBytes rowBytesClipped
              bitmap fromProgMem i s))
      (snd (bitmap_chunk h rowStart limit rowBytes rowBytesClipped
              bitmap fromProgMem i s)).
Proof.
  intros H. cbn [bitmap_chunks].
  destruct (Z.ltb_spec rowStart h); [| lia].
  destruct (bitmap_chunk h rowStart limit rowBytes rowBytesClipped
              bitmap fromProgMem i s).
  reflexivity.
Qed.

(** With a limit of at least one row the chunk loop ends: [h] turns are
    enough. *)
Lemma bitmap_chunks_returns (fuel : nat)
    (h limit rowBytes rowBytesClipped : Z)
    (bitmap : Z -> Z) (fromProgMem : bool) :
  1 <= limit ->
  forall (rowStart i : Z) (s : State),
    h - rowStart <= Z.of_nat fuel ->
    exists s' : State,
      bitmap_chunks fuel h rowStart limit rowBytes rowBytesClipped
        bitmap fromProgMem i s = Ok s'.
Proof.
  intros L. induction fuel as [| fuel IH]; intros rowStart i s F.
  - exists s. apply bitmap_chunks_done. lia.
  - destruct (Z.lt_ge_cases rowStart h) as [B | B].
    + rewrite bitmap_chunks_step by exact B. apply IH. lia.
    + exists s. apply bitmap_chunks_done. lia.
Qed.

(** With a limit of zero rows it never ends. *)
Lemma bitmap_chunks_spins (fuel : nat) (h rowBytes rowBytesClipped : Z)
    (bitmap : Z -> Z) (fromProgMem : bool) :
  forall (rowStart i : Z) (s : State),
    rowStart < h ->
    bitmap_chunks fuel h rowStart 0 rowBytes rowBytesClipped
      bitmap fromProgMem i s = Err StillLooping.
Proof.
  induction fuel as [| fuel IH]; intros rowStart i s B.
  - cbn [bitmap_chunks]. destruct (Z.ltb_spec rowStart h); [reflexivity | lia].
  - rewrite bitmap_chunks_step by exact B. apply IH. lia.
Qed.

(** ** The chunk height *)

Lemma rowBytesClipped_range (w : Z) :
  1 <= w ->
  rowBytesClipped_of (rowBytes_of w) = Z.min ((w + 7) / 8) 48
  /\ 1 <= rowBytesClipped_of (rowBytes_of w) <= 48.
Proof.
  intros H. unfold rowBytesClipped_of, rowBytes_of.
  rewrite cdiv_floor by lia.
  assert (1 <= (w + 7) / 8) by (apply Z.div_le_lower_bound; lia).
  destruct (Z.leb_spec 48 ((w + 7) / 8)); lia.
Qed.

(** The chunk heights of a bitmap of positive width: within
    [1, min(maxChunkHeight, 256 / rowBytesClipped)] in timing mode as soon as
    the ceiling [maxChunkHeight] is at least 1, within [1, 255] under the
    handshake. *)
Lemma chunk_height_bounds (w h rowStart : Z) (t : Thermal) :
  1 <= w -> rowStart < h ->
  let rowBytesClipped := rowBytesClipped_of (rowBytes_of w) in
  (dtrEnabled t = false -> 1 <= maxChunkHeight t ->
   exists limit : Z,
     chunkHeightLimit_of rowBytesClipped t = Ok limit
     /\ limit = Z.min (maxChunkHeight t) (256 / Z.min ((w + 7) / 8) 48)
     /\ 1 <= chunkHeight_of h rowStart limit <= limit)
  /\ (dtrEnabled t = true ->
      chunkHeightLimit_of rowBytesClipped t = Ok 255
      /\ 1 <= chunkHeight_of h rowStart 255 <= 255).
Proof.
  intros W B rowBytesClipped.
  destruct (rowBytesClipped_range w W) as [E R].
  fold rowBytesClipped in E, R.
  split.
  - intros D M. unfold chunkHeightLimit_of. rewrite D.
    destruct (Z.eqb_spec rowBytesClipped 0) as [Z0 | _]; [lia |].
    rewrite cdiv_floor by lia. rewrite <- E.
    assert (5 <= 256 / rowBytesClipped).
    { apply Z.div_le_lower_bound; lia. }
    destruct (Z.ltb_spec (maxChunkHeight t) (256 / rowBytesClipped)).
    + eexists. split; [reflexivity |]. unfold chunkHeight_of.
      destruct (Z.ltb_spec (maxChunkHeight t) (h - rowStart)); lia.
    + destruct (Z.ltb_spec (256 / rowBytesClipped) 1); [lia |].
      eexists. split; [reflexivity |]. unfold chunkHeight_of.
      destruct (Z.ltb_spec (256 / rowBytesClipped) (h - rowStart)); lia.
  - intros D. unfold chunkHeightLimit_of. rewrite D.
    split; [reflexivity |]. unfold chunkHeight_of.
    destruct (Z.ltb_spec 255 (h - rowStart)); lia.
Qed.

(** C4 at [setMaxChunkHeight(0)] followed by [printBitmap(8, 1, ...)] in
    timing mode: the limit 256 / 1 exceeds the ceiling 0, so the limit is set
    to 0 and the floor at 1 (the [else] branch) is skipped; the chunk height
    is 0, the header sent announces 0 rows, and the chunk loop never
    advances.  The claim asks for a chunk height of at least 1. *)
Theorem chunk_height_zero_under_zero_ceiling :
  let s := setMaxChunkHeight 0 booted in
  dtrEnabled (dev s) = false
  /\ chunkHeightLimit_of (rowBytesClipped_of (rowBytes_of 8)) (dev s) = Ok 0
  /\ chunkHeight_of 1 0 0 = 0
  /\ (forall (bitmap : Z -> Z) (fromProgMem : bool),
        wire (hw (snd (bitmap_chunk 1 0 0 1 1 bitmap fromProgMem 0 s)))
        = [ASCII_DC2; chr "*"; 0; 1])
  /\ (forall (fuel : nat) (bitmap : Z -> Z) (fromProgMem : bool),
        printBitmap fuel 8 1 bitmap fromProgMem s = Err StillLooping).
Proof.
  cbv zeta. split; [reflexivity |]. split; [reflexivity |].
  split; [reflexivity |]. split.
  - intros bitmap fromProgMem.
    destruct (bitmap_chunk_spec 1 0 0 1 1 bitmap fromProgMem 0
                (setMaxChunkHeight 0 booted) ltac:(lia)) as (_ & W & _).
    rewrite W. reflexivity.
  - intros fuel bitmap fromProgMem. unfold printBitmap. cbv zeta.
    change (chunkHeightLimit_of (rowBytesClipped_of (rowBytes_of 8))
              (dev (setMaxChunkHeight 0 booted))) with (@Ok Z 0).
    cbn [bind]. rewrite bitmap_chunks_spins by lia. reflexivity.
Qed.

(** ** Bitmap transfer from a stream *)

Lemma read_blocking_spec (src : list Z) :
  arrivals src <> [] ->
  exists (c : Z) (src' : list Z),
    read_blocking src = Ok (c, src')
    /\ arrivals src = c :: arrivals src'.
Proof.
  induction src as [| c rest IH]; intros H.
  - exfalso. apply H. reflexivity.
  - cbn [read_blocking]. unfold arrivals in *. cbn [filter] in *.
    destruct (c <? 0); cbn [negb] in *.
    + apply IH. exact H.
    + exists c, rest. split; reflexivity.
Qed.

Lemma stream_row_spec (n : nat) :
  forall (src : list Z) (s : State),
    (n <= length (arrivals src))%nat ->
    exists (src' : list Z) (s' : State),
      stream_row n src s = Ok (src', s')
      /\ arrivals src' = skipn n (arrivals src)
      /\ wire (hw s') = wire (hw s) ++ map u8 (firstn n (arrivals src))
      /\ dev s' = dev s.
Proof.
  induction n as [| n IH]; intros src s L.
  - exists src, s. cbn. rewrite app_nil_r. repeat split.
  - cbn [stream_row].
    destruct (read_blocking_spec src) as (c & src1 & R & A).
    { intros E. rewrite E in L. simpl in L. lia. }
    rewrite R. cbn [bind].
    rewrite A in L. cbn [length] in L.
    destruct (IH src1 (stream_write c (timeoutWait s)) ltac:(lia))
      as (src' & s' & E & A' & W & D).
    exists src', s'. rewrite E, A, A', W, D.
    rewrite stream_write_wire, stream_write_dev.
    rewrite timeoutWait_wire, timeoutWait_dev.
    cbn [skipn firstn map]. rewrite <- app_assoc. repeat split.
Qed.

Lemma stream_skip_spec (n : nat) :
  forall src : list Z,
    (n <= length (arrivals src))%nat ->
    exists src' : list Z,
      stream_skip n src = Ok src'
      /\ arrivals src' = skipn n (arrivals src).
Proof.
  induction n as [| n IH]; intros src L.
  - exists src. split; reflexivity.
  - cbn [stream_skip].
    destruct (read_blocking_spec src) as (c & src1 & R & A).
    { intros E. rewrite E in L. simpl in L. lia. }
    rewrite R. cbn [bind].
    rewrite A in L. cbn [length] in L.
    destruct (IH src1 ltac:(lia)) as (src' & E & A').
    exists src'. rewrite E, A, A'. split; reflexivity.
Qed.

Lemma skipn_skipn_add (a b : nat) (l : list Z) :
  skipn a (skipn b l) = skipn (b + a) l.
Proof.
  revert l. induction b as [| b IH]; intros l.
  - reflexivity.
  - destruct l as [| x l].
    + rewrite !skipn_nil. reflexivity.
    + cbn [skipn Nat.add]. apply IH.
Qed.

Lemma stream_rows_spec (rows : nat) (rowBytes rowBytesClipped : Z) :
  0 <= rowBytesClipped <= rowBytes ->
  forall (src : list Z) (s : State),
    (rows * Z.to_nat rowBytes <= length (arrivals src))%nat ->
    exists (src' : list Z) (s' : State),
      stream_rows rows rowBytes rowBytesClipped src s = Ok (src', s')
      /\ arrivals src' = skipn (rows * Z.to_nat rowBytes) (arrivals src)
      /\ wire (hw s')
         = wire (hw s)
           ++ clipped (Z.to_nat rowBytes) (Z.to_nat rowBytesClipped) rows
                (arrivals src)
      /\ dev s' = dev s.
Proof.
  intros C. induction rows as [| rows IH]; intros src s L.
  - exists src, s. cbn. rewrite app_nil_r. repeat split.
  - cbn [stream_rows].
    assert (N : (Z.to_nat rowBytes
                 = Z.to_nat rowBytesClipped
                   + Z.to_nat (rowBytes - rowBytesClipped))%nat) by lia.
    cbn [Nat.mul] in L.
    destruct (stream_row_spec (Z.to_nat rowBytesClipped) src s ltac:(lia))
      as (src1 & s1 & E1 & A1 & W1 & D1).
    rewrite E1. cbn [bind].
    destruct (stream_skip_spec (Z.to_nat (rowBytes - rowBytesClipped)) src1)
      as (src2 & E2 & A2).
    { rewrite A1, length_skipn. lia. }
    rewrite E2. cbn [bind].
    assert (A2' : arrivals src2 = skipn (Z.to_nat rowBytes) (arrivals src)).
    { rewrite A2, A1, skipn_skipn_add, <- N. reflexivity. }
    destruct (IH src2 s1) as (src' & s' & E & A & W & D).
    { rewrite A2', length_skipn. lia. }
    exists src', s'. rewrite E, A, W, D, W1, D1, A2'.
    rewrite skipn_skipn_add. cbn [clipped Nat.mul].
    rewrite <- app_assoc. repeat split.
Qed.

Lemma stream_chunk_spec (h rowStart limit rowBytes rowBytesClipped : Z)
    (src : list Z) (s : State) :
  0 <= rowBytesClipped <= rowBytes ->
  let chunkHeight := chunkHeight_of h rowStart limit in
  (Z.to_nat chunkHeight * Z.to_nat rowBytes <= length (arrivals src))%nat ->
  exists (src' : list Z) (s' : State),
    stream_chunk h rowStart limit rowBytes rowBytesClipped src s
    = Ok (src', s')
    /\ arrivals src'
       = skipn (Z.to_nat chunkHeight * Z.to_nat rowBytes) (arrivals src)
    /\ wire (hw s')
       = wire (hw s)
         ++ [ASCII_DC2; chr "*"; u8 chunkHeight; u8 rowBytesClipped]
         ++ clipped (Z.to_nat rowBytes) (Z.to_nat rowBytesClipped)
              (Z.to_nat chunkHeight) (arrivals src).
Proof.
  intros C chunkHeight L. unfold stream_chunk. cbv zeta. fold chunkHeight.
  pose proof (writeBytes4_wire ASCII_DC2 (chr "*") chunkHeight rowBytesClipped s)
    as W4.
  generalize dependent
    (writeBytes4 ASCII_DC2 (chr "*") chunkHeight rowBytesClipped s).
  intros s4 W4.
  destruct (stream_rows_spec (Z.to_nat chunkHeight) rowBytes rowBytesClipped
              C src s4 L) as (src' & s' & E & A & W & D).
  rewrite E. cbn [bind].
  eexists. eexists. split; [reflexivity |]. split; [exact A |].
  rewrite timeoutSet_wire, W, W4, <- app_assoc. reflexivity.
Qed.

Lemma stream_chunks_done (fuel : nat)
    (h rowStart limit rowBytes rowBytesClipped : Z)
    (src : list Z) (s : State) :
  h <= rowStart ->
  stream_chunks fuel h rowStart limit rowBytes rowBytesClipped src s
  = Ok (src, s).
Proof.
  intros H. destruct fuel; cbn [stream_chunks];
    destruct (Z.ltb_spec rowStart h); try lia; reflexivity.
Qed.

Lemma stream_chunks_step (fuel : nat)
    (h rowStart limit rowBytes rowBytesClipped : Z)
    (src : list Z) (s : State) :
  rowStart < h ->
  stream_chunks (S fuel) h rowStart limit rowBytes rowBytesClipped src s
  = bind (stream_chunk h rowStart limit rowBytes rowBytesClipped src s)
      (fun r =>
         stream_chunks fuel h (rowStart + limit) limit rowBytes
           rowBytesClipped (fst r) (snd r)).
Proof.
  intros H. cbn [stream_chunks].
  destruct (Z.ltb_spec rowStart h); [| lia].
  destruct (stream_chunk h rowStart limit rowBytes rowBytesClipped src s)
    as [[src1 s1] | f]; reflexivity.
Qed.

(** C5 (printBitmap, both sources): a 400 x 10 bitmap printed in timing mode
    with maxChunkHeight = 255 has rowBytes = 50, rowBytesClipped = 48 and
    chunkHeightLimit = 256 / 48 = 5; the transfer returns, and the wire gets
    exactly two chunks, each a header announcing 5 rows of 48 bytes followed
    by the first 48 bytes of five 50-byte rows.  Bytes 48 and 49 of every row
    are stepped over in memory, and read and dropped from a stream, which is
    left 500 bytes further on. *)
Theorem printBitmap_400x10 :
  forall (s : State) (fuel : nat),
    dtrEnabled (dev s) = false ->
    maxChunkHeight (dev s) = 255 ->
    (2 <= fuel)%nat ->
    rowBytes_of 400 = 50
    /\ rowBytesClipped_of (rowBytes_of 400) = 48
    /\ chunkHeightLimit_of 48 (dev s) = Ok (256 / 48)
    /\ 256 / 48 = 5
    /\ (forall (bitmap : Z -> Z) (fromProgMem : bool),
          exists s' : State,
            printBitmap fuel 400 10 bitmap fromProgMem s = Ok s'
            /\ wire (hw s')
               = wire (hw s)
                 ++ [ASCII_DC2; chr "*"; 5; 48]
                 ++ rows_bytes bitmap 50 48 0 5
                 ++ [ASCII_DC2; chr "*"; 5; 48]
                 ++ rows_bytes bitmap 50 48 250 5)
    /\ (forall src : list Z,
          (500 <= length (arrivals src))%nat ->
          exists (src' : list Z) (s' : State),
            printBitmapStream fuel 400 10 src s = Ok (src', s')
            /\ arrivals src' = skipn 500 (arrivals src)
            /\ wire (hw s')
               = wire (hw s)
                 ++ [ASCII_DC2; chr "*"; 5; 48]
                 ++ clipped 50 48 5 (arrivals src)
                 ++ [ASCII_DC2; chr "*"; 5; 48]
                 ++ clipped 50 48 5 (skipn 250 (arrivals src))).
Proof.
  intros s fuel D M F.
  assert (L : chunkHeightLimit_of 48 (dev s) = Ok 5).
  { unfold chunkHeightLimit_of. rewrite D, M. reflexivity. }
  destruct fuel as [| [| fuel]]; try lia.
  split; [reflexivity |]. split; [reflexivity |]. split; [exact L |].
  split; [reflexivity |]. split.
  - intros bitmap fromProgMem. unfold printBitmap. cbv zeta.
    change (rowBytes_of 400) with 50. change (rowBytesClipped_of 50) with 48.
    rewrite L. cbn [bind].
    rewrite bitmap_chunks_step by lia.
    destruct (bitmap_chunk_spec 10 0 5 50 48 bitmap fromProgMem 0 s
                ltac:(lia)) as (I1 & W1 & _).
    destruct (bitmap_chunk 10 0 5 50 48 bitmap fromProgMem 0 s) as [i1 s1].
    cbn [fst snd] in *.
    rewrite bitmap_chunks_step by lia.
    destruct (bitmap_chunk_spec 10 (0 + 5) 5 50 48 bitmap fromProgMem i1 s1
                ltac:(lia)) as (_ & W2 & _).
    destruct (bitmap_chunk 10 (0 + 5) 5 50 48 bitmap fromProgMem i1 s1)
      as [i2 s2].
    cbn [fst snd] in *.
    rewrite bitmap_chunks_done by lia. cbn [bind].
    eexists. split; [reflexivity |].
    cbn [hw on_dev]. rewrite W2, W1, I1.
    rewrite <- !app_assoc. reflexivity.
  - intros src A. unfold printBitmapStream. cbv zeta.
    change (rowBytes_of 400) with 50. change (rowBytesClipped_of 50) with 48.
    rewrite L. cbn [bind].
    rewrite stream_chunks_step by lia.
    destruct (stream_chunk_spec 10 0 5 50 48 src s ltac:(lia))
      as (src1 & s1 & E1 & A1 & W1).
    { change (Z.to_nat (chunkHeight_of 10 0 5) * Z.to_nat 50)%nat
        with 250%nat. lia. }
    rewrite E1. cbn [bind fst snd].
    change (Z.to_nat (chunkHeight_of 10 0 5) * Z.to_nat 50)%nat
      with 250%nat in A1.
    rewrite stream_chunks_step by lia.
    destruct (stream_chunk_spec 10 (0 + 5) 5 50 48 src1 s1 ltac:(lia))
      as (src2 & s2 & E2 & A2 & W2).
    { change (Z.to_nat (chunkHeight_of 10 (0 + 5) 5) * Z.to_nat 50)%nat
        with 250%nat. rewrite A1, length_skipn. lia. }
    rewrite E2. cbn [bind fst snd].
    change (Z.to_nat (chunkHeight_of 10 (0 + 5) 5) * Z.to_nat 50)%nat
      with 250%nat in A2.
    rewrite stream_chunks_done by lia. cbn [bind].
    exists src2. eexists. split; [reflexivity |]. split.
    + rewrite A2, A1, skipn_skipn_add. reflexivity.
    + cbn [hw on_dev]. rewrite W2, W1, A1.
      rewrite <- !app_assoc. reflexivity.
Qed.

Lemma printBitmap_400x10_witness :
  exists s' : State,
    printBitmap 2 400 10 (fun i => i) false booted = Ok s'
    /\ length (wire (hw s')) = (2 * (4 + 5 * 48))%nat
    /\ nth 51 (wire (hw s')) 0 = 47
    /\ nth 52 (wire (hw s')) 0 = 50.
Proof.
  destruct (proj1 (proj2 (proj2 (proj2 (proj2
              (printBitmap_400x10 booted 2 eq_refl eq_refl
                 ltac:(lia))))))
              (fun i => i) false) as (s' & E & W).
  exists s'. split; [exact E |]. rewrite W. repeat split.
Defined.

(** * Further properties of the driver *)

(** ** Command writes, in full *)

Lemma writeBytes2_wire (a b : Z) (s : State) :
  wire (hw (writeBytes2 a b s)) = wire (hw s) ++ [u8 a; u8 b].
Proof.
  unfold writeBytes2. cbv zeta.
  rewrite timeoutSet_wire, !stream_write_wire, timeoutWait_wire.
  rewrite <- !app_assoc. reflexivity.
Qed.

Lemma writeBytes5_wire (a b c d e : Z) (s : State) :
  wire (hw (writeBytes5 a b c d e s))
  = wire (hw s) ++ [u8 a; u8 b; u8 c; u8 d; u8 e].
Proof.
  unfold writeBytes5. cbv zeta.
  rewrite timeoutSet_wire, !stream_write_wire, timeoutWait_wire.
  rewrite <- !app_assoc. reflexivity.
Qed.

Lemma writeBytes5_keeps (a b c d e : Z) (s : State) :
  exists r : Z, dev (writeBytes5 a b c d e s) = set_resumeTime r (dev s).
Proof.
  unfold writeBytes5. cbv zeta.
  match goal with |- context [timeoutSet ?x ?t] =>
    destruct (timeoutSet_keeps x t) as [r ->] end.
  exists r. rewrite !stream_write_dev, timeoutWait_dev. reflexivity.
Qed.

(** ** What the text writer puts on the wire *)

Lemma write_wire (c : Z) (s : State) :
  wire (hw (write c s))
  = if u8 c =? 13 then wire (hw s) else wire (hw s) ++ [u8 c].
Proof.
  unfold write. cbv zeta.
  destruct (u8 c =? 13); cbn [negb]; [reflexivity |].
  match goal with |- context [if ?b then _ else _] => destruct b end;
    cbn [hw on_dev]; rewrite timeoutSet_wire; cbn [hw on_dev];
    rewrite stream_write_wire, timeoutWait_wire, u8_idem; reflexivity.
Qed.

(** X1 (write, print, println): printing a string puts on the wire exactly
    its characters, each truncated to a byte, in their order and without the
    carriage returns (byte 13); a line wrap adds no byte.  [println] sends
    the same bytes and then a single line feed: the carriage return of its
    line ending is stripped like any other. *)
Theorem print_wire :
  forall (str : list Z) (s : State),
    wire (hw (print str s))
    = wire (hw s) ++ filter (fun b => negb (b =? 13)) (map u8 str)
    /\ wire (hw (println str s))
       = wire (hw s) ++ filter (fun b => negb (b =? 13)) (map u8 str) ++ [10].
Proof.
  assert (P : forall (str : list Z) (s : State),
             wire (hw (print str s))
             = wire (hw s) ++ filter (fun b => negb (b =? 13)) (map u8 str)).
  { induction str as [| c str IH]; intros s.
    - cbn. rewrite app_nil_r. reflexivity.
    - rewrite print_cons, IH, write_wire. cbn [map filter].
      destruct (u8 c =? 13); cbn [negb].
      + reflexivity.
      + rewrite <- app_assoc. reflexivity. }
  intros str s. split; [apply P |].
  unfold println. rewrite P, map_app, filter_app. reflexivity.
Qed.

(** ** What a character costs *)

(** X2 (write): in timing mode, a character other than a carriage return
    leaves the deadline one byte time after the clock, plus the time of a
    line when the character is a newline or meets the column at
    [maxColumn]: (charHeight + lineSpacing) * dotFeedTime after a blank
    line, charHeight * dotPrintTime + lineSpacing * dotFeedTime otherwise
    (modulo 2^32).  A line end puts the column at 0 and records a newline
    as the previous byte, also where it was a wrap; any other character
    advances the column by one. *)
Theorem write_line_cost :
  forall (c : Z) (s : State),
    dtrEnabled (dev s) = false ->
    u8 c <> 13 ->
    let t := dev s in
    let s' := write c s in
    let ends := (u8 c =? 10) || (column t =? maxColumn t) in
    let line :=
      if prevByte t =? 10
      then (charHeight t + lineSpacing t) * dotFeedTime t
      else charHeight t * dotPrintTime t + lineSpacing t * dotFeedTime t in
    resumeTime (dev s')
    = u32 (micros s' + BYTE_TIME + (if ends then line else 0))
    /\ prevByte (dev s') = (if ends then 10 else u8 c)
    /\ column (dev s') = (if ends then 0 else u8 (column t + 1)).
Proof.
  intros c s D N t s' ends line. unfold s', write. cbv zeta.
  fold t in D.
  destruct (Z.eqb_spec (u8 c) 13) as [E | _]; [contradiction |].
  cbn [negb]. rewrite !stream_write_dev, !timeoutWait_dev.
  change (chr "010") with 10. fold t. fold ends.
  unfold micros.
  destruct ends; cbn [hw dev on_dev]; rewrite timeoutSet_hw, timeoutSet_dev;
    cbn [hw dev on_dev]; regs; rewrite !stream_write_dev, !timeoutWait_dev;
    fold t; rewrite D; regs; unfold micros; cbn [hw on_dev].
  - split; [| split; reflexivity]. unfold line.
    destruct (prevByte t =? 10).
    + rewrite u32_add_r, Z.add_assoc, u32_add_r. reflexivity.
    + rewrite u32_add_r, Z.add_assoc, u32_add_r.
      rewrite (Z.add_assoc (_ + BYTE_TIME)), u32_add_r.
      match goal with
      | |- u32 (?m + u32 ?b + ?c) = _ =>
          replace (m + u32 b + c) with (m + c + u32 b) by lia
      end.
      rewrite u32_add_r. f_equal. lia.
  - split; [| split; reflexivity]. f_equal. lia.
Qed.

Lemma write_line_cost_witness :
  resumeTime (dev (write (chr "010") booted))
  = 1000000 + 1146 + (24 + 10) * 2100.
Proof.
  rewrite (proj1 (write_line_cost (chr "010") booted eq_refl
                    ltac:(vm_compute; discriminate))).
  reflexivity.
Defined.

(** ** The clock across a wait *)

Lemma u32_s32 (x : Z) : u32 (s32 x) = u32 x.
Proof.
  unfold s32. destruct (u32 x <? 2147483648).
  - unfold u32. apply Zmod_mod.
  - unfold u32. rewrite Zminus_mod_idemp_l.
    rewrite <- (Z.mod_add x (-1) 4294967296) by lia.
    f_equal; lia.
Qed.

Lemma s32_signed (x : Z) : -2147483648 <= x < 2147483648 -> s32 x = x.
Proof.
  intros H. destruct (Z.lt_ge_cases x 0) as [N | P].
  - unfold s32, u32.
    rewrite <- (Z.mod_add x 1 4294967296) by lia.
    rewrite Z.mod_small by lia.
    destruct (Z.ltb_spec (x + 1 * 4294967296) 2147483648); lia.
  - apply s32_small. lia.
Qed.

(** The signed distance between two instants taken from the same clock
    reading. *)
Lemma s32_apart (c a b : Z) :
  -2147483648 <= a - b < 2147483648 ->
  s32 (u32 (c + a) - u32 (c + b)) = a - b.
Proof.
  intros H. rewrite <- (s32_signed (a - b) H). apply s32_congr.
  unfold u32. rewrite <- Zminus_mod. f_equal. lia.
Qed.

(** In timing mode the wait ends at the deadline when it lay ahead, and at
    once otherwise. *)
Lemma timeoutWait_clock (s : State) :
  dtrEnabled (dev s) = false ->
  0 <= resumeTime (dev s) < 4294967296 ->
  micros (timeoutWait s)
  = if s32 (micros s - resumeTime (dev s)) <? 0
    then resumeTime (dev s) else micros s.
Proof.
  intros D R. unfold timeoutWait, micros. rewrite D. cbn [hw on_hw].
  destruct (wait_deadline_exit
              (pending (resumeTime (dev s)) (hw s))
              (resumeTime (dev s)) (hw s) eq_refl) as [_ C].
  rewrite C.
  destruct (Z.ltb_spec (s32 (clock (hw s) - resumeTime (dev s))) 0) as [L | L];
    [| reflexivity].
  unfold pending. rewrite Z2Nat.id by lia.
  replace (clock (hw s) + - s32 (clock (hw s) - resumeTime (dev s)))
    with (clock (hw s) - s32 (clock (hw s) - resumeTime (dev s))) by lia.
  unfold u32 at 1. rewrite <- Zminus_mod_idemp_r.
  fold (u32 (s32 (clock (hw s) - resumeTime (dev s)))).
  rewrite u32_s32. unfold u32. rewrite Zminus_mod_idemp_r.
  replace (clock (hw s) - (clock (hw s) - resumeTime (dev s)))
    with (resumeTime (dev s)) by lia.
  apply Z.mod_small. exact R.
Qed.

Lemma timeoutWait_hw_timing (s : State) :
  dtrEnabled (dev s) = false ->
  hw (timeoutWait s) = set_clock (micros (timeoutWait s)) (hw s).
Proof.
  intros D. unfold timeoutWait, micros. rewrite D. cbn [hw on_hw].
  generalize (pending (resumeTime (dev s)) (hw s)). intros fuel.
  generalize (resumeTime (dev s)). intros r.
  generalize (hw s). clear. intros h. revert h.
  induction fuel as [| fuel IH]; intros h.
  - destruct h. reflexivity.
  - cbn [wait_deadline]. destruct (s32 (clock h - r) <? 0).
    + rewrite IH. destruct h. reflexivity.
    + destruct h. reflexivity.
Qed.

(** The handshake wait leaves the clock's deadline alone and uses up the
    pin readings up to the first LOW. *)
Lemma timeoutWait_dtrLine_timing (s : State) :
  dtrEnabled (dev s) = false -> dtrLine (hw (timeoutWait s)) = dtrLine (hw s).
Proof.
  intros D. rewrite (timeoutWait_hw_timing s D). reflexivity.
Qed.

(** ** Each overload, in full *)

Ltac overload_micros :=
  cbv zeta; rewrite timeoutSet_micros, !stream_write_micros; reflexivity.

Ltac overload_dev :=
  cbv zeta;
  rewrite timeoutSet_dev, !stream_write_dev, !stream_write_micros,
    timeoutWait_dev;
  reflexivity.

Lemma writeBytes1_micros (a : Z) (s : State) :
  micros (writeBytes1 a s) = micros (timeoutWait s).
Proof. unfold writeBytes1. overload_micros. Qed.

Lemma writeBytes2_micros (a b : Z) (s : State) :
  micros (writeBytes2 a b s) = micros (timeoutWait s).
Proof. unfold writeBytes2. overload_micros. Qed.

Lemma writeBytes4_micros (a b c d : Z) (s : State) :
  micros (writeBytes4 a b c d s) = micros (timeoutWait s).
Proof. unfold writeBytes4. overload_micros. Qed.

Lemma writeBytes5_micros (a b c d e : Z) (s : State) :
  micros (writeBytes5 a b c d e s) = micros (timeoutWait s).
Proof. unfold writeBytes5. overload_micros. Qed.

Lemma writeBytes1_dev (a : Z) (s : State) :
  dev (writeBytes1 a s)
  = if dtrEnabled (dev s) then dev s
    else set_resumeTime (u32 (micros (timeoutWait s) + BYTE_TIME)) (dev s).
Proof. unfold writeBytes1. overload_dev. Qed.

Lemma writeBytes2_dev (a b : Z) (s : State) :
  dev (writeBytes2 a b s)
  = if dtrEnabled (dev s) then dev s
    else set_resumeTime (u32 (micros (timeoutWait s) + 2 * BYTE_TIME)) (dev s).
Proof. unfold writeBytes2. overload_dev. Qed.

Lemma writeBytes4_dev (a b c d : Z) (s : State) :
  dev (writeBytes4 a b c d s)
  = if dtrEnabled (dev s) then dev s
    else set_resumeTime (u32 (micros (timeoutWait s) + 4 * BYTE_TIME)) (dev s).
Proof. unfold writeBytes4. overload_dev. Qed.

Lemma writeBytes5_dev (a b c d e : Z) (s : State) :
  dev (writeBytes5 a b c d e s)
  = if dtrEnabled (dev s) then dev s
    else set_resumeTime (u32 (micros (timeoutWait s) + 5 * BYTE_TIME)) (dev s).
Proof. unfold writeBytes5. overload_dev. Qed.

(** Where the clock stands after the wait. *)
Lemma timing_wait (c d : Z) (s : State) :
  timing c d s -> -2147483648 < d < 2147483648 ->
  micros (timeoutWait s) = u32 (c + Z.max 0 d).
Proof.
  intros (D & C & R) B.
  rewrite timeoutWait_clock; [| exact D | rewrite R; apply u32_range].
  rewrite C, R.
  replace (u32 c) with (u32 (c + 0)) at 1 by (f_equal; lia).
  rewrite s32_apart by lia.
  destruct (Z.ltb_spec (0 - d) 0).
  - f_equal. lia.
  - replace (c + Z.max 0 d) with c by lia. reflexivity.
Qed.

Lemma timing_after (c d k : Z) (s s' : State) :
  timing c d s -> -2147483648 < d < 2147483648 ->
  micros s' = micros (timeoutWait s) ->
  dev s'
  = (if dtrEnabled (dev s) then dev s
     else set_resumeTime (u32 (micros (timeoutWait s) + k)) (dev s)) ->
  timing (c + Z.max 0 d) k s'.
Proof.
  intros T B M E. pose proof (timing_wait c d s T B) as W.
  destruct T as (D & C & R). rewrite D in E.
  unfold timing. rewrite M, E, W. cbn.
  split; [exact D |]. split; [reflexivity |]. apply u32_add_l.
Qed.

Lemma timing_writeBytes1 (c d a : Z) (s : State) :
  timing c d s -> -2147483648 < d < 2147483648 ->
  timing (c + Z.max 0 d) BYTE_TIME (writeBytes1 a s).
Proof.
  intros T B.
  exact (timing_after c d _ s _ T B (writeBytes1_micros a s)
           (writeBytes1_dev a s)).
Qed.

Lemma timing_writeBytes2 (c d a b : Z) (s : State) :
  timing c d s -> -2147483648 < d < 2147483648 ->
  timing (c + Z.max 0 d) (2 * BYTE_TIME) (writeBytes2 a b s).
Proof.
  intros T B.
  exact (timing_after c d _ s _ T B (writeBytes2_micros a b s)
           (writeBytes2_dev a b s)).
Qed.

Lemma timing_writeBytes3 (c d a b e : Z) (s : State) :
  timing c d s -> -2147483648 < d < 2147483648 ->
  timing (c + Z.max 0 d) (3 * BYTE_TIME) (writeBytes3 a b e s).
Proof.
  intros T B.
  exact (timing_after c d _ s _ T B (writeBytes3_micros a b e s)
           (writeBytes3_dev a b e s)).
Qed.

Lemma timing_writeBytes4 (c d a b e f : Z) (s : State) :
  timing c d s -> -2147483648 < d < 2147483648 ->
  timing (c + Z.max 0 d) (4 * BYTE_TIME) (writeBytes4 a b e f s).
Proof.
  intros T B.
  exact (timing_after c d _ s _ T B (writeBytes4_micros a b e f s)
           (writeBytes4_dev a b e f s)).
Qed.

Lemma timing_timeoutSet (c x : Z) (s : State) :
  dtrEnabled (dev s) = false -> micros s = u32 c ->
  timing c x (timeoutSet x s).
Proof.
  intros D C. unfold timing.
  rewrite timeoutSet_micros, timeoutSet_dev, D, C. cbn.
  split; [exact D |]. split; [reflexivity |]. apply u32_add_l.
Qed.

Lemma timing_delay (c d ms : Z) (s : State) :
  timing c d s -> timing (c + 1000 * ms) (d - 1000 * ms) (delay ms s).
Proof.
  intros (D & C & R). unfold timing, delay, micros in *. cbn.
  rewrite C, R. split; [exact D |]. split.
  - apply u32_add_l.
  - f_equal. lia.
Qed.

(** ** Waking up and starting *)

Lemma wake_nuls_wire (n : nat) :
  forall s : State,
    wire (hw (wake_nuls n s)) = wire (hw s) ++ repeat 0 n.
Proof.
  induction n as [| n IH]; intros s.
  - cbn. rewrite app_nil_r. reflexivity.
  - cbn [wake_nuls]. rewrite IH, timeoutSet_wire, writeBytes1_wire.
    rewrite <- app_assoc. reflexivity.
Qed.

Lemma wake_nuls_keeps (n : nat) :
  forall s : State,
    exists r : Z, dev (wake_nuls n s) = set_resumeTime r (dev s).
Proof.
  induction n as [| n IH]; intros s.
  - exists (resumeTime (dev s)). symmetry. apply record_eta.
  - cbn [wake_nuls].
    destruct (IH (timeoutSet 10000 (writeBytes1 0 s))) as [r ->].
    destruct (timeoutSet_keeps 10000 (writeBytes1 0 s)) as [r1 ->].
    destruct (writeBytes1_keeps 0 s) as [r2 ->].
    eexists. reflexivity.
Qed.

Lemma timing_wake_nuls (n : nat) :
  forall (c d : Z) (s : State),
    timing c d s -> 0 <= d < 2147483648 ->
    timing (c + d + Z.of_nat n * 10000) 10000 (wake_nuls (S n) s).
Proof.
  induction n as [| n IH]; intros c d s T B.
  - cbn [wake_nuls].
    pose proof (timing_writeBytes1 c d 0 s T ltac:(lia)) as (D1 & C1 & _).
    replace (c + d + Z.of_nat 0 * 10000) with (c + Z.max 0 d) by lia.
    apply timing_timeoutSet; assumption.
  - change (wake_nuls (S (S n)) s)
      with (wake_nuls (S n) (timeoutSet 10000 (writeBytes1 0 s))).
    pose proof (timing_writeBytes1 c d 0 s T ltac:(lia)) as (D1 & C1 & _).
    pose proof (timing_timeoutSet _ 10000 _ D1 C1) as T1.
    pose proof (IH _ _ _ T1 ltac:(lia)) as T2.
    replace (c + d + Z.of_nat (S n) * 10000)
      with (c + Z.max 0 d + 10000 + Z.of_nat n * 10000) by lia.
    exact T2.
Qed.

Lemma timing_of (s : State) :
  dtrEnabled (dev s) = false -> 0 <= micros s < 4294967296 ->
  micros s = u32 (micros s).
Proof. intros _ C. symmetry. apply u32_small. exact C. Qed.

Lemma wake_keeps (s : State) :
  exists r : Z, dev (wake s) = set_resumeTime r (dev s).
Proof.
  unfold wake. cbv zeta.
  assert (K1 : exists r : Z,
             dev (writeBytes1 255 (timeoutSet 0 s)) = set_resumeTime r (dev s)).
  { destruct (writeBytes1_keeps 255 (timeoutSet 0 s)) as [r ->].
    destruct (timeoutSet_keeps 0 s) as [r0 ->]. eexists. reflexivity. }
  generalize dependent (writeBytes1 255 (timeoutSet 0 s)). intros s1 [r1 K1].
  destruct (264 <=? firmware (dev s1)).
  - destruct (writeBytes4_keeps ASCII_ESC (chr "8") 0 0 (delay 50 s1))
      as [r ->].
    cbn [dev delay on_hw]. rewrite K1. eexists. reflexivity.
  - destruct (wake_nuls_keeps 10 s1) as [r ->]. rewrite K1.
    eexists. reflexivity.
Qed.

(** Waking on firmware 264 and later: the byte 255 at once, 50 ms, then
    "sleep off". *)
Lemma wake_modern (c : Z) (s : State) :
  dtrEnabled (dev s) = false -> micros s = u32 c ->
  264 <= firmware (dev s) ->
  timing (c + 50000) (4 * BYTE_TIME) (wake s)
  /\ wire (hw (wake s)) = wire (hw s) ++ [255; ASCII_ESC; chr "8"; 0; 0].
Proof.
  intros D C V.
  pose proof (timing_timeoutSet c 0 s D C) as T0.
  pose proof (timing_writeBytes1 _ _ 255 _ T0 ltac:(lia)) as T1.
  assert (F : firmware (dev (writeBytes1 255 (timeoutSet 0 s)))
              = firmware (dev s)).
  { destruct (writeBytes1_keeps 255 (timeoutSet 0 s)) as [r ->].
    destruct (timeoutSet_keeps 0 s) as [r0 ->]. reflexivity. }
  assert (W1 : wire (hw (writeBytes1 255 (timeoutSet 0 s)))
               = wire (hw s) ++ [255]).
  { rewrite writeBytes1_wire, timeoutSet_wire. reflexivity. }
  unfold wake. cbv zeta. rewrite F.
  generalize dependent (writeBytes1 255 (timeoutSet 0 s)). intros s1 T1 _ W1.
  destruct (Z.leb_spec 264 (firmware (dev s))); [| lia].
  pose proof (timing_delay _ _ 50 _ T1) as T2.
  pose proof (timing_writeBytes4 _ _ ASCII_ESC (chr "8") 0 0 _ T2
                ltac:(rewrite BYTE_TIME_value; lia)) as T3.
  split.
  - rewrite BYTE_TIME_value in *.
    replace (c + 50000)
      with (c + Z.max 0 0 + 1000 * 50 + Z.max 0 (1146 - 1000 * 50)) by lia.
    exact T3.
  - rewrite writeBytes4_wire. cbn [hw delay on_hw wire set_clock].
    rewrite W1, <- app_assoc. reflexivity.
Qed.

(** Waking on older firmware: the byte 255 at once, then ten NULs 10 ms
    apart. *)
Lemma wake_legacy (c : Z) (s : State) :
  dtrEnabled (dev s) = false -> micros s = u32 c ->
  firmware (dev s) < 264 ->
  timing (c + BYTE_TIME + 9 * 10000) 10000 (wake s)
  /\ wire (hw (wake s)) = wire (hw s) ++ 255 :: repeat 0 10.
Proof.
  intros D C V.
  pose proof (timing_timeoutSet c 0 s D C) as T0.
  pose proof (timing_writeBytes1 _ _ 255 _ T0 ltac:(lia)) as T1.
  assert (F : firmware (dev (writeBytes1 255 (timeoutSet 0 s)))
              = firmware (dev s)).
  { destruct (writeBytes1_keeps 255 (timeoutSet 0 s)) as [r ->].
    destruct (timeoutSet_keeps 0 s) as [r0 ->]. reflexivity. }
  assert (W1 : wire (hw (writeBytes1 255 (timeoutSet 0 s)))
               = wire (hw s) ++ [255]).
  { rewrite writeBytes1_wire, timeoutSet_wire. reflexivity. }
  unfold wake. cbv zeta. rewrite F.
  generalize dependent (writeBytes1 255 (timeoutSet 0 s)). intros s1 T1 _ W1.
  destruct (Z.leb_spec 264 (firmware (dev s))); [lia |].
  pose proof (timing_wake_nuls 9 _ _ _ T1
                ltac:(rewrite BYTE_TIME_value; lia)) as T3.
  split.
  - replace (c + BYTE_TIME + 9 * 10000)
      with (c + Z.max 0 0 + BYTE_TIME + Z.of_nat 9 * 10000) by lia.
    exact T3.
  - rewrite wake_nuls_wire, W1, <- app_assoc. reflexivity.
Qed.

(** X3 (wake): in timing mode [wake] does not wait for a pending deadline:
    it sets the deadline to now before it sends the wake byte 255.  On
    firmware 264 and later it then pauses 50 ms and sends ESC '8' 0 0; on
    older firmware it sends ten NUL bytes 10 ms apart.  On return the clock
    stands 50 ms (older: one byte time and 90 ms) after the clock of entry,
    whatever the deadline was. *)
Theorem wake_ignores_deadline :
  forall s : State,
    dtrEnabled (dev s) = false ->
    0 <= micros s < 4294967296 ->
    (264 <= firmware (dev s) ->
     wire (hw (wake s)) = wire (hw s) ++ [255; ASCII_ESC; chr "8"; 0; 0]
     /\ micros (wake s) = u32 (micros s + 50000)
     /\ resumeTime (dev (wake s)) = u32 (micros s + 50000 + 4 * BYTE_TIME))
    /\ (firmware (dev s) < 264 ->
        wire (hw (wake s)) = wire (hw s) ++ 255 :: repeat 0 10
        /\ micros (wake s) = u32 (micros s + BYTE_TIME + 9 * 10000)
        /\ resumeTime (dev (wake s))
           = u32 (micros s + BYTE_TIME + 10 * 10000)).
Proof.
  intros s D C. split; intros V.
  - destruct (wake_modern (micros s) s D (timing_of s D C) V)
      as ((_ & M & R) & W).
    rewrite W, M, R. repeat split.
  - destruct (wake_legacy (micros s) s D (timing_of s D C) V)
      as ((_ & M & R) & W).
    rewrite W, M, R. repeat split. f_equal. lia.
Qed.

Lemma wake_ignores_deadline_witness :
  micros (wake (timeoutSet 500000 booted)) = 1050000.
Proof.
  rewrite (proj1 (proj2 (proj1
             (wake_ignores_deadline (timeoutSet 500000 booted)
                eq_refl ltac:(vm_compute; split; [discriminate | reflexivity]))
             ltac:(vm_compute; discriminate)))).
  reflexivity.
Defined.

Lemma timing_on_dev (c d : Z) (f : Thermal -> Thermal) (s : State) :
  timing c d s ->
  dtrEnabled (f (dev s)) = dtrEnabled (dev s) ->
  resumeTime (f (dev s)) = resumeTime (dev s) ->
  timing c d (on_dev f s).
Proof.
  intros (D & C & R) E1 E2. unfold timing, micros. cbn [dev hw on_dev].
  rewrite E1, E2. repeat split; assumption.
Qed.

Lemma reset_fields (s : State) :
    let s' := reset s in
    (prevByte (dev s') = chr "010"
     /\ column (dev s') = 0
     /\ maxColumn (dev s') = 32
     /\ charHeight (dev s') = 24
     /\ lineSpacing (dev s') = 6
     /\ barcodeHeight (dev s') = 50)
    /\ (printMode (dev s') = printMode (dev s)
        /\ fontData (dev s') = fontData (dev s)
        /\ charWidth (dev s') = charWidth (dev s)
        /\ autoLineHeight (dev s') = autoLineHeight (dev s))
    /\ (firmware (dev s') = firmware (dev s)
        /\ dtrPin (dev s') = dtrPin (dev s)
        /\ dtrEnabled (dev s') = dtrEnabled (dev s)
        /\ dotPrintTime (dev s') = dotPrintTime (dev s)
        /\ dotFeedTime (dev s') = dotFeedTime (dev s)
        /\ maxChunkHeight (dev s') = maxChunkHeight (dev s))
    /\ wire (hw s')
       = wire (hw s) ++ [ASCII_ESC; chr "@"]
         ++ (if 264 <=? firmware (dev s)
             then [ASCII_ESC; chr "D"; 4; 8; 12; 16; 20; 24; 28; 0]
             else []).
Proof.
  intros s'. unfold s', reset. cbv zeta. regs.
  assert (F : firmware (dev (writeBytes2 ASCII_ESC (chr "@") s))
              = firmware (dev s)).
  { throttle_away. reflexivity. }
  rewrite F.
  destruct (264 <=? firmware (dev s)).
  - rewrite !writeBytes4_wire, writeBytes2_wire. cbn [hw on_dev].
    rewrite writeBytes2_wire.
    repeat (progress (throttle_away; regs)).
    rewrite <- !app_assoc. repeat split.
  - cbn [hw on_dev]. rewrite writeBytes2_wire.
    repeat (progress (throttle_away; regs)).
    rewrite app_nil_r. repeat split.
Qed.

Lemma timing_reset_modern (c d : Z) (s : State) :
  timing c d s -> -2147483648 < d < 2147483648 ->
  264 <= firmware (dev s) ->
  timing (c + Z.max 0 d + 8 * BYTE_TIME) (4 * BYTE_TIME) (reset s).
Proof.
  intros T B V. unfold reset. cbv zeta. regs.
  assert (F : firmware (dev (writeBytes2 ASCII_ESC (chr "@") s))
              = firmware (dev s)).
  { throttle_away. reflexivity. }
  rewrite F. destruct (Z.leb_spec 264 (firmware (dev s))); [| lia].
  pose proof (timing_writeBytes2 _ _ ASCII_ESC (chr "@") _ T B) as T1.
  generalize dependent (writeBytes2 ASCII_ESC (chr "@") s). intros s1 _ T1.
  match goal with
  | |- context [writeBytes2 ASCII_ESC (chr "D") ?t] =>
      assert (T1' : timing (c + Z.max 0 d) (2 * BYTE_TIME) t)
        by (repeat (apply timing_on_dev; [| reflexivity | reflexivity]);
            exact T1);
      generalize dependent t; intros s2 T1'
  end.
  pose proof (timing_writeBytes2 _ _ ASCII_ESC (chr "D") _ T1'
                ltac:(rewrite BYTE_TIME_value; lia)) as T2.
  pose proof (timing_writeBytes4 _ _ 4 8 12 16 _ T2
                ltac:(rewrite BYTE_TIME_value; lia)) as T3.
  pose proof (timing_writeBytes4 _ _ 20 24 28 0 _ T3
                ltac:(rewrite BYTE_TIME_value; lia)) as T4.
  rewrite BYTE_TIME_value in *.
  replace (c + Z.max 0 d + 8 * 1146)
    with (c + Z.max 0 d + Z.max 0 (2 * 1146) + Z.max 0 (2 * 1146)
          + Z.max 0 (4 * 1146)) by lia.
  exact T4.
Qed.

(** X4 (reset): [reset] puts the column at 0, [maxColumn] at 32, [charHeight] at 24, [lineSpacing] at 6,
    [barcodeHeight] at 50 and the previous byte at newline, and leaves
    [printMode], [fontData], [charWidth] and [autoLineHeight] as they
    were. *)
Theorem reset_registers :
  forall s : State,
    column (dev (reset s)) = 0
    /\ maxColumn (dev (reset s)) = 32
    /\ charHeight (dev (reset s)) = 24
    /\ lineSpacing (dev (reset s)) = 6
    /\ barcodeHeight (dev (reset s)) = 50
    /\ prevByte (dev (reset s)) = chr "010"
    /\ printMode (dev (reset s)) = printMode (dev s)
    /\ fontData (dev (reset s)) = fontData (dev s)
    /\ charWidth (dev (reset s)) = charWidth (dev s)
    /\ autoLineHeight (dev (reset s)) = autoLineHeight (dev s).
Proof.
  intros s.
  destruct (reset_fields s)
    as ((P & C & M & H & L & B) & (PM & FD & CW & AL) & _).
  rewrite C, M, H, L, B, P, PM, FD, CW, AL. repeat split; lia.
Qed.

Lemma setHeatConfig_keeps (dots time interval : Z) (s : State) :
  exists r : Z,
    dev (setHeatConfig dots time interval s) = set_resumeTime r (dev s).
Proof.
  unfold setHeatConfig. cbv zeta. throttle_away. eexists. reflexivity.
Qed.

Lemma setHeatConfig_wire (dots time interval : Z) (s : State) :
  wire (hw (setHeatConfig dots time interval s))
  = wire (hw s) ++ [ASCII_ESC; chr "7"; u8 dots; u8 time; u8 interval].
Proof.
  unfold setHeatConfig. cbv zeta.
  rewrite writeBytes3_wire, writeBytes2_wire, <- app_assoc. reflexivity.
Qed.

Lemma timing_setHeatConfig (c d dots time interval : Z) (s : State) :
  timing c d s -> -2147483648 < d < 2147483648 ->
  timing (c + Z.max 0 d + 2 * BYTE_TIME) (3 * BYTE_TIME)
    (setHeatConfig dots time interval s).
Proof.
  intros T B. unfold setHeatConfig. cbv zeta.
  pose proof (timing_writeBytes2 _ _ ASCII_ESC (chr "7") _ T B) as T1.
  pose proof (timing_writeBytes3 _ _ dots time interval _ T1
                ltac:(rewrite BYTE_TIME_value; lia)) as T2.
  rewrite BYTE_TIME_value in *.
  replace (c + Z.max 0 d + 2 * 1146)
    with (c + Z.max 0 d + Z.max 0 (2 * 1146)) by lia.
  exact T2.
Qed.

(** X5 (begin): started in timing mode on firmware 264 or later, [begin]
    records the firmware version, the two dot times 30000 and 2100 and the
    chunk ceiling 255, leaves the registers of [reset], and sends, in this
    order, the wake sequence, the init command with the tab stops every 4
    columns, the heat configuration, and, when a DTR pin below 255 is
    configured, GS 'a' 32, after which the handshake is on.  It returns
    50 ms and the time of 18 bytes (21 with the handshake command) after
    its entry: the half-second start-up allowance it sets first is
    discarded by [wake]. *)
Theorem begin_modern :
  forall (dots time interval version : Z) (s : State),
    dtrEnabled (dev s) = false ->
    0 <= micros s < 4294967296 ->
    264 <= u16 version ->
    let s' := begin dots time interval version s in
    let handshake := dtrPin (dev s) <? 255 in
    (firmware (dev s') = u16 version
     /\ dtrEnabled (dev s') = handshake
     /\ dotPrintTime (dev s') = 30000
     /\ dotFeedTime (dev s') = 2100
     /\ maxChunkHeight (dev s') = 255
     /\ column (dev s') = 0
     /\ maxColumn (dev s') = 32
     /\ charHeight (dev s') = 24
     /\ lineSpacing (dev s') = 6
     /\ barcodeHeight (dev s') = 50
     /\ prevByte (dev s') = chr "010")
    /\ wire (hw s')
       = wire (hw s)
         ++ [255; ASCII_ESC; chr "8"; 0; 0]
         ++ [ASCII_ESC; chr "@"; ASCII_ESC; chr "D"; 4; 8; 12; 16; 20; 24; 28; 0]
         ++ [ASCII_ESC; chr "7"; u8 dots; u8 time; u8 interval]
         ++ (if handshake then [ASCII_GS; chr "a"; 32] else [])
    /\ micros s'
       = u32 (micros s + 50000 + 18 * BYTE_TIME
              + (if handshake then 3 * BYTE_TIME else 0)).
Proof.
  intros dots time interval version s D C V s' handshake.
  unfold s', begin. cbv zeta.
  set (s1 := timeoutSet 500000 (on_dev (set_firmware (u16 version)) s)).
  assert (D1 : dtrEnabled (dev s1) = false).
  { unfold s1. destruct (timeoutSet_keeps 500000
                           (on_dev (set_firmware (u16 version)) s)) as [r ->].
    exact D. }
  assert (C1 : micros s1 = u32 (micros s)).
  { unfold s1. rewrite timeoutSet_micros. unfold micros. cbn [hw on_dev].
    symmetry. apply u32_small. exact C. }
  assert (F1 : firmware (dev s1) = u16 version
               /\ dtrPin (dev s1) = dtrPin (dev s)).
  { unfold s1. destruct (timeoutSet_keeps 500000
                           (on_dev (set_firmware (u16 version)) s)) as [r ->].
    split; reflexivity. }
  assert (W1 : wire (hw s1) = wire (hw s)).
  { unfold s1. rewrite timeoutSet_wire. reflexivity. }
  clearbody s1. destruct F1 as [F1 P1].
  destruct (wake_modern (micros s) s1 D1 C1 ltac:(lia)) as [T2 W2].
  destruct (wake_keeps s1) as [r2 K2].
  assert (F2 : firmware (dev (wake s1)) = u16 version
               /\ dtrPin (dev (wake s1)) = dtrPin (dev s)).
  { rewrite K2. split; assumption. }
  clear K2. generalize dependent (wake s1). intros s2 T2 W2 [F2 P2].
  pose proof (timing_reset_modern _ _ s2 T2
                ltac:(rewrite BYTE_TIME_value; lia) ltac:(lia)) as T3.
  destruct (reset_fields s2)
    as ((R1 & R2 & R3 & R4 & R5 & R6) & _ & (R7 & R8 & R9 & _) & W3).
  rewrite F2 in W3. destruct (Z.leb_spec 264 (u16 version)); [| lia].
  generalize dependent (reset s2).
  intros s3 T3 R1 R2 R3 R4 R5 R6 R7 R8 R9 W3.
  pose proof (proj1 T3) as D3.
  pose proof (timing_setHeatConfig _ _ dots time interval s3 T3
                ltac:(rewrite BYTE_TIME_value; lia)) as T4.
  pose proof (setHeatConfig_wire dots time interval s3) as W4.
  destruct (setHeatConfig_keeps dots time interval s3) as [r4 K4].
  generalize dependent (setHeatConfig dots time interval s3).
  intros s4 T4 W4 K4.
  assert (P4 : dtrPin (dev s4) = dtrPin (dev s)).
  { rewrite K4. cbn. congruence. }
  rewrite P4. fold handshake.
  assert (E : wire (hw s4)
              = wire (hw s)
                ++ [255; ASCII_ESC; chr "8"; 0; 0]
                ++ [ASCII_ESC; chr "@"; ASCII_ESC; chr "D";
                    4; 8; 12; 16; 20; 24; 28; 0]
                ++ [ASCII_ESC; chr "7"; u8 dots; u8 time; u8 interval]).
  { rewrite W4, W3, W2, W1, <- !app_assoc. reflexivity. }
  destruct handshake.
  - pose proof (timing_writeBytes3 _ _ ASCII_GS (chr "a") (Z.shiftl 1 5) _ T4
                  ltac:(rewrite BYTE_TIME_value; lia)) as (_ & C5 & _).
    destruct (writeBytes3_keeps ASCII_GS (chr "a") (Z.shiftl 1 5) s4)
      as [r5 K5].
    unfold micros in *. cbn [dev hw on_dev]. regs.
    rewrite K5, K4, writeBytes3_wire, E, C5. regs.
    rewrite <- !app_assoc, BYTE_TIME_value.
    repeat split; try assumption; try reflexivity; try congruence.
    f_equal. lia.
  - destruct T4 as (_ & C4 & _).
    unfold micros in *. cbn [dev hw on_dev]. regs.
    rewrite K4, E, C4. regs. rewrite app_nil_r, BYTE_TIME_value.
    repeat split; try assumption; try reflexivity; try congruence.
    f_equal. lia.
Qed.

Lemma begin_modern_witness :
  firmware (dev (begin 11 120 40 268 booted)) = 268
  /\ dtrEnabled (dev (begin 11 120 40 268 booted)) = false
  /\ micros (begin 11 120 40 268 booted) = 1070628.
Proof.
  destruct (begin_modern 11 120 40 268 booted eq_refl
              ltac:(unfold micros, booted; simpl; lia)
              ltac:(vm_compute; discriminate))
    as ((F & D & _) & _ & M).
  split; [exact F |]. split; [exact D |].
  rewrite M. reflexivity.
Defined.

(** ** The commands of a metric recomputation *)

Lemma adjustCharValues_wire (s : State) :
  let cell := font_cell (u8 (font_id s)) in
  let height := if double_height s then u8 (snd cell * 2) else snd cell in
  let fontStyle :=
    u8 (Z.lor (u8 (Z.shiftl (Z.land (printMode (dev s)) 32) 2))
              (Z.shiftr (Z.land (printMode (dev s)) 16) 1)) in
  wire (hw (adjustCharValues s))
  = wire (hw s)
    ++ [ASCII_ESC; chr "M"; u8 (u8 (font_id s)); FIN_CMD;
        ASCII_GS; chr "!"; u8 (Z.shiftr fontStyle 3); FIN_CMD]
    ++ (if autoLineHeight (dev s)
        then [ASCII_ESC; chr "3"; u8 (height + lineSpacing (dev s))]
        else []).
Proof.
  unfold adjustCharValues, double_width, double_height, font_id.
  cbv zeta. regs.
  destruct (negb (Z.land (printMode (dev s)) DOUBLE_WIDTH_MASK =? 0)); regs;
    destruct (negb (Z.land (printMode (dev s)) DOUBLE_HEIGHT_MASK =? 0)); regs;
    throttle_away; regs;
    destruct (autoLineHeight (dev s));
    rewrite ?writeBytes3_wire, !writeBytes4_wire; cbn [hw on_dev];
    throttle_away; regs;
    rewrite <- ?app_assoc; rewrite ?app_nil_r; reflexivity.
Qed.

Lemma double_width_bit (s : State) :
  double_width s = Z.testbit (printMode (dev s)) 5.
Proof.
  unfold double_width. change DOUBLE_WIDTH_MASK with (2 ^ 5).
  rewrite land_bit by lia. destruct (Z.testbit (printMode (dev s)) 5);
    reflexivity.
Qed.

Lemma double_height_bit (s : State) :
  double_height s = Z.testbit (printMode (dev s)) 4.
Proof.
  unfold double_height. change DOUBLE_HEIGHT_MASK with (2 ^ 4).
  rewrite land_bit by lia. destruct (Z.testbit (printMode (dev s)) 4);
    reflexivity.
Qed.

(** X6 (adjustCharValues): a metric recomputation sends ESC 'M' font FIN,
    then GS '!' size FIN, where size has 16 for double width and 1 for
    double height, and, when the automatic line height is on, ESC '3' with
    the sum of the character height just computed and the line spacing
    (modulo 256). *)
Theorem adjustCharValues_commands :
  forall s : State,
    let s' := adjustCharValues s in
    wire (hw s')
    = wire (hw s)
      ++ [ASCII_ESC; chr "M"; font_id s; FIN_CMD;
          ASCII_GS; chr "!";
          (if double_width s then 16 else 0)
          + (if double_height s then 1 else 0);
          FIN_CMD]
      ++ (if autoLineHeight (dev s)
          then [ASCII_ESC; chr "3";
                (charHeight (dev s') + lineSpacing (dev s)) mod 256]
          else []).
Proof.
  intros s s'. unfold s'. rewrite adjustCharValues_wire.
  destruct (adjustCharValues_fields s) as (_ & H & _). rewrite H.
  pose proof (font_id_range s) as R.
  rewrite !(u8_small (font_id s)) by lia.
  rewrite double_width_bit, double_height_bit.
  change 32 with (2 ^ 5). change 16 with (2 ^ 4) at 1.
  rewrite !land_bit by lia.
  destruct (Z.testbit (printMode (dev s)) 5);
    destruct (Z.testbit (printMode (dev s)) 4); reflexivity.
Qed.

(** ** The print-mode byte *)

Lemma u8_land (x : Z) : u8 x = Z.land x 255.
Proof.
  unfold u8. change 256 with (2 ^ 8). rewrite <- Z.land_ones by lia.
  reflexivity.
Qed.

(** Decide an equation between bitwise expressions bit by bit. *)
Ltac bitwise :=
  rewrite ?u8_land; apply Z.bits_inj'; intros n Hn;
  repeat first
    [ rewrite Z.land_spec | rewrite Z.lor_spec
    | rewrite Z.lnot_spec by exact Hn | rewrite Z.bits_0 ];
  repeat match goal with
    | |- context [Z.testbit ?x n] => destruct (Z.testbit x n)
    end;
  reflexivity.

(** What a metric recomputation leaves alone. *)
Lemma adjustCharValues_frame (s : State) :
  let s' := adjustCharValues s in
  firmware (dev s') = firmware (dev s)
  /\ dtrPin (dev s') = dtrPin (dev s)
  /\ dotPrintTime (dev s') = dotPrintTime (dev s)
  /\ dotFeedTime (dev s') = dotFeedTime (dev s)
  /\ column (dev s') = column (dev s)
  /\ prevByte (dev s') = prevByte (dev s)
  /\ barcodeHeight (dev s') = barcodeHeight (dev s)
  /\ maxChunkHeight (dev s') = maxChunkHeight (dev s).
Proof.
  unfold adjustCharValues. cbv zeta. regs.
  destruct (negb (Z.land (printMode (dev s)) DOUBLE_WIDTH_MASK =? 0)); regs;
    destruct (negb (Z.land (printMode (dev s)) DOUBLE_HEIGHT_MASK =? 0)); regs;
    match goal with
    | |- context [if autoLineHeight ?t then _ else _] =>
        destruct (autoLineHeight t)
    end;
    throttle_away; regs; repeat split; reflexivity.
Qed.

Lemma setPrintMode_fields (mask : Z) (s : State) :
  printMode (dev (setPrintMode mask s))
  = u8 (Z.lor (printMode (dev s)) (u8 mask))
  /\ font_id (setPrintMode mask s) = font_id s
  /\ firmware (dev (setPrintMode mask s)) = firmware (dev s)
  /\ lineSpacing (dev (setPrintMode mask s)) = lineSpacing (dev s)
  /\ autoLineHeight (dev (setPrintMode mask s)) = autoLineHeight (dev s).
Proof.
  unfold setPrintMode, writePrintMode. cbv zeta.
  match goal with
  | |- context [adjustCharValues ?t] =>
      destruct (adjustCharValues_fields t) as (_ & _ & _ & _ & P & L & A & _);
      pose proof (adjustCharValues_font_id t) as F;
      destruct (adjustCharValues_frame t) as (V & _)
  end.
  rewrite P, F, L, A, V. unfold font_id.
  throttle_away. regs. repeat split.
Qed.

Lemma unsetPrintMode_fields (mask : Z) (s : State) :
  printMode (dev (unsetPrintMode mask s))
  = u8 (Z.land (printMode (dev s)) (Z.lnot (u8 mask)))
  /\ font_id (unsetPrintMode mask s) = font_id s
  /\ firmware (dev (unsetPrintMode mask s)) = firmware (dev s)
  /\ lineSpacing (dev (unsetPrintMode mask s)) = lineSpacing (dev s)
  /\ autoLineHeight (dev (unsetPrintMode mask s)) = autoLineHeight (dev s).
Proof.
  unfold unsetPrintMode, writePrintMode. cbv zeta.
  match goal with
  | |- context [adjustCharValues ?t] =>
      destruct (adjustCharValues_fields t) as (_ & _ & _ & _ & P & L & A & _);
      pose proof (adjustCharValues_font_id t) as F;
      destruct (adjustCharValues_frame t) as (V & _)
  end.
  rewrite P, F, L, A, V. unfold font_id.
  throttle_away. regs. repeat split.
Qed.

(** The mode byte goes out first, as stored. *)
Lemma setPrintMode_wire (mask : Z) (s : State) :
  exists rest : list Z,
    wire (hw (setPrintMode mask s))
    = wire (hw s)
      ++ [ASCII_ESC; chr "!"; printMode (dev (setPrintMode mask s))] ++ rest.
Proof.
  destruct (setPrintMode_fields mask s) as (P & _). rewrite P.
  unfold setPrintMode, writePrintMode. cbv zeta.
  rewrite adjustCharValues_wire, writeBytes3_wire. cbn [hw dev on_dev]. regs.
  rewrite u8_idem, <- !app_assoc. eexists. reflexivity.
Qed.

Lemma unsetPrintMode_wire (mask : Z) (s : State) :
  exists rest : list Z,
    wire (hw (unsetPrintMode mask s))
    = wire (hw s)
      ++ [ASCII_ESC; chr "!"; printMode (dev (unsetPrintMode mask s))] ++ rest.
Proof.
  destruct (unsetPrintMode_fields mask s) as (P & _). rewrite P.
  unfold unsetPrintMode, writePrintMode. cbv zeta.
  rewrite adjustCharValues_wire, writeBytes3_wire. cbn [hw dev on_dev]. regs.
  rewrite u8_idem, <- !app_assoc. eexists. reflexivity.
Qed.

(** X7 (setPrintMode, unsetPrintMode, writePrintMode): for a mask that is a
    byte, [setPrintMode] sets exactly the bits of the mask in [printMode]
    and [unsetPrintMode] clears exactly those; either leaves a byte and
    keeps every other bit.  Setting after clearing gives what setting alone
    gives, and clearing after setting what clearing alone gives.  The first
    command either sends is ESC '!' with the new mode byte. *)
Theorem printMode_bits :
  forall (mask : Z) (s : State),
    0 <= mask < 256 ->
    let pm := printMode (dev s) in
    let on := printMode (dev (setPrintMode mask s)) in
    let off := printMode (dev (unsetPrintMode mask s)) in
    (0 <= on < 256 /\ 0 <= off < 256)
    /\ Z.land on mask = mask
    /\ Z.land off mask = 0
    /\ Z.land on (Z.lnot mask) = Z.land (u8 pm) (Z.lnot mask)
    /\ Z.land off (Z.lnot mask) = Z.land (u8 pm) (Z.lnot mask)
    /\ printMode (dev (unsetPrintMode mask (setPrintMode mask s))) = off
    /\ printMode (dev (setPrintMode mask (unsetPrintMode mask s))) = on
    /\ (exists rest : list Z,
          wire (hw (setPrintMode mask s))
          = wire (hw s) ++ [ASCII_ESC; chr "!"; on] ++ rest)
    /\ (exists rest : list Z,
          wire (hw (unsetPrintMode mask s))
          = wire (hw s) ++ [ASCII_ESC; chr "!"; off] ++ rest).
Proof.
  intros mask s M pm on off.
  pose proof (setPrintMode_wire mask s) as W1. fold on in W1.
  pose proof (unsetPrintMode_wire mask s) as W2. fold off in W2.
  destruct (setPrintMode_fields mask s) as (On & _).
  destruct (unsetPrintMode_fields mask s) as (Off & _).
  destruct (unsetPrintMode_fields mask (setPrintMode mask s)) as (OffOn & _).
  destruct (setPrintMode_fields mask (unsetPrintMode mask s)) as (OnOff & _).
  fold on in On. fold off in Off. fold pm in On, Off.
  rewrite OffOn, OnOff. fold on off. clearbody on off. subst on off.
  rewrite (u8_small mask M).
  assert (K : Z.land mask 255 = mask).
  { rewrite <- u8_land. apply u8_small. exact M. }
  split; [split; apply u8_range |].
  split; [rewrite <- K at 3; bitwise |].
  split; [bitwise |].
  split; [bitwise |].
  split; [bitwise |].
  split; [bitwise |].
  split; [rewrite <- K at 1 3; bitwise |].
  rewrite (u8_small mask M) in W1, W2. split; assumption.
Qed.

Lemma printMode_bits_witness :
  Z.land (printMode (dev (setPrintMode BOLD_MASK booted))) BOLD_MASK = BOLD_MASK
  /\ Z.land (printMode (dev (unsetPrintMode BOLD_MASK booted))) BOLD_MASK = 0.
Proof.
  destruct (printMode_bits BOLD_MASK booted
              ltac:(vm_compute; split; [discriminate | reflexivity]))
    as (_ & On & Off & _).
  split; [exact On | exact Off].
Defined.

(** ** Metrics and modes *)

Lemma adjustCharValues_current (s : State) :
  metrics_current (adjustCharValues s).
Proof.
  unfold metrics_current. cbv zeta.
  destruct (adjustCharValues_fields s) as (W & H & M & _ & P & _).
  assert (DW : double_width (adjustCharValues s) = double_width s)
    by (unfold double_width; rewrite P; reflexivity).
  assert (DH : double_height (adjustCharValues s) = double_height s)
    by (unfold double_height; rewrite P; reflexivity).
  rewrite adjustCharValues_font_id, DW, DH, M, W, H.
  pose proof (font_id_range s) as R. rewrite (u8_small (font_id s)) by lia.
  assert (C : font_id s = 0 \/ font_id s = 1 \/ font_id s = 2 \/ font_id s = 3
              \/ font_id s = 4 \/ font_id s = 5 \/ font_id s = 6
              \/ font_id s = 7) by lia.
  destruct (double_width s); destruct (double_height s);
    repeat (destruct C as [C | C]; [rewrite C; repeat split; reflexivity |]);
    rewrite C; repeat split; reflexivity.
Qed.

Lemma metrics_current_frame (s s' : State) :
  metrics_current s ->
  fontData (dev s') = fontData (dev s) ->
  printMode (dev s') = printMode (dev s) ->
  charWidth (dev s') = charWidth (dev s) ->
  charHeight (dev s') = charHeight (dev s) ->
  maxColumn (dev s') = maxColumn (dev s) ->
  metrics_current s'.
Proof.
  unfold metrics_current, font_id, double_width, double_height.
  intros M F P W H X. rewrite F, P, W, H, X. exact M.
Qed.

Lemma setPrintMode_current (mask : Z) (s : State) :
  metrics_current (setPrintMode mask s).
Proof. unfold setPrintMode. cbv zeta. apply adjustCharValues_current. Qed.

Lemma unsetPrintMode_current (mask : Z) (s : State) :
  metrics_current (unsetPrintMode mask s).
Proof. unfold unsetPrintMode. cbv zeta. apply adjustCharValues_current. Qed.

Lemma setSize_last (value : Z) (s : State) :
  exists (t : State) (mask : Z) (on : bool),
    setSize value s
    = (if on then setPrintMode mask t else unsetPrintMode mask t).
Proof.
  unfold setSize. cbv zeta.
  destruct (toupper value =? chr "M");
    [| destruct (toupper value =? chr "L")].
  - exists (doubleHeightOn s), DOUBLE_WIDTH_MASK, false. reflexivity.
  - exists (doubleHeightOn s), DOUBLE_WIDTH_MASK, true. reflexivity.
  - exists (doubleWidthOff s), DOUBLE_HEIGHT_MASK, false. reflexivity.
Qed.

(** X8 (adjustCharValues and its callers): after [adjustCharValues], and
    after every method that ends in it or is followed only by command
    writes ([setPrintMode], [unsetPrintMode], [setFont], [setSize],
    [autoLineHeightOn], [autoLineHeightOff], [setLineHeight]), the registers
    [charWidth], [charHeight] and [maxColumn] agree with the font and the
    double-size flags stored in the driver. *)
Theorem metrics_follow_changes :
  forall (s : State) (mask font value val : Z),
    metrics_current (adjustCharValues s)
    /\ metrics_current (setPrintMode mask s)
    /\ metrics_current (unsetPrintMode mask s)
    /\ metrics_current (setFont font s)
    /\ metrics_current (setSize value s)
    /\ metrics_current (autoLineHeightOn s)
    /\ metrics_current (autoLineHeightOff s)
    /\ metrics_current (setLineHeight val s).
Proof.
  intros s mask font value val.
  split; [apply adjustCharValues_current |].
  split; [apply setPrintMode_current |].
  split; [apply unsetPrintMode_current |].
  split; [unfold setFont; cbv zeta; apply adjustCharValues_current |].
  split.
  { destruct (setSize_last value s) as (t & m & on & ->).
    destruct on; [apply setPrintMode_current | apply unsetPrintMode_current]. }
  split; [unfold autoLineHeightOn; apply adjustCharValues_current |].
  split; [unfold autoLineHeightOff; apply adjustCharValues_current |].
  unfold setLineHeight. cbv zeta.
  assert (M : metrics_current (autoLineHeightOff s))
    by (unfold autoLineHeightOff; apply adjustCharValues_current).
  generalize dependent (autoLineHeightOff s). intros s1 M.
  eapply metrics_current_frame; [exact M | ..]; throttle_away; reflexivity.
Qed.

Lemma normal_fields (s : State) :
  printMode (dev (normal s)) = 0
  /\ fontData (dev (normal s)) = fontData (dev s)
  /\ charWidth (dev (normal s)) = charWidth (dev s)
  /\ charHeight (dev (normal s)) = charHeight (dev s)
  /\ maxColumn (dev (normal s)) = maxColumn (dev s)
  /\ wire (hw (normal s)) = wire (hw s) ++ [ASCII_ESC; chr "!"; 0].
Proof.
  unfold normal, writePrintMode. cbv zeta. rewrite writeBytes3_wire.
  throttle_away. repeat split.
Qed.

(** X9 (normal): [normal] clears [printMode] and sends ESC '!' 0, and does
    not recompute the metrics: [fontData], [charWidth], [charHeight] and
    [maxColumn] stay.  After [doubleWidthOn] on font A, [normal] leaves the
    double-width flag off with [charWidth] still 24 and [maxColumn] still
    16, so the metrics no longer agree with the mode. *)
Theorem normal_keeps_metrics :
  forall s : State,
    (printMode (dev (normal s)) = 0
     /\ fontData (dev (normal s)) = fontData (dev s)
     /\ charWidth (dev (normal s)) = charWidth (dev s)
     /\ charHeight (dev (normal s)) = charHeight (dev s)
     /\ maxColumn (dev (normal s)) = maxColumn (dev s)
     /\ wire (hw (normal s)) = wire (hw s) ++ [ASCII_ESC; chr "!"; 0])
    /\ (font_id s = 0 ->
        let s' := normal (doubleWidthOn s) in
        double_width s' = false
        /\ charWidth (dev s') = 24
        /\ maxColumn (dev s') = 16
        /\ ~ metrics_current s').
Proof.
  intros s. split; [apply normal_fields |].
  intros F s'. unfold s', doubleWidthOn.
  destruct (setPrintMode_current DOUBLE_WIDTH_MASK s) as (W1 & _ & M1).
  destruct (setPrintMode_fields DOUBLE_WIDTH_MASK s) as (P1 & F1 & _).
  assert (DW : double_width (setPrintMode DOUBLE_WIDTH_MASK s) = true).
  { rewrite double_width_bit, P1, u8_land, Z.land_spec, Z.lor_spec.
    rewrite orb_true_r. reflexivity. }
  rewrite F1, F, DW in W1. change (fst (font_cell 0) * 2) with 24 in W1.
  rewrite W1 in M1. change (384 / 24) with 16 in M1.
  rewrite F in F1. clear P1 DW.
  generalize dependent (setPrintMode DOUBLE_WIDTH_MASK s). intros t W1 M1 F1.
  destruct (normal_fields t) as (P & FD & W & _ & M & _).
  assert (NW : double_width (normal t) = false).
  { unfold double_width. rewrite P. reflexivity. }
  assert (NF : font_id (normal t) = 0).
  { unfold font_id in *. rewrite FD. exact F1. }
  rewrite NW, W, M, W1, M1. repeat split.
  unfold metrics_current. cbv zeta. rewrite NW, NF, W, W1.
  intros (A & _). discriminate A.
Qed.

Lemma normal_keeps_metrics_witness :
  font_id booted = 0
  /\ double_width (normal (doubleWidthOn booted)) = false
  /\ charWidth (dev (normal (doubleWidthOn booted))) = 24
  /\ maxColumn (dev (normal (doubleWidthOn booted))) = 16.
Proof.
  split; [reflexivity |].
  destruct (proj2 (normal_keeps_metrics booted) eq_refl) as (D & W & C & _).
  split; [exact D |]. split; [exact W | exact C].
Defined.

Ltac mode_bit :=
  rewrite ?u8_land;
  repeat first
    [ rewrite Z.land_spec | rewrite Z.lor_spec
    | rewrite Z.lnot_spec by lia ];
  repeat match goal with
    | |- context [Z.testbit (printMode ?t) ?k] =>
        destruct (Z.testbit (printMode t) k)
    end;
  reflexivity.

(** X10 (setSize): the size letter is read without regard to case; 'L'
    turns double width and double height on, 'M' double height only, and
    any other value both off.  The font and every other bit of [printMode]
    are kept, and the metrics agree with the new mode. *)
Theorem setSize_flags :
  forall (value : Z) (s : State),
    let s' := setSize value s in
    let v := toupper value in
    double_width s' = (v =? chr "L")
    /\ double_height s' = ((v =? chr "M") || (v =? chr "L"))
    /\ font_id s' = font_id s
    /\ Z.land (printMode (dev s'))
         (Z.lnot (Z.lor DOUBLE_HEIGHT_MASK DOUBLE_WIDTH_MASK))
       = Z.land (u8 (printMode (dev s)))
           (Z.lnot (Z.lor DOUBLE_HEIGHT_MASK DOUBLE_WIDTH_MASK))
    /\ metrics_current s'.
Proof.
  intros value s s' v. unfold s', setSize. cbv zeta. fold v.
  unfold doubleHeightOn, doubleHeightOff, doubleWidthOn, doubleWidthOff.
  destruct (v =? chr "M") eqn:EM; [| destruct (v =? chr "L") eqn:EL].
  - assert (EL : (v =? chr "L") = false).
    { apply Z.eqb_eq in EM. rewrite EM. reflexivity. }
    rewrite EL.
    destruct (unsetPrintMode_fields DOUBLE_WIDTH_MASK
                (setPrintMode DOUBLE_HEIGHT_MASK s)) as (P2 & F2 & _).
    destruct (setPrintMode_fields DOUBLE_HEIGHT_MASK s) as (P1 & F1 & _).
    rewrite P1 in P2. rewrite F1 in F2.
    split; [rewrite double_width_bit, P2; mode_bit |].
    split; [rewrite double_height_bit, P2; mode_bit |].
    split; [exact F2 |].
    split; [rewrite P2; bitwise | apply unsetPrintMode_current].
  - destruct (setPrintMode_fields DOUBLE_WIDTH_MASK
                (setPrintMode DOUBLE_HEIGHT_MASK s)) as (P2 & F2 & _).
    destruct (setPrintMode_fields DOUBLE_HEIGHT_MASK s) as (P1 & F1 & _).
    rewrite P1 in P2. rewrite F1 in F2.
    split; [rewrite double_width_bit, P2; mode_bit |].
    split; [rewrite double_height_bit, P2; mode_bit |].
    split; [exact F2 |].
    split; [rewrite P2; bitwise | apply setPrintMode_current].
  - destruct (unsetPrintMode_fields DOUBLE_HEIGHT_MASK
                (unsetPrintMode DOUBLE_WIDTH_MASK s)) as (P2 & F2 & _).
    destruct (unsetPrintMode_fields DOUBLE_WIDTH_MASK s) as (P1 & F1 & _).
    rewrite P1 in P2. rewrite F1 in F2.
    split; [rewrite double_width_bit, P2; mode_bit |].
    split; [rewrite double_height_bit, P2; mode_bit |].
    split; [exact F2 |].
    split; [rewrite P2; bitwise | apply unsetPrintMode_current].
Qed.

(** X11 (inverseOn, inverseOff, upsideDownOn, upsideDownOff): on firmware
    268 and later each of the four sends a command of its own (GS 'B' n,
    ESC '{' n, n = 1 or 0) and changes no register but the deadline, so
    [printMode] is left alone.  On older firmware each sets or clears bit 1
    (inverse) or bit 2 (upside down) of [printMode], keeps its other bits,
    and sends the new mode byte first, with ESC '!'. *)
Theorem inverse_by_firmware :
  forall s : State,
    (268 <= firmware (dev s) ->
     (wire (hw (inverseOn s)) = wire (hw s) ++ [ASCII_GS; chr "B"; 1]
      /\ exists r : Z, dev (inverseOn s) = set_resumeTime r (dev s))
     /\ (wire (hw (inverseOff s)) = wire (hw s) ++ [ASCII_GS; chr "B"; 0]
         /\ exists r : Z, dev (inverseOff s) = set_resumeTime r (dev s))
     /\ (wire (hw (upsideDownOn s)) = wire (hw s) ++ [ASCII_ESC; chr "{"; 1]
         /\ exists r : Z, dev (upsideDownOn s) = set_resumeTime r (dev s))
     /\ (wire (hw (upsideDownOff s)) = wire (hw s) ++ [ASCII_ESC; chr "{"; 0]
         /\ exists r : Z, dev (upsideDownOff s) = set_resumeTime r (dev s)))
    /\ (firmware (dev s) < 268 ->
        let sent (s' : State) :=
          exists rest : list Z,
            wire (hw s')
            = wire (hw s) ++ [ASCII_ESC; chr "!"; printMode (dev s')] ++ rest in
        (printMode (dev (inverseOn s))
         = u8 (Z.lor (printMode (dev s)) INVERSE_MASK)
         /\ Z.testbit (printMode (dev (inverseOn s))) 1 = true
         /\ sent (inverseOn s))
        /\ (printMode (dev (inverseOff s))
            = u8 (Z.land (printMode (dev s)) (Z.lnot INVERSE_MASK))
            /\ Z.testbit (printMode (dev (inverseOff s))) 1 = false
            /\ sent (inverseOff s))
        /\ (printMode (dev (upsideDownOn s))
            = u8 (Z.lor (printMode (dev s)) UPDOWN_MASK)
            /\ Z.testbit (printMode (dev (upsideDownOn s))) 2 = true
            /\ sent (upsideDownOn s))
        /\ (printMode (dev (upsideDownOff s))
            = u8 (Z.land (printMode (dev s)) (Z.lnot UPDOWN_MASK))
            /\ Z.testbit (printMode (dev (upsideDownOff s))) 2 = false
            /\ sent (upsideDownOff s))).
Proof.
  intros s. unfold inverseOn, inverseOff, upsideDownOn, upsideDownOff.
  split; intros V.
  - destruct (Z.leb_spec 268 (firmware (dev s))); [| lia].
    rewrite !writeBytes3_wire.
    repeat split; try reflexivity; apply writeBytes3_keeps.
  - cbv zeta. destruct (Z.leb_spec 268 (firmware (dev s))); [lia |].
    destruct (setPrintMode_fields INVERSE_MASK s) as (P1 & _).
    destruct (unsetPrintMode_fields INVERSE_MASK s) as (P2 & _).
    destruct (setPrintMode_fields UPDOWN_MASK s) as (P3 & _).
    destruct (unsetPrintMode_fields UPDOWN_MASK s) as (P4 & _).
    change (u8 INVERSE_MASK) with INVERSE_MASK in P1, P2.
    change (u8 UPDOWN_MASK) with UPDOWN_MASK in P3, P4.
    split; [| split; [| split]].
    + split; [exact P1 |]. split; [rewrite P1; mode_bit |].
      apply setPrintMode_wire.
    + split; [exact P2 |]. split; [rewrite P2; mode_bit |].
      apply unsetPrintMode_wire.
    + split; [exact P3 |]. split; [rewrite P3; mode_bit |].
      apply setPrintMode_wire.
    + split; [exact P4 |]. split; [rewrite P4; mode_bit |].
      apply unsetPrintMode_wire.
Qed.

Lemma inverse_by_firmware_witness :
  wire (hw (inverseOff booted)) = [ASCII_GS; chr "B"; 0]
  /\ Z.testbit
       (printMode (dev (inverseOn (on_dev (set_firmware 267) booted)))) 1
     = true.
Proof.
  split.
  - apply (proj1 (proj1 (proj2 (proj1 (inverse_by_firmware booted)
                                  ltac:(vm_compute; discriminate))))).
  - apply (proj1 (proj2 (proj1 (proj2 (inverse_by_firmware
                                         (on_dev (set_firmware 267) booted))
                                  ltac:(vm_compute; reflexivity))))).
Defined.

(** ** Tabs and feeds *)

(** X12 (tab): [tab] sends one tab byte and moves the column to the next
    multiple of 4 strictly above it; from column 252 on, that is 0.
    [maxColumn] is left as it was and plays no part in the new column. *)
Theorem tab_next_stop :
  forall s : State,
    0 <= column (dev s) < 256 ->
    let c := column (dev s) in
    let c' := column (dev (tab s)) in
    c' mod 4 = 0
    /\ (c < 252 -> c' = 4 * (c / 4 + 1) /\ c < c' <= c + 4)
    /\ (252 <= c -> c' = 0)
    /\ maxColumn (dev (tab s)) = maxColumn (dev s)
    /\ wire (hw (tab s)) = wire (hw s) ++ [ASCII_TAB].
Proof.
  intros s R c c'.
  assert (E : c' = u8 (Z.land (c + 4) 252)).
  { unfold c', c, tab. cbv zeta. regs. throttle_away. reflexivity. }
  assert (M : maxColumn (dev (tab s)) = maxColumn (dev s)).
  { unfold tab. cbv zeta. regs. throttle_away. reflexivity. }
  assert (W : wire (hw (tab s)) = wire (hw s) ++ [ASCII_TAB]).
  { unfold tab. cbv zeta. cbn [hw on_dev]. apply writeBytes1_wire. }
  fold c in R. rewrite E. clearbody c. clear E c'.
  pose proof (byte_forall
                (fun c =>
                   let c' := u8 (Z.land (c + 4) 252) in
                   (c' mod 4 =? 0)
                   && (if c <? 252
                       then (c' =? 4 * (c / 4 + 1)) && (c <? c') && (c' <=? c + 4)
                       else c' =? 0))
                ltac:(vm_compute; reflexivity) c R) as B.
  cbv zeta in B.
  apply andb_prop in B. destruct B as [B1 B2].
  apply Z.eqb_eq in B1.
  split; [exact B1 |]. split; [| split; [| split; assumption]].
  - intros L. destruct (Z.ltb_spec c 252); [| lia].
    apply andb_prop in B2. destruct B2 as [B2 B4].
    apply andb_prop in B2. destruct B2 as [B2 B3].
    apply Z.eqb_eq in B2. apply Z.ltb_lt in B3. apply Z.leb_le in B4.
    split; [exact B2 | split; assumption].
  - intros L. destruct (Z.ltb_spec c 252); [lia |].
    apply Z.eqb_eq in B2. exact B2.
Qed.

Lemma tab_next_stop_witness :
  column (dev (tab (on_dev (set_column 5) booted))) = 8.
Proof.
  apply (proj1 (proj1 (proj2
           (tab_next_stop (on_dev (set_column 5) booted)
              ltac:(simpl; lia)))
           ltac:(simpl; lia))).
Defined.

Lemma write_newline (s : State) :
  column (dev (write (chr "010") s)) = 0
  /\ prevByte (dev (write (chr "010") s)) = chr "010"
  /\ firmware (dev (write (chr "010") s)) = firmware (dev s)
  /\ maxColumn (dev (write (chr "010") s)) = maxColumn (dev s).
Proof.
  unfold write. cbv zeta.
  change (u8 (chr "010")) with 10. change (chr "010") with 10.
  cbn [Z.eqb Pos.eqb negb orb]. regs.
  match goal with |- context [timeoutSet ?x ?t] =>
    destruct (timeoutSet_keeps x t) as [r ->] end.
  regs. rewrite ?stream_write_dev, ?timeoutWait_dev. repeat split.
Qed.

Lemma feed_manually_wire (n : nat) :
  forall s : State,
    wire (hw (feed_manually n s)) = wire (hw s) ++ repeat 10 n.
Proof.
  induction n as [| n IH]; intros s.
  - cbn. rewrite app_nil_r. reflexivity.
  - cbn [feed_manually]. rewrite IH, write_wire.
    change (u8 (chr "010") =? 13) with false. cbv iota.
    rewrite <- app_assoc. reflexivity.
Qed.

Lemma feed_manually_regs (n : nat) :
  forall s : State,
    firmware (dev (feed_manually n s)) = firmware (dev s)
    /\ maxColumn (dev (feed_manually n s)) = maxColumn (dev s)
    /\ ((0 < n)%nat ->
        column (dev (feed_manually n s)) = 0
        /\ prevByte (dev (feed_manually n s)) = chr "010").
Proof.
  induction n as [| n IH]; intros s.
  - cbn. repeat split; lia.
  - cbn [feed_manually].
    destruct (write_newline s) as (C & P & F & M).
    destruct (IH (write (chr "010") s)) as (F' & M' & K).
    rewrite F', M', F, M. repeat split.
    + destruct n as [| n']; [exact C | apply K; lia].
    + destruct n as [| n']; [exact P | apply K; lia].
Qed.

(** X13 (feed): on firmware older than 264, [feed(x)] is the same as
    printing [x] newlines (x taken modulo 256): it sends [x] line feeds
    and, when x is not 0, leaves the column at 0 and the previous byte at
    newline; [feed(0)] does nothing. *)
Theorem feed_legacy :
  forall (x : Z) (s : State),
    firmware (dev s) < 264 ->
    wire (hw (feed x s)) = wire (hw s) ++ repeat 10 (Z.to_nat (u8 x))
    /\ feed x s = print (repeat (chr "010") (Z.to_nat (u8 x))) s
    /\ (0 < u8 x ->
        column (dev (feed x s)) = 0 /\ prevByte (dev (feed x s)) = chr "010")
    /\ (u8 x = 0 -> feed x s = s).
Proof.
  intros x s V. unfold feed. cbv zeta.
  destruct (Z.leb_spec 264 (firmware (dev s))); [lia |].
  split; [apply feed_manually_wire |]. split; [| split].
  - generalize (Z.to_nat (u8 x)). intros n. revert s V H.
    induction n as [| n IH]; intros s V H; [reflexivity |].
    cbn [feed_manually repeat]. rewrite print_cons.
    destruct (write_newline s) as (_ & _ & F & _).
    apply IH; rewrite F; assumption.
  - intros P. apply (feed_manually_regs (Z.to_nat (u8 x)) s). lia.
  - intros Z0. rewrite Z0. reflexivity.
Qed.

Lemma feed_legacy_witness :
  wire (hw (feed 3 (on_dev (set_firmware 263) booted))) = [10; 10; 10]
  /\ column (dev (feed 3 (on_dev (set_firmware 263) booted))) = 0.
Proof.
  destruct (feed_legacy 3 (on_dev (set_firmware 263) booted)
              ltac:(vm_compute; reflexivity))
    as (W & _ & C & _).
  split; [exact W |].
  apply (proj1 (C ltac:(vm_compute; reflexivity))).
Defined.

(** X14 (justify): [justify] sends ESC 'a' pos, where pos is 1 for 'C' or
    'c', 2 for 'R' or 'r' and 0 for every other value, and changes no
    register but the deadline. *)
Theorem justify_position :
  forall (value : Z) (s : State),
    let pos :=
      if (value =? chr "C") || (value =? chr "c") then 1
      else if (value =? chr "R") || (value =? chr "r") then 2
      else 0 in
    wire (hw (justify value s)) = wire (hw s) ++ [ASCII_ESC; chr "a"; pos]
    /\ exists r : Z, dev (justify value s) = set_resumeTime r (dev s).
Proof.
  intros value s pos. unfold justify. cbv zeta. split.
  - rewrite writeBytes3_wire. f_equal. f_equal. f_equal. f_equal.
    unfold pos, toupper.
    change (chr "L") with 76. change (chr "C") with 67.
    change (chr "R") with 82. change (chr "c") with 99.
    change (chr "r") with 114.
    destruct (Z.leb_spec 97 value), (Z.leb_spec value 122); cbn [andb];
      repeat match goal with
        | |- context [?a =? ?b] => destruct (Z.eqb_spec a b)
        end; cbn [orb]; try reflexivity; lia.
  - apply writeBytes3_keeps.
Qed.

(** X15 (feedRows): [feedRows] sends ESC 'J' rows (rows modulo 256), puts
    the column at 0 and the previous byte at newline, and returns at once
    after the wait of its command.  In timing mode the deadline on return
    is the clock plus rows * dotFeedTime (modulo 2^32): the estimate
    replaces the transmission time of the three bytes, it is not added to
    it.  Under the handshake the deadline is left alone. *)
Theorem feedRows_estimate :
  forall (rows : Z) (s : State),
    let s' := feedRows rows s in
    column (dev s') = 0
    /\ prevByte (dev s') = chr "010"
    /\ wire (hw s') = wire (hw s) ++ [ASCII_ESC; chr "J"; u8 rows]
    /\ resumeTime (dev s')
       = (if dtrEnabled (dev s) then resumeTime (dev s)
          else u32 (micros s' + u8 rows * dotFeedTime (dev s)))
    /\ micros s' = micros (timeoutWait s).
Proof.
  intros rows s s'. unfold s', feedRows. cbv zeta.
  pose proof (writeBytes3_dev ASCII_ESC (chr "J") (u8 rows) s) as D.
  pose proof (writeBytes3_micros ASCII_ESC (chr "J") (u8 rows) s) as M.
  pose proof (writeBytes3_wire ASCII_ESC (chr "J") (u8 rows) s) as W.
  rewrite u8_idem in W.
  generalize dependent (writeBytes3 ASCII_ESC (chr "J") (u8 rows) s).
  intros s1 D M W.
  unfold micros in *. regs.
  rewrite !timeoutSet_hw, timeoutSet_dev, W, M, D.
  destruct (dtrEnabled (dev s)) eqn:E; regs; rewrite ?E; regs;
    unfold micros; rewrite ?M; repeat split; reflexivity.
Qed.

(** ** Barcodes on old firmware *)

Lemma write_frame (c : Z) (s : State) :
  firmware (dev (write c s)) = firmware (dev s)
  /\ barcodeHeight (dev (write c s)) = barcodeHeight (dev s)
  /\ dotPrintTime (dev (write c s)) = dotPrintTime (dev s).
Proof.
  unfold write. cbv zeta.
  destruct (negb (u8 c =? 13)); [| repeat split].
  match goal with |- context [if ?b then _ else _] => destruct b end; regs;
    match goal with |- context [timeoutSet ?x ?t] =>
      destruct (timeoutSet_keeps x t) as [r ->] end;
    regs; rewrite ?stream_write_dev, ?timeoutWait_dev; repeat split.
Qed.

(** The copying loop sends the characters up to the first NUL, and the
    NUL. *)
Lemma barcode_copy_returns (fuel : nat) (text : list Z) :
  Forall (fun c => 0 <= c < 256) text ->
  forall (i : Z) (s : State),
    0 <= i ->
    i + strlen (skipn (Z.to_nat i) text) <= 255 ->
    strlen (skipn (Z.to_nat i) text) < Z.of_nat fuel ->
    exists s' : State,
      barcode_copy fuel text i s = Ok s'
      /\ wire (hw s')
         = wire (hw s)
           ++ firstn (Z.to_nat (strlen (skipn (Z.to_nat i) text)))
                (skipn (Z.to_nat i) text)
           ++ [0]
      /\ (exists r : Z, dev s' = set_resumeTime r (dev s)).
Proof.
  intros B. induction fuel as [| fuel IH]; intros i s P L F.
  - pose proof (strlen_bound (skipn (Z.to_nat i) text)). lia.
  - cbn [barcode_copy]. unfold char_at.
    destruct (Nat.lt_ge_cases (Z.to_nat i) (length text)) as [In | Out].
    + rewrite (skipn_nth text (Z.to_nat i) In) in *.
      assert (R : 0 <= nth (Z.to_nat i) text 0 < 256).
      { rewrite Forall_forall in B. apply B. apply nth_In. exact In. }
      set (c := nth (Z.to_nat i) text 0) in *.
      cbn [strlen] in *. rewrite (u8_small c R).
      destruct (Z.eqb_spec c 0) as [Z0 | NZ].
      * cbn [negb]. eexists. split; [reflexivity |].
        rewrite writeBytes1_wire. split; [rewrite Z0; reflexivity |].
        apply writeBytes1_keeps.
      * cbn [negb].
        pose proof (strlen_bound (skipn (S (Z.to_nat i)) text)) as SB.
        assert (E : Z.to_nat (u8 (i + 1)) = S (Z.to_nat i)).
        { rewrite u8_small by lia. lia. }
        destruct (IH (u8 (i + 1)) (writeBytes1 c s)) as (s' & E1 & W & K).
        { apply u8_range. }
        { rewrite E. rewrite u8_small by lia. lia. }
        { rewrite E. lia. }
        exists s'. split; [exact E1 |]. rewrite W, E, writeBytes1_wire.
        rewrite (u8_small c R).
        replace (Z.to_nat (1 + strlen (skipn (S (Z.to_nat i)) text)))
          with (S (Z.to_nat (strlen (skipn (S (Z.to_nat i)) text)))) by lia.
        cbn [firstn]. rewrite <- app_assoc. split; [reflexivity |].
        destruct K as [r ->]. destruct (writeBytes1_keeps c s) as [r0 ->].
        eexists. reflexivity.
    + rewrite nth_overflow by exact Out.
      rewrite skipn_all2 by exact Out.
      cbn. eexists. split; [reflexivity |].
      rewrite writeBytes1_wire. split; [reflexivity |].
      apply writeBytes1_keeps.
Qed.

(** With no NUL among the first 256 characters the one-byte index comes
    round and the loop goes on for ever. *)
Lemma barcode_copy_spins (fuel : nat) (text : list Z) :
  (forall j : Z, 0 <= j < 256 -> u8 (char_at text j) <> 0) ->
  forall (i : Z) (s : State),
    0 <= i < 256 ->
    barcode_copy fuel text i s = Err StillLooping.
Proof.
  intros N. induction fuel as [| fuel IH]; intros i s R.
  - reflexivity.
  - cbn [barcode_copy].
    destruct (Z.eqb_spec (u8 (char_at text i)) 0) as [Z0 | _].
    + exfalso. exact (N i R Z0).
    + cbn [negb]. apply IH. apply u8_range.
Qed.

(** X16 (printBarcode): on firmware older than 264, a barcode whose text is
    at most 255 bytes long is sent after one line feed and the commands
    GS 'H' 2, GS 'w' 3, GS 'k' type (the type not offset by 65), as the
    characters up to the first NUL followed by a NUL terminator, with no
    length byte.  The copy loop counts with a byte: a text with no NUL
    among its first 256 positions is copied without end. *)
Theorem printBarcode_legacy :
  forall (text : list Z) (type : Z) (s : State),
    firmware (dev s) < 264 ->
    (Forall (fun c => 0 <= c < 256) text ->
     strlen text <= 255 ->
     exists s' : State,
       printBarcode text type s = Ok s'
       /\ wire (hw s')
          = wire (hw s)
            ++ [10]
            ++ [ASCII_GS; chr "H"; 2; ASCII_GS; chr "w"; 3;
                ASCII_GS; chr "k"; u8 type]
            ++ firstn (Z.to_nat (strlen text)) text
            ++ [0]
       /\ prevByte (dev s') = chr "010")
    /\ ((forall j : Z, 0 <= j < 256 -> u8 (char_at text j) <> 0) ->
        printBarcode text type s = Err StillLooping
        /\ forall (fuel : nat) (s1 : State),
             barcode_copy fuel text 0 s1 = Err StillLooping).
Proof.
  intros text type s V.
  assert (F1 : firmware (dev (feed 1 s)) = firmware (dev s)
               /\ wire (hw (feed 1 s)) = wire (hw s) ++ [10]).
  { unfold feed. cbv zeta.
    destruct (Z.leb_spec 264 (firmware (dev s))); [lia |].
    change (Z.to_nat (u8 1)) with 1%nat. cbn [feed_manually].
    destruct (write_newline s) as (_ & _ & F & _).
    split; [exact F |]. rewrite write_wire. reflexivity. }
  unfold printBarcode. cbv zeta.
  generalize dependent (feed 1 s). intros s1 [F1 W1].
  destruct (Z.leb_spec 264 (firmware (dev s1))) as [A | A]; [lia |].
  set (s4 := writeBytes3 ASCII_GS (chr "k") (u8 type)
               (writeBytes3 ASCII_GS (chr "w") 3
                  (writeBytes3 ASCII_GS (chr "H") 2 s1))).
  assert (F4 : firmware (dev s4) = firmware (dev s1)).
  { unfold s4. throttle_away. reflexivity. }
  assert (W4 : wire (hw s4)
               = wire (hw s) ++ [10]
                 ++ [ASCII_GS; chr "H"; 2; ASCII_GS; chr "w"; 3;
                     ASCII_GS; chr "k"; u8 type]).
  { unfold s4. rewrite !writeBytes3_wire, W1, u8_idem, <- !app_assoc.
    reflexivity. }
  clearbody s4.
  destruct (Z.leb_spec 264 (firmware (dev s4))) as [A4 | A4]; [lia |].
  split.
  - intros B L.
    destruct (barcode_copy_returns 256 text B 0 s4 ltac:(lia)
                ltac:(cbn [Z.to_nat skipn]; lia)
                ltac:(cbn [Z.to_nat skipn]; lia)) as (s5 & E & W & K).
    rewrite E. cbn [bind]. eexists. split; [reflexivity |].
    cbn [hw dev on_dev]. rewrite timeoutSet_wire, W, W4.
    cbn [Z.to_nat skipn]. rewrite <- !app_assoc. split; reflexivity.
  - intros N. split.
    + rewrite barcode_copy_spins by (assumption || lia). reflexivity.
    + intros fuel s1'. apply barcode_copy_spins; [assumption | lia].
Qed.

Lemma printBarcode_legacy_witness :
  exists s' : State,
    printBarcode [chr "1"; chr "2"] 4 (on_dev (set_firmware 200) booted)
    = Ok s'
    /\ skipn 10 (wire (hw s')) = [chr "1"; chr "2"; 0].
Proof.
  destruct (proj1 (printBarcode_legacy [chr "1"; chr "2"] 4
                     (on_dev (set_firmware 200) booted) ltac:(simpl; lia))
              ltac:(repeat (apply Forall_cons;
                            [vm_compute; split; [discriminate | reflexivity] |]);
                    apply Forall_nil)
              ltac:(vm_compute; discriminate))
    as (s' & E & W & _).
  exists s'. split; [exact E |]. rewrite W. reflexivity.
Defined.

(** X17 (setBarcodeHeight): the barcode height recorded and sent with
    GS 'h' is the argument as a byte, raised to 1 when it is 0: always
    between 1 and 255. *)
Theorem setBarcodeHeight_floor :
  forall (val : Z) (s : State),
    let s' := setBarcodeHeight val s in
    barcodeHeight (dev s') = clamp 1 255 (u8 val)
    /\ 1 <= barcodeHeight (dev s') <= 255
    /\ wire (hw s')
       = wire (hw s) ++ [ASCII_GS; chr "h"; barcodeHeight (dev s')].
Proof.
  intros val s s'. pose proof (u8_range val) as R.
  assert (E : (if u8 val <? 1 then 1 else u8 val) = clamp 1 255 (u8 val)).
  { unfold clamp. destruct (Z.ltb_spec (u8 val) 1); lia. }
  assert (B : barcodeHeight (dev s') = clamp 1 255 (u8 val)).
  { unfold s', setBarcodeHeight. cbv zeta. throttle_away. regs. exact E. }
  rewrite B. split; [reflexivity |]. split; [unfold clamp; lia |].
  unfold s', setBarcodeHeight. cbv zeta. rewrite writeBytes3_wire.
  cbn [hw on_dev]. rewrite E.
  rewrite (u8_small (clamp 1 255 (u8 val))) by (unfold clamp; lia).
  reflexivity.
Qed.

(** ** The status poll *)

Lemma poll_status_found (k : nat) :
  forall (n : nat) (status b : Z) (rest : list (option Z)) (s : State),
    inbox (hw s) = repeat None k ++ Some b :: rest ->
    (k < n)%nat ->
    0 <= micros s < 4294967296 ->
    fst (poll_status n status s) = u8 b
    /\ inbox (hw (snd (poll_status n status s))) = rest
    /\ micros (snd (poll_status n status s))
       = u32 (micros s + Z.of_nat k * 100000)
    /\ wire (hw (snd (poll_status n status s))) = wire (hw s)
    /\ dtrLine (hw (snd (poll_status n status s))) = dtrLine (hw s)
    /\ dev (snd (poll_status n status s)) = dev s.
Proof.
  induction k as [| k IH]; intros n status b rest s I L C.
  - destruct n as [| n]; [lia |]. cbn [poll_status]. rewrite I.
    cbn [repeat app fst snd]. unfold micros in *. cbn.
    repeat split. rewrite Z.add_0_r, u32_small by exact C. reflexivity.
  - destruct n as [| n]; [lia |]. cbn [poll_status]. rewrite I.
    cbn [repeat app].
    destruct (IH n status b rest
                (delay 100 (on_hw (set_inbox (repeat None k ++ Some b :: rest)) s)))
      as (F & I' & M & W & D & K).
    + reflexivity.
    + lia.
    + unfold micros. cbn. apply u32_range.
    + rewrite F, I', M, W, D, K. unfold micros. cbn.
      repeat split. rewrite u32_add_l. f_equal. lia.
Qed.

Lemma poll_status_silent (n : nat) :
  forall (status : Z) (s : State),
    Forall (fun o => o = None) (firstn n (inbox (hw s))) ->
    fst (poll_status n status s) = status
    /\ inbox (hw (snd (poll_status n status s))) = skipn n (inbox (hw s))
    /\ micros (snd (poll_status n status s))
       = u32 (micros s + Z.of_nat n * 100000)
       \/ n = O.
Proof.
  induction n as [| n IH]; intros status s A.
  - right. reflexivity.
  - left. cbn [poll_status].
    destruct (inbox (hw s)) as [| [b |] rest] eqn:I.
    + destruct (IH status (delay 100 s)) as [(F & I' & M) | Z0].
      * unfold delay. cbn. rewrite I. rewrite firstn_nil. constructor.
      * rewrite F, I', M. unfold micros, delay. cbn. rewrite I.
        rewrite !skipn_nil. repeat split. rewrite u32_add_l. f_equal. lia.
      * subst n. cbn. unfold micros. cbn. rewrite I. repeat split.
    + cbn [firstn] in A. inversion A as [| x l Hx Hl]. discriminate Hx.
    + cbn [firstn] in A. inversion A as [| x l Hx Hl]. subst.
      destruct (IH status (delay 100 (on_hw (set_inbox rest) s)))
        as [(F & I' & M) | Z0].
      * exact Hl.
      * rewrite F, I', M. unfold micros, delay. cbn.
        repeat split. rewrite u32_add_l. f_equal. lia.
      * subst n. cbn. unfold micros. cbn. repeat split.
Qed.

Lemma writeCmdBytes_now (a b c : Z) (s : State) :
  hw (writeCmdBytes a b c true s)
  = set_wire (wire (hw s) ++ [u8 a; u8 b; u8 c]) (hw s)
  /\ exists r : Z, dev (writeCmdBytes a b c true s) = set_resumeTime r (dev s).
Proof.
  unfold writeCmdBytes. cbv zeta. cbn [negb].
  split.
  - rewrite timeoutSet_hw. cbn. rewrite <- !app_assoc. reflexivity.
  - match goal with |- context [timeoutSet ?x ?t] =>
      destruct (timeoutSet_keeps x t) as [r ->] end.
    eexists. reflexivity.
Qed.

(** X18 (getStatus): [getStatus] sends DLE EOT page without waiting and
    polls the input at most 10 times, 100 ms apart.  The result is a byte.
    If a byte arrives at poll k < 10, it is returned after k * 100 ms and
    nothing after it is consumed; if none arrives in 10 polls, the result
    is 255 after 1 s.  The handshake line is not read. *)
Theorem getStatus_bounded_poll :
  forall (statusPage : Z) (s : State),
    0 <= micros s < 4294967296 ->
    let r := getStatus statusPage s in
    (wire (hw (snd r)) = wire (hw s) ++ [16; 4; u8 statusPage]
     /\ dtrLine (hw (snd r)) = dtrLine (hw s)
     /\ 0 <= fst r < 256)
    /\ (forall (k : nat) (b : Z) (rest : list (option Z)),
          inbox (hw s) = repeat None k ++ Some b :: rest ->
          (k < 10)%nat ->
          fst r = u8 b
          /\ inbox (hw (snd r)) = rest
          /\ micros (snd r) = u32 (micros s + Z.of_nat k * 100000))
    /\ (Forall (fun o => o = None) (firstn 10 (inbox (hw s))) ->
        fst r = 255
        /\ inbox (hw (snd r)) = skipn 10 (inbox (hw s))
        /\ micros (snd r) = u32 (micros s + 1000000)).
Proof.
  intros statusPage s C r. unfold r, getStatus. cbv zeta.
  destruct (writeCmdBytes_now 16 4 statusPage s) as (H & _).
  assert (C1 : 0 <= micros (writeCmdBytes 16 4 statusPage true s) < 4294967296)
    by (unfold micros; rewrite H; exact C).
  assert (I1 : inbox (hw (writeCmdBytes 16 4 statusPage true s))
               = inbox (hw s)) by (rewrite H; reflexivity).
  assert (M1 : micros (writeCmdBytes 16 4 statusPage true s) = micros s)
    by (unfold micros; rewrite H; reflexivity).
  assert (W1 : wire (hw (writeCmdBytes 16 4 statusPage true s))
               = wire (hw s) ++ [16; 4; u8 statusPage])
    by (rewrite H; reflexivity).
  assert (D1 : dtrLine (hw (writeCmdBytes 16 4 statusPage true s))
               = dtrLine (hw s)) by (rewrite H; reflexivity).
  clear H. generalize dependent (writeCmdBytes 16 4 statusPage true s).
  intros s1 C1 I1 M1 W1 D1.
  split; [| split].
  - split; [| split; [| apply poll_status_byte; lia]].
    + rewrite <- W1. clear. generalize 255. generalize 10%nat.
      intros n. revert s1. induction n as [| n IH]; intros s1 st.
      * reflexivity.
      * cbn [poll_status]. destruct (inbox (hw s1)) as [| [b |] rest].
        -- rewrite IH. reflexivity.
        -- reflexivity.
        -- rewrite IH. reflexivity.
    + rewrite <- D1. clear. generalize 255. generalize 10%nat.
      intros n. revert s1. induction n as [| n IH]; intros s1 st.
      * reflexivity.
      * cbn [poll_status]. destruct (inbox (hw s1)) as [| [b |] rest].
        -- rewrite IH. reflexivity.
        -- reflexivity.
        -- rewrite IH. reflexivity.
  - intros k b rest I L. rewrite <- I1 in I.
    destruct (poll_status_found k 10 255 b rest s1 I L C1)
      as (F & I' & M & _).
    rewrite F, I', M, M1. repeat split.
  - intros A. rewrite <- I1 in A.
    destruct (poll_status_silent 10 255 s1 A) as [(F & I' & M) | Z0];
      [| discriminate Z0].
    rewrite F, I', M, M1, I1. repeat split.
Qed.

Lemma getStatus_bounded_poll_witness :
  fst (getStatus 4 (on_hw (set_inbox [None; None; Some 18]) booted)) = 18.
Proof.
  apply (proj1 (proj2
           (getStatus_bounded_poll 4
              (on_hw (set_inbox [None; None; Some 18]) booted)
              ltac:(vm_compute; split; [discriminate | reflexivity])))
           2%nat 18 [] eq_refl ltac:(lia)).
Defined.

(** ** Encodings *)

(** X19 (sleepAfter): on firmware 264 and later the delay in seconds, a
    16-bit number, is sent after ESC '8' as two bytes, low byte first; on
    older firmware only its low byte is sent. *)
Theorem sleepAfter_bytes :
  forall (seconds : Z) (s : State),
    0 <= seconds < 65536 ->
    let lo := seconds mod 256 in
    let hi := seconds / 256 in
    (264 <= firmware (dev s) ->
     wire (hw (sleepAfter seconds s))
     = wire (hw s) ++ [ASCII_ESC; chr "8"; lo; hi]
     /\ lo + 256 * hi = seconds
     /\ 0 <= hi < 256)
    /\ (firmware (dev s) < 264 ->
        wire (hw (sleepAfter seconds s)) = wire (hw s) ++ [ASCII_ESC; chr "8"; lo]).
Proof.
  intros seconds s R lo hi. unfold sleepAfter. cbv zeta.
  assert (U : u16 seconds = seconds) by (apply Z.mod_small; exact R).
  rewrite U.
  assert (H : 0 <= hi < 256).
  { unfold hi. split; [apply Z.div_pos; lia |].
    apply Z.div_lt_upper_bound; lia. }
  split; intros V.
  - destruct (Z.leb_spec 264 (firmware (dev s))); [| lia].
    rewrite writeBytes4_wire.
    replace (Z.shiftr seconds 8) with hi
      by (unfold hi; rewrite Z.shiftr_div_pow2 by lia; reflexivity).
    rewrite (u8_small hi H).
    split; [reflexivity |]. split; [| exact H].
    unfold lo, hi. pose proof (Z.div_mod seconds 256 ltac:(lia)). lia.
  - destruct (Z.leb_spec 264 (firmware (dev s))); [lia |].
    rewrite writeBytes3_wire. reflexivity.
Qed.

Lemma sleepAfter_bytes_witness :
  wire (hw (sleepAfter 300 booted)) = [ASCII_ESC; chr "8"; 44; 1].
Proof.
  apply (proj1 (proj1 (sleepAfter_bytes 300 booted ltac:(lia))
                  ltac:(simpl; lia))).
Defined.

(** X20 (setPrintDensity): for a break time below 32, the byte sent after
    DC2 '#' carries the break time in its low five bits and the density in
    its high three bits, so only the density modulo 8 reaches the
    printer. *)
Theorem setPrintDensity_byte :
  forall (density breakTime : Z) (s : State),
    0 <= density < 256 ->
    0 <= breakTime < 32 ->
    exists n : Z,
      wire (hw (setPrintDensity density breakTime s))
      = wire (hw s) ++ [ASCII_DC2; chr "#"; n]
      /\ n = 32 * (density mod 8) + breakTime
      /\ n / 32 = density mod 8
      /\ n mod 32 = breakTime.
Proof.
  intros density breakTime s D B.
  exists (u8 (Z.lor (Z.shiftl (u8 density) 5) (u8 breakTime))).
  unfold setPrintDensity. rewrite writeBytes3_wire.
  split; [reflexivity |].
  assert (E : u8 (Z.lor (Z.shiftl (u8 density) 5) (u8 breakTime))
              = 32 * (density mod 8) + breakTime).
  { apply Z.eqb_eq.
    pose proof (byte_forall
                  (fun d =>
                     forallb
                       (fun b =>
                          u8 (Z.lor (Z.shiftl (u8 d) 5) (u8 b))
                          =? 32 * (d mod 8) + b)
                       (map Z.of_nat (seq 0 32)))
                  ltac:(vm_compute; reflexivity) density D) as F.
    cbv beta in F. rewrite forallb_forall in F. apply F.
    apply in_map_iff. exists (Z.to_nat breakTime). split; [lia |].
    apply in_seq. lia. }
  rewrite E. split; [reflexivity |].
  pose proof (Z.mod_pos_bound density 8 ltac:(lia)) as M.
  split.
  - rewrite Z.mul_comm, Z.div_add_l by lia. rewrite Z.div_small by lia. lia.
  - rewrite Z.add_comm, Z.mul_comm, Z.mod_add by lia.
    apply Z.mod_small. lia.
Qed.

Lemma setPrintDensity_byte_witness :
  exists n : Z,
    wire (hw (setPrintDensity 10 2 booted)) = [ASCII_DC2; chr "#"; n]
    /\ n = 66.
Proof.
  destruct (setPrintDensity_byte 10 2 booted ltac:(lia) ltac:(lia))
    as (n & W & E & _).
  exists n. split; [exact W | exact E].
Defined.

(** ** User-defined characters *)

Lemma timeoutWait_open (s : State) :
  dtrEnabled (dev s) = false ->
  0 <= s32 (micros s - resumeTime (dev s)) ->
  timeoutWait s = s.
Proof.
  intros D Open. unfold timeoutWait. rewrite D. unfold pending, on_hw.
  unfold micros in Open.
  replace (Z.to_nat (- s32 (clock (hw s) - resumeTime (dev s))))
    with 0%nat by lia.
  cbn [wait_deadline]. destruct s. reflexivity.
Qed.

Lemma user_bytes_spec (n : nat) (charBytes : Z -> Z) :
  forall (x : Z) (s : State),
    wire (hw (user_bytes n charBytes x s))
    = wire (hw s) ++ row_bytes charBytes x n
    /\ dev (user_bytes n charBytes x s) = dev s
    /\ (dtrEnabled (dev s) = false ->
        micros (user_bytes n charBytes x s)
        = if Nat.eqb n 0 then micros s else micros (timeoutWait s)).
Proof.
  induction n as [| n IH]; intros x s.
  - cbn. unfold row_bytes. cbn. rewrite app_nil_r. repeat split.
  - cbn [user_bytes].
    destruct (IH (x + 1) (stream_write (charBytes x) (timeoutWait s)))
      as (W & K & M).
    rewrite W, K, row_bytes_step, stream_write_wire, stream_write_dev.
    rewrite timeoutWait_wire, timeoutWait_dev, <- app_assoc.
    split; [reflexivity |]. split; [reflexivity |].
    intros D. rewrite M by (rewrite stream_write_dev, timeoutWait_dev; exact D).
    cbn [Nat.eqb]. destruct (Nat.eqb n 0); [reflexivity |].
    assert (Op : timeoutWait (stream_write (charBytes x) (timeoutWait s))
                 = stream_write (charBytes x) (timeoutWait s)).
    { apply timeoutWait_open.
      - rewrite stream_write_dev, timeoutWait_dev. exact D.
      - rewrite stream_write_micros, stream_write_dev, timeoutWait_dev.
        apply timeoutWait_ready. exact D. }
    rewrite Op. reflexivity.
Qed.

(** X21 (userDefinedCharacter): the command ESC '&' y from to is followed
    by the first [arySize] bytes of the array, each sent after a wait for
    the deadline.  The data bytes set no deadline: the driver object is as
    the header command left it, and in timing mode the deadline has passed
    when the method returns after at least one data byte. *)
Theorem userDefinedCharacter_unthrottled :
  forall (y_bytes charCodeFrom charCodeTo arySize : Z) (charBytes : Z -> Z)
         (s : State),
    let header :=
      writeBytes5 ASCII_ESC (chr "&") y_bytes charCodeFrom charCodeTo s in
    let s' :=
      userDefinedCharacter y_bytes charCodeFrom charCodeTo arySize charBytes s in
    wire (hw s')
    = wire (hw s)
      ++ [ASCII_ESC; chr "&"; u8 y_bytes; u8 charCodeFrom; u8 charCodeTo]
      ++ row_bytes charBytes 0 (Z.to_nat arySize)
    /\ dev s' = dev header
    /\ (dtrEnabled (dev s) = false -> 1 <= arySize ->
        0 <= s32 (micros s' - resumeTime (dev s'))).
Proof.
  intros y_bytes charCodeFrom charCodeTo arySize charBytes s header s'.
  unfold s', userDefinedCharacter. cbv zeta. fold header.
  pose proof (writeBytes5_wire ASCII_ESC (chr "&") y_bytes charCodeFrom
                charCodeTo s) as W5.
  fold header in W5.
  assert (D5 : dtrEnabled (dev header) = dtrEnabled (dev s)).
  { unfold header.
    destruct (writeBytes5_keeps ASCII_ESC (chr "&") y_bytes charCodeFrom
                charCodeTo s) as [r ->]. reflexivity. }
  clearbody header.
  destruct (user_bytes_spec (Z.to_nat arySize) charBytes 0 header)
    as (W & K & M).
  rewrite W, K, W5, <- app_assoc.
  split; [reflexivity |]. split; [reflexivity |].
  intros D A. rewrite M by (rewrite D5; exact D).
  destruct (Nat.eqb_spec (Z.to_nat arySize) 0) as [E | _]; [lia |].
  apply timeoutWait_ready. rewrite D5. exact D.
Qed.

Lemma userDefinedCharacter_unthrottled_witness :
  0 <= s32 (micros (userDefinedCharacter 3 32 32 37 (fun i => i) booted)
            - resumeTime
                (dev (userDefinedCharacter 3 32 32 37 (fun i => i) booted))).
Proof.
  apply (proj2 (proj2
           (userDefinedCharacter_unthrottled 3 32 32 37 (fun i => i) booted))
           eq_refl ltac:(lia)).
Defined.

(** ** The header of a streamed bitmap *)

Lemma sint_keeps (bits x : Z) :
  0 <= x < 65536 -> 16 < bits \/ (16 = bits /\ x < 32768) -> sint bits x = x.
Proof.
  intros R [B | [B H]]; unfold sint; cbv zeta.
  - assert (P : 2 ^ 16 <= 2 ^ (bits - 1)) by (apply Z.pow_le_mono_r; lia).
    assert (Q : 2 ^ (bits - 1) < 2 ^ bits) by (apply Z.pow_lt_mono_r; lia).
    change (2 ^ 16) with 65536 in P.
    rewrite Z.mod_small by lia.
    destruct (Z.ltb_spec x (2 ^ (bits - 1))); [reflexivity | lia].
  - subst bits. change (2 ^ 16) with 65536. change (2 ^ (16 - 1)) with 32768.
    rewrite Z.mod_small by lia.
    destruct (Z.ltb_spec x 32768); [reflexivity | lia].
Qed.

Lemma sint_wraps (x : Z) : 32768 <= x < 65536 -> sint 16 x = x - 65536.
Proof.
  intros R. unfold sint. cbv zeta.
  change (2 ^ 16) with 65536. change (2 ^ (16 - 1)) with 32768.
  rewrite Z.mod_small by lia.
  destruct (Z.ltb_spec x 32768); [lia | reflexivity].
Qed.

(** X22 (printBitmap from a stream with a header): the first four bytes of
    the stream are read as the width and the height, 16 bits each and low
    byte first, and the rest is printed as a streamed bitmap of that size,
    the two numbers passed as [int].  Where [int] is wider than 16 bits, and
    for a number below 32768 (high byte below 128) in any case, the number
    arrives as it was read; where [int] has 16 bits a number from 32768 on
    arrives lowered by 65536, negative. *)
Theorem printBitmapHeader_little_endian :
  forall (intBits : Z) (fuel : nat) (w0 w1 h0 h1 : Z) (src : list Z)
         (s : State),
    16 <= intBits ->
    0 <= w0 < 256 -> 0 <= w1 < 256 -> 0 <= h0 < 256 -> 0 <= h1 < 256 ->
    let width := w0 + 256 * w1 in
    let height := h0 + 256 * h1 in
    printBitmapHeader intBits fuel (w0 :: w1 :: h0 :: h1 :: src) s
    = printBitmapStream fuel (sint intBits width) (sint intBits height) src s
    /\ (16 < intBits \/ w1 < 128 -> sint intBits width = width)
    /\ (16 < intBits \/ h1 < 128 -> sint intBits height = height)
    /\ (intBits = 16 -> 128 <= w1 ->
        sint intBits width = width - 65536 /\ sint intBits width < 0)
    /\ (intBits = 16 -> 128 <= h1 ->
        sint intBits height = height - 65536 /\ sint intBits height < 0).
Proof.
  intros intBits fuel w0 w1 h0 h1 src s I A B C D width height.
  split; [| split; [| split; [| split]]].
  - unfold printBitmapHeader. cbn [stream_read].
    rewrite (u8_small w0 A), (u8_small h0 C).
    rewrite !Z.shiftl_mul_pow2 by lia. change (2 ^ 8) with 256.
    unfold u16. rewrite !Z.mod_small by lia.
    unfold width, height. f_equal; f_equal; lia.
  - intros K. apply sint_keeps; unfold width; lia.
  - intros K. apply sint_keeps; unfold height; lia.
  - intros E K. subst intBits.
    rewrite sint_wraps by (unfold width; lia). unfold width. lia.
  - intros E K. subst intBits.
    rewrite sint_wraps by (unfold height; lia). unfold height. lia.
Qed.

Lemma printBitmapHeader_little_endian_witness :
  printBitmapHeader 16 3 [144; 1; 10; 0] booted
  = printBitmapStream 3 400 10 [] booted
  /\ sint 16 (0 + 256 * 128) = -32768.
Proof.
  split.
  - destruct (printBitmapHeader_little_endian 16 3 144 1 10 0 [] booted
                ltac:(lia) ltac:(lia) ltac:(lia) ltac:(lia) ltac:(lia))
      as (E & W & H & _).
    rewrite E, (W ltac:(right; lia)), (H ltac:(right; lia)). reflexivity.
  - apply (proj1 (proj1 (proj2 (proj2 (proj2
             (printBitmapHeader_little_endian 16 0 0 128 0 0 [] booted
                ltac:(lia) ltac:(lia) ltac:(lia) ltac:(lia) ltac:(lia)))))
             eq_refl ltac:(lia))).
Defined.

(** ** Bitmaps of any size *)








(** X24 (printBitmap, both forms): in timing mode a width of 0 (or down to
    -7) makes the chunk height computation divide by zero, whatever the
    height; with a usable width a height of 0 or less sends nothing,
    consumes nothing from the stream and only records a newline as the
    previous byte. *)
Theorem printBitmap_degenerate :
  forall (fuel : nat) (w h : Z) (bitmap : Z -> Z) (fromProgMem : bool)
         (src : list Z) (s : State),
    (-7 <= w <= 0 -> dtrEnabled (dev s) = false ->
     printBitmap fuel w h bitmap fromProgMem s = Err DivisionByZero
     /\ printBitmapStream fuel w h src s = Err DivisionByZero)
    /\ (h <= 0 -> (1 <= w \/ dtrEnabled (dev s) = true) ->
        printBitmap fuel w h bitmap fromProgMem s
        = Ok (on_dev (set_prevByte (chr "010")) s)
        /\ printBitmapStream fuel w h src s
           = Ok (src, on_dev (set_prevByte (chr "010")) s)).
Proof.
  intros fuel w h bitmap fromProgMem src s. split.
  - intros W D. unfold printBitmap, printBitmapStream. cbv zeta.
    assert (Z0 : rowBytesClipped_of (rowBytes_of w) = 0).
    { unfold rowBytesClipped_of, rowBytes_of, cdiv.
      rewrite Z.quot_small by lia. reflexivity. }
    rewrite Z0. unfold chunkHeightLimit_of. rewrite D.
    split; reflexivity.
  - intros H A. unfold printBitmap, printBitmapStream. cbv zeta.
    assert (Lim : exists limit : Z,
               chunkHeightLimit_of (rowBytesClipped_of (rowBytes_of w)) (dev s)
               = Ok limit).
    { unfold chunkHeightLimit_of. destruct (dtrEnabled (dev s)) eqn:D.
      - eexists. reflexivity.
      - destruct A as [A | A]; [| discriminate A].
        destruct (rowBytesClipped_range w A) as [_ R].
        destruct (Z.eqb_spec (rowBytesClipped_of (rowBytes_of w)) 0); [lia |].
        destruct (maxChunkHeight (dev s)
                  <? cdiv 256 (rowBytesClipped_of (rowBytes_of w)));
          [| destruct (cdiv 256 (rowBytesClipped_of (rowBytes_of w)) <? 1)];
          eexists; reflexivity. }
    destruct Lim as (limit & ->). cbn [bind].
    rewrite bitmap_chunks_done, stream_chunks_done by lia.
    split; reflexivity.
Qed.

Lemma printBitmap_degenerate_witness :
  printBitmap 5 0 3 (fun i => i) false booted = Err DivisionByZero
  /\ printBitmap 5 8 0 (fun i => i) false booted
     = Ok (on_dev (set_prevByte (chr "010")) booted).
Proof.
  split.
  - apply (proj1 (proj1 (printBitmap_degenerate 5 0 3 (fun i => i) false []
                           booted) ltac:(lia) eq_refl)).
  - apply (proj1 (proj2 (printBitmap_degenerate 5 8 0 (fun i => i) false []
                           booted) ltac:(lia) ltac:(left; lia))).
Defined.

(** ** The defaults *)

Lemma adjustCharValues_bytes (s : State) :
  wire (hw (adjustCharValues s))
  = wire (hw s)
    ++ [ASCII_ESC; chr "M"; font_id s; FIN_CMD;
        ASCII_GS; chr "!";
        (if double_width s then 16 else 0)
        + (if double_height s then 1 else 0);
        FIN_CMD]
    ++ (if autoLineHeight (dev s)
        then [ASCII_ESC; chr "3";
              (charHeight (dev (adjustCharValues s)) + lineSpacing (dev s))
              mod 256]
        else []).
Proof.
  rewrite adjustCharValues_wire.
  destruct (adjustCharValues_fields s) as (_ & H & _). rewrite H.
  pose proof (font_id_range s) as R.
  rewrite !(u8_small (font_id s)) by lia.
  rewrite double_width_bit, double_height_bit.
  change 32 with (2 ^ 5). change 16 with (2 ^ 4) at 1.
  rewrite !land_bit by lia.
  destruct (Z.testbit (printMode (dev s)) 5);
    destruct (Z.testbit (printMode (dev s)) 4); reflexivity.
Qed.

Lemma unsetPrintMode_frame (mask : Z) (s : State) :
  barcodeHeight (dev (unsetPrintMode mask s)) = barcodeHeight (dev s).
Proof.
  unfold unsetPrintMode, writePrintMode. cbv zeta.
  match goal with
  | |- context [adjustCharValues ?t] =>
      destruct (adjustCharValues_frame t) as (_ & _ & _ & _ & _ & _ & B & _)
  end.
  rewrite B. throttle_away. reflexivity.
Qed.

(** Clearing a mode bit on font A with automatic line height and neither
    double mode left: the mode byte, font A, single size, and the line
    height 24 + lineSpacing. *)
Lemma unsetPrintMode_plain (mask : Z) (s : State) :
  font_id s = 0 ->
  autoLineHeight (dev s) = true ->
  let pm := printMode (dev (unsetPrintMode mask s)) in
  Z.testbit pm 5 = false -> Z.testbit pm 4 = false ->
  wire (hw (unsetPrintMode mask s))
  = wire (hw s)
    ++ [ASCII_ESC; chr "!"; pm;
        ASCII_ESC; chr "M"; 0; FIN_CMD; ASCII_GS; chr "!"; 0; FIN_CMD;
        ASCII_ESC; chr "3"; (24 + lineSpacing (dev s)) mod 256].
Proof.
  intros F A pm B5 B4. unfold pm in B5, B4.
  assert (DH : double_height (unsetPrintMode mask s) = false)
    by (rewrite double_height_bit; exact B4).
  destruct (unsetPrintMode_fields mask s) as (P & F' & _).
  destruct (unsetPrintMode_current mask s) as (_ & H & _).
  rewrite DH, F', F in H. change (snd (font_cell 0) * 1) with 24 in H.
  fold pm in P, B5. clear B4 F'. clearbody pm.
  revert H P B5 DH.
  unfold unsetPrintMode, writePrintMode. cbv zeta.
  set (t := writeBytes3 ASCII_ESC (chr "!") _ _).
  intros H P B5 DH.
  assert (Pt : printMode (dev t) = pm).
  { unfold t. throttle_away. regs. symmetry. exact P. }
  assert (Ft : font_id t = 0).
  { unfold t, font_id. throttle_away. regs. exact F. }
  assert (At : autoLineHeight (dev t) = true).
  { unfold t. throttle_away. regs. exact A. }
  assert (Lt : lineSpacing (dev t) = lineSpacing (dev s)).
  { unfold t. throttle_away. reflexivity. }
  assert (Wt : wire (hw t) = wire (hw s) ++ [ASCII_ESC; chr "!"; pm]).
  { unfold t. rewrite writeBytes3_wire. cbn [hw dev on_dev]. regs.
    rewrite <- P. rewrite (u8_small pm) by (rewrite P; apply u8_range).
    reflexivity. }
  clearbody t.
  rewrite adjustCharValues_bytes, Ft, At, Lt, H, Wt.
  rewrite double_width_bit, double_height_bit, Pt, B5.
  rewrite double_height_bit in DH.
  destruct (adjustCharValues_fields t) as (_ & _ & _ & _ & Pa & _).
  rewrite Pa, Pt in DH. rewrite DH.
  rewrite <- app_assoc. reflexivity.
Qed.

Lemma inverseOff_mode (s : State) :
  printMode (dev (inverseOff s))
  = if 268 <=? firmware (dev s) then printMode (dev s)
    else u8 (Z.land (printMode (dev s)) (Z.lnot (u8 INVERSE_MASK))).
Proof.
  unfold inverseOff. destruct (268 <=? firmware (dev s)).
  - throttle_away. reflexivity.
  - apply unsetPrintMode_fields.
Qed.

Lemma setLineHeight_mode (val : Z) (s : State) :
  printMode (dev (setLineHeight val s)) = printMode (dev s).
Proof.
  unfold setLineHeight. cbv zeta.
  assert (P : printMode (dev (autoLineHeightOff s)) = printMode (dev s)).
  { unfold autoLineHeightOff.
    destruct (adjustCharValues_fields (on_dev (set_autoLineHeight false) s))
      as (_ & _ & _ & _ & P & _).
    rewrite P. reflexivity. }
  generalize dependent (autoLineHeightOff s). intros s1 P.
  throttle_away. regs. exact P.
Qed.

Lemma setBarcodeHeight_fields (val : Z) (s : State) :
  let s' := setBarcodeHeight val s in
  printMode (dev s') = printMode (dev s)
  /\ lineSpacing (dev s') = lineSpacing (dev s)
  /\ autoLineHeight (dev s') = autoLineHeight (dev s)
  /\ barcodeHeight (dev s') = (if u8 val <? 1 then 1 else u8 val).
Proof.
  unfold setBarcodeHeight. cbv zeta. throttle_away. regs. repeat split.
Qed.

(** The first ten steps of [setDefault], up to the font reset. *)
Lemma setDefault_before_size (s : State) :
  let s10 :=
    on_dev (set_fontData 0)
      (setBarcodeHeight 50
         (on_dev (set_autoLineHeight true)
            (underlineOff
               (boldOff
                  (setLineHeight 30
                     (doubleHeightOff
                        (inverseOff (justify (chr "L") (online s))))))))) in
  printMode (dev s10)
  = u8 (Z.land
          (u8 (Z.land
                 (if 268 <=? firmware (dev s) then printMode (dev s)
                  else u8 (Z.land (printMode (dev s))
                             (Z.lnot (u8 INVERSE_MASK))))
                 (Z.lnot (u8 DOUBLE_HEIGHT_MASK))))
          (Z.lnot (u8 BOLD_MASK)))
  /\ lineSpacing (dev s10) = 10
  /\ autoLineHeight (dev s10) = true
  /\ barcodeHeight (dev s10) = 50
  /\ font_id s10 = 0.
Proof.
  cbv zeta.
  assert (P2 : printMode (dev (justify (chr "L") (online s)))
               = printMode (dev s)
               /\ firmware (dev (justify (chr "L") (online s)))
                  = firmware (dev s)).
  { unfold justify, online. cbv zeta. throttle_away. split; reflexivity. }
  generalize dependent (justify (chr "L") (online s)). intros s2 [P2 V2].
  pose proof (inverseOff_mode s2) as P3. rewrite P2, V2 in P3.
  generalize dependent (inverseOff s2). intros s3 P3. clear P2 V2 s2.
  unfold doubleHeightOff.
  destruct (unsetPrintMode_fields DOUBLE_HEIGHT_MASK s3) as (P4 & _).
  rewrite P3 in P4.
  generalize dependent (unsetPrintMode DOUBLE_HEIGHT_MASK s3).
  intros s4 P4. clear P3 s3.
  pose proof (setLineHeight_mode 30 s4) as P5. rewrite P4 in P5.
  destruct (setLineHeight_regs 30 s4) as (L5 & _).
  change (u8 ((if 30 <? 20 then 20 else 30) - 20)) with 10 in L5.
  generalize dependent (setLineHeight 30 s4). intros s5 P5 L5. clear P4 s4.
  unfold boldOff.
  destruct (unsetPrintMode_fields BOLD_MASK s5) as (P6 & _ & _ & L6 & _).
  rewrite P5 in P6. rewrite L5 in L6.
  generalize dependent (unsetPrintMode BOLD_MASK s5).
  intros s6 P6 L6. clear P5 L5 s5.
  assert (K : printMode (dev (underlineOff s6)) = printMode (dev s6)
              /\ lineSpacing (dev (underlineOff s6)) = lineSpacing (dev s6)).
  { unfold underlineOff. throttle_away. split; reflexivity. }
  rewrite P6, L6 in K.
  generalize dependent (underlineOff s6). intros s7 [P7 L7]. clear P6 L6 s6.
  assert (K : printMode (dev (on_dev (set_autoLineHeight true) s7))
              = printMode (dev s7)
              /\ lineSpacing (dev (on_dev (set_autoLineHeight true) s7))
                 = lineSpacing (dev s7)
              /\ autoLineHeight (dev (on_dev (set_autoLineHeight true) s7))
                 = true).
  { repeat split. }
  rewrite P7, L7 in K.
  generalize dependent (on_dev (set_autoLineHeight true) s7).
  intros s8 (P8 & L8 & A8). clear P7 L7 s7.
  destruct (setBarcodeHeight_fields 50 s8) as (P9 & L9 & A9 & B9).
  rewrite P8 in P9. rewrite L8 in L9. rewrite A8 in A9.
  change (if u8 50 <? 1 then 1 else u8 50) with 50 in B9.
  generalize dependent (setBarcodeHeight 50 s8).
  intros s9 P9 L9 A9 B9. clear P8 L8 A8 s8.
  unfold font_id. regs. repeat split; assumption.
Qed.

(** [setSize] with a letter other than M or L, on font A with automatic
    line height: both double modes off, the cell of font A, and the line
    height 24 + lineSpacing commanded last. *)
Lemma setSize_small (s : State) :
  font_id s = 0 ->
  autoLineHeight (dev s) = true ->
  let s' := setSize (chr "s") s in
  printMode (dev s')
  = u8 (Z.land (u8 (Z.land (printMode (dev s))
                      (Z.lnot (u8 DOUBLE_WIDTH_MASK))))
          (Z.lnot (u8 DOUBLE_HEIGHT_MASK)))
  /\ (font_id s' = 0
      /\ lineSpacing (dev s') = lineSpacing (dev s)
      /\ autoLineHeight (dev s') = true
      /\ barcodeHeight (dev s') = barcodeHeight (dev s))
  /\ (charWidth (dev s') = 12
      /\ charHeight (dev s') = 24
      /\ maxColumn (dev s') = 32)
  /\ exists pre : list Z,
       wire (hw s')
       = pre ++ [ASCII_ESC; chr "3"; (24 + lineSpacing (dev s)) mod 256].
Proof.
  intros F A. cbv zeta. unfold setSize. cbv zeta.
  change (toupper (chr "s") =? chr "M") with false.
  change (toupper (chr "s") =? chr "L") with false. cbv iota.
  unfold doubleWidthOff, doubleHeightOff.
  destruct (unsetPrintMode_fields DOUBLE_WIDTH_MASK s)
    as (Pt & Ft & _ & Lt & At).
  pose proof (unsetPrintMode_frame DOUBLE_WIDTH_MASK s) as Bt.
  rewrite F in Ft. rewrite A in At.
  generalize dependent (unsetPrintMode DOUBLE_WIDTH_MASK s).
  intros t Pt Ft Lt At Bt.
  destruct (unsetPrintMode_fields DOUBLE_HEIGHT_MASK t)
    as (P11 & F11 & _ & L11 & A11).
  pose proof (unsetPrintMode_frame DOUBLE_HEIGHT_MASK t) as B11.
  pose proof (unsetPrintMode_current DOUBLE_HEIGHT_MASK t) as M11.
  rewrite Pt in P11. rewrite Ft in F11. rewrite Lt in L11.
  rewrite At in A11. rewrite Bt in B11.
  assert (B5 : Z.testbit (printMode (dev (unsetPrintMode DOUBLE_HEIGHT_MASK t)))
                 5 = false).
  { rewrite P11. mode_bit. }
  assert (B4 : Z.testbit (printMode (dev (unsetPrintMode DOUBLE_HEIGHT_MASK t)))
                 4 = false).
  { rewrite P11. mode_bit. }
  pose proof (unsetPrintMode_plain DOUBLE_HEIGHT_MASK t Ft At B5 B4) as W11.
  rewrite Lt in W11.
  generalize dependent (unsetPrintMode DOUBLE_HEIGHT_MASK t).
  intros s11 P11 F11 L11 A11 B11 M11 B5 B4 W11.
  assert (DW : double_width s11 = false) by (rewrite double_width_bit; exact B5).
  assert (DH : double_height s11 = false)
    by (rewrite double_height_bit; exact B4).
  destruct M11 as (MW & MH & MC).
  rewrite F11, DW in MW. rewrite F11, DH in MH.
  change (fst (font_cell 0) * 1) with 12 in MW.
  change (snd (font_cell 0) * 1) with 24 in MH.
  rewrite MW in MC. change (384 / 12) with 32 in MC.
  repeat split; try assumption.
  exists (wire (hw t)
          ++ [ASCII_ESC; chr "!"; printMode (dev s11);
              ASCII_ESC; chr "M"; 0; FIN_CMD; ASCII_GS; chr "!"; 0; FIN_CMD]).
  rewrite W11, <- !app_assoc. reflexivity.
Qed.

(** The three commands that end [setDefault] change no register but the
    deadline. *)
Lemma setDefault_tail (charset codePage : Z) (s : State) :
  let s' := cancelKanjiMode (setCodePage codePage (setCharset charset s)) in
  (exists r : Z, dev s' = set_resumeTime r (dev s))
  /\ wire (hw s')
     = wire (hw s)
       ++ [ASCII_ESC; chr "R"; clamp 0 15 (u8 charset);
           ASCII_ESC; chr "t"; clamp 0 47 (u8 codePage);
           ASCII_FS; chr "."].
Proof.
  cbv zeta. unfold cancelKanjiMode, setCodePage, setCharset. cbv zeta.
  pose proof (u8_range charset). pose proof (u8_range codePage).
  rewrite !clamp_top by lia.
  split.
  - throttle_away. regs. eexists. reflexivity.
  - rewrite writeBytes2_wire, !writeBytes3_wire, <- !app_assoc.
    rewrite !(u8_small (clamp _ _ _)) by (unfold clamp; lia).
    reflexivity.
Qed.

(** X25 (setDefault): [setDefault] leaves font A with both double sizes and
    bold off and the metrics of font A (12 by 24, 32 columns), the line
    spacing at 10, the automatic line height on and the barcode height at
    50.  Of [printMode] only the inverse, bold, double-height and
    double-width bits can change: strike and upside-down stay as they
    were.  The line height last commanded is 34 (character height 24 plus
    spacing 10), not the 30 passed to [setLineHeight]; then follow the
    character set and the code page, each clamped (to 15 and 47), and the
    command that cancels Kanji mode. *)
Theorem setDefault_registers :
  forall (charset codePage : Z) (s : State),
    let s' := setDefault charset codePage s in
    let cleared :=
      Z.lor INVERSE_MASK
        (Z.lor BOLD_MASK (Z.lor DOUBLE_HEIGHT_MASK DOUBLE_WIDTH_MASK)) in
    (font_id s' = 0
     /\ double_width s' = false
     /\ double_height s' = false
     /\ Z.testbit (printMode (dev s')) 3 = false
     /\ Z.land (printMode (dev s')) (Z.lnot cleared)
        = Z.land (u8 (printMode (dev s))) (Z.lnot cleared))
    /\ (charWidth (dev s') = 12
        /\ charHeight (dev s') = 24
        /\ maxColumn (dev s') = 32)
    /\ (lineSpacing (dev s') = 10
        /\ autoLineHeight (dev s') = true
        /\ barcodeHeight (dev s') = 50)
    /\ exists pre : list Z,
         wire (hw s')
         = pre
           ++ [ASCII_ESC; chr "3"; 34;
               ASCII_ESC; chr "R"; clamp 0 15 (u8 charset);
               ASCII_ESC; chr "t"; clamp 0 47 (u8 codePage);
               ASCII_FS; chr "."].
Proof.
  intros charset codePage s s' cleared. unfold s', setDefault. cbv zeta.
  destruct (setDefault_before_size s) as (P10 & L10 & A10 & B10 & F10).
  match type of F10 with font_id ?t = 0 =>
    generalize dependent t end.
  intros s10 P10 L10 A10 B10 F10.
  destruct (setSize_small s10 F10 A10)
    as (P11 & (F11 & L11 & A11 & B11) & (MW & MH & MC) & pre & W11).
  rewrite P10 in P11. rewrite L10 in L11, W11. rewrite B10 in B11.
  change ((24 + 10) mod 256) with 34 in W11.
  clear P10 L10 A10 B10 F10.
  generalize dependent (setSize (chr "s") s10).
  intros s11 P11 F11 L11 A11 B11 MW MH MC W11. clear s10.
  destruct (setDefault_tail charset codePage s11) as ([r D] & W).
  generalize dependent
    (cancelKanjiMode (setCodePage codePage (setCharset charset s11))).
  intros t D W.
  rewrite double_width_bit, double_height_bit.
  unfold font_id in *. rewrite D, W, W11. regs. rewrite P11.
  repeat split; try assumption.
  - destruct (268 <=? firmware (dev s)); mode_bit.
  - destruct (268 <=? firmware (dev s)); mode_bit.
  - destruct (268 <=? firmware (dev s)); mode_bit.
  - unfold cleared. destruct (268 <=? firmware (dev s)); bitwise.
  - exists pre. rewrite <- !app_assoc. reflexivity.
Qed.
